(** * Overnads game bot: the request executor, the stuck-game recoverer and
      the ticket play loop

    A shallow embedding of [main.py] and [overnads.py].  Both scripts are
    sequential programs whose only inputs are the answers of the network and
    the draws of the random generator, and whose observable behaviour is the
    sequence of requests, sleeps and log lines they produce, followed by a
    return, a process exit or an uncaught exception.  The embedding is a
    state-and-writer monad over exactly these: the network and the random
    generator are oracles, the events are written out in order. *)

From Stdlib Require Import ZArith String Ascii List Lia Bool.
From stdpp Require Import base gmap strings list.
Import ListNotations.

Set Warnings "-register-all".

Local Open Scope string_scope.
Local Open Scope Z_scope.
Local Open Scope list_scope.

(* ===================================================================== *)
(** ** Python values *)

(** What [response.json()] can return, and what the scripts pass as the
    [json=] payload of a request.  Numbers are integers: no field read by the
    scripts is fractional. *)
Inductive json : Type :=
  | JNull
  | JBool (b : bool)
  | JNum (z : Z)
  | JStr (s : string)
  | JArr (l : list json)
  | JObj (m : gmap string json).

(** The exceptions that the scripts can raise and do not catch inside the
    request executor.  [requests.exceptions.RequestException] is not among
    them: it is an answer of the network (see [net_outcome]). *)
Inductive exn : Type :=
  | AttributeError
  | TypeError
  | JSONDecodeError.

(** A [requests.Response]: the status code, the body as text, and the body as
    parsed by [response.json()] ([None] when the body is not JSON, in which
    case [.json()] raises [JSONDecodeError]). *)
Record response : Type := Response {
  status_code : Z;
  text : string;
  json_body : option json
}.

(** What one call of [requests] gives: a response, or a
    [RequestException] (timeout, connection error). *)
Inductive net_outcome : Type :=
  | Responded (r : response)
  | RequestException.

(** [bool(response)] is [response.ok]: false exactly when the status is in
    [400, 600).  This is what [if response and ...] tests, for a response
    that is not [None]. *)
Definition response_ok (r : response) : bool :=
  negb ((400 <=? status_code r) && (status_code r <? 600)).

(** Truth value of a Python value obtained from JSON. *)
Definition py_truthy (v : json) : bool :=
  match v with
  | JNull => false
  | JBool b => b
  | JNum z => negb (z =? 0)
  | JStr s => negb (String.eqb s EmptyString)
  | JArr l => match l with [] => false | _ => true end
  | JObj m => negb (Nat.eqb (size m) 0)
  end.

(** [v == 0] for a Python value ([False == 0] holds in Python). *)
Definition py_eq_zero (v : json) : bool :=
  match v with
  | JNum z => z =? 0
  | JBool b => negb b
  | _ => false
  end.

(** The integer that [range(v)] and [v - 1] see; [None] when they raise
    [TypeError]. *)
Definition py_int (v : json) : option Z :=
  match v with
  | JNum z => Some z
  | JBool b => Some (if b then 1 else 0)
  | _ => None
  end.

(* ===================================================================== *)
(** ** Strings: substring test, upper case and the game-id pattern *)

(** [needle in haystack]. *)
Fixpoint contains (needle haystack : string) : bool :=
  String.prefix needle haystack ||
  match haystack with
  | EmptyString => false
  | String _ rest => contains needle rest
  end.

(** [s] without its prefix [p], when it has it. *)
Fixpoint strip_prefix (p s : string) : option string :=
  match p, s with
  | EmptyString, _ => Some s
  | String a p', String b s' =>
      if Ascii.eqb a b then strip_prefix p' s' else None
  | String _ _, EmptyString => None
  end.

(** The character class [[a-f0-9\-]]. *)
Definition game_id_char (c : ascii) : bool :=
  let n := nat_of_ascii c in
  ((97 <=? n) && (n <=? 102))%nat || ((48 <=? n) && (n <=? 57))%nat
  || (n =? 45)%nat.

(** The longest prefix of [s] made of class characters: what the greedy
    [[a-f0-9\-]+] captures from the position where it starts. *)
Fixpoint take_game_id (s : string) : string :=
  match s with
  | EmptyString => EmptyString
  | String c rest =>
      if game_id_char c then String c (take_game_id rest) else EmptyString
  end.

(** [re.search(r'Game ID: ([a-f0-9\-]+)', s)]: the leftmost position where
    the literal is followed by at least one class character; the result is
    [match.group(1)]. *)
Fixpoint search_game_id (s : string) : option string :=
  match s with
  | EmptyString => None
  | String _ rest =>
      match strip_prefix "Game ID: " s with
      | Some after =>
          match take_game_id after with
          | EmptyString => search_game_id rest
          | g => Some g
          end
      | None => search_game_id rest
      end
  end.

(** [c.upper()] on ASCII letters. *)
Definition upper_char (c : ascii) : ascii :=
  let n := nat_of_ascii c in
  if ((97 <=? n) && (n <=? 122))%nat then ascii_of_nat (n - 32) else c.

Fixpoint upper (s : string) : string :=
  match s with
  | EmptyString => EmptyString
  | String c rest => String (upper_char c) (upper rest)
  end.

(* ===================================================================== *)
(** ** Events *)

Inductive level : Type := Plain | Info | Success | Warning | Error.

(** The log lines of the two scripts, with the data they print. *)
Inductive message : Type :=
  | MAuthExpired
  | MServerError (status delay : Z) (attempt : nat) (retries : Z)
  | MNetworkError (delay : Z) (attempt : nat) (retries : Z)
  | MRequestFailed (retries : Z) (url : string)
  | MTelegramFailed
  | MFetchingStats
  | MStatsUpdated (points coins tickets : json)
  | MStatsParseFailed
  | MStatsFetchFailed
  | MStuckIdNotParsed
  | MStuckJsonNotParsed
  | MClearingStuck (game_id : string)
  | MStuckCleared
  | MStuckClearFailed (err_text : string)
  | MNoTickets
  | MStartingSequence (tickets : json)
  | MSeparator
  | MTicketBanner (i : nat) (tickets : json)
  | MStuckDetected
  | MSelfHealOk
  | MSelfHealFailed
  | MGameStarted
  | MEndingGame (payload : json)
  | MGameFinished
  | MCouldNotStart (status : option Z) (err_text : string)
  | MCouldNotSend
  | MSkippingTicket
  | MWaiting (seconds : Z)
  | MSequenceFinished (played : option Z)
  | MBotStarted
  | MInitialStatsFailed
  | MWelcome (username : json)
  | MAllTasksDone
  | MSummary (initial final : option json)
  | MScriptFinished.

(** The texts that [overnads.py] sends to Telegram. *)
Inductive notice : Type :=
  | NAuthExpired
  | NStuckDetected
  | NSelfHealFailed
  | NCouldNotStart
  | NBotStarted
  | NStartingBalance (username points coins tickets : json)
  | NFinalBalance (points coins tickets : json).

Inductive event : Type :=
  (** a request of the executor, with the answer it got *)
  | ERequest (method url : string) (payload : option json) (o : net_outcome)
  (** the [requests.post] of [send_telegram_message], with its answer *)
  | ETelegram (token chat_id : string) (n : notice) (o : net_outcome)
  | ESleep (seconds : Z)
  | ELog (l : level) (m : message).

(** Both [ERequest] and [ETelegram] go over the network. *)
Definition is_network_call (e : event) : bool :=
  match e with
  | ERequest _ _ _ _ | ETelegram _ _ _ _ => true
  | _ => false
  end.

Definition is_request (e : event) : bool :=
  match e with
  | ERequest _ _ _ _ => true
  | _ => false
  end.

(** A request of the executor that was answered with status 401. *)
Definition is_rejection (e : event) : bool :=
  match e with
  | ERequest _ _ _ (Responded r) => status_code r =? 401
  | _ => false
  end.

(* ===================================================================== *)
(** ** The monad *)

(** The world a script runs in.  [net] and [rnd] are the oracles: the answer
    to the [n]-th network call and the [n]-th raw draw of the random
    generator; they never change.  [net_calls] and [rnd_calls] count the
    calls made so far.  [account_stats] is the module-level global of
    [overnads.py] ([main.py] has no global and never touches the field). *)
Record world : Type := World {
  net : nat -> net_outcome;
  rnd : nat -> Z;
  net_calls : nat;
  rnd_calls : nat;
  account_stats : json
}.

(** How a computation ends: it returns, the process exits ([sys.exit],
    [exit()]; the code is [None] for a bare [exit()]), or an exception
    escapes. *)
Inductive outcome (A : Type) : Type :=
  | Val (a : A)
  | Exit (code : option Z)
  | Raise (e : exn).
Arguments Val {A} a.
Arguments Exit {A} code.
Arguments Raise {A} e.

Record result (A : Type) : Type := Result {
  out : outcome A;
  final : world;
  events : list event
}.
Arguments Result {A} out final events.
Arguments out {A} r.
Arguments final {A} r.
Arguments events {A} r.

Definition M (A : Type) : Type := world -> result A.

Definition ret {A} (a : A) : M A := fun w => Result (Val a) w [].

Definition bind {A B} (m : M A) (k : A -> M B) : M B := fun w =>
  let r := m w in
  match out r with
  | Val a =>
      let r' := k a (final r) in
      Result (out r') (final r') (events r ++ events r')
  | Exit c => Result (Exit c) (final r) (events r)
  | Raise e => Result (Raise e) (final r) (events r)
  end.

Notation "'let*' x ':=' m 'in' k" := (bind m (fun x => k))
  (at level 10, x name, m at level 100, k at level 200).

Definition emit (e : event) : M unit := fun w => Result (Val tt) w [e].
Definition log (l : level) (m : message) : M unit := emit (ELog l m).
(** [time.sleep(seconds)] *)
Definition sleep (seconds : Z) : M unit := emit (ESleep seconds).
(** [sys.exit(code)] and [exit()]: [SystemExit] is caught nowhere in the two
    scripts. *)
Definition exit {A} (code : option Z) : M A := fun w => Result (Exit code) w [].
Definition raise {A} (e : exn) : M A := fun w => Result (Raise e) w [].

(** An exception raised by a library call, or its value. *)
Definition lift_option {A} (e : exn) (o : option A) : M A :=
  match o with
  | Some a => ret a
  | None => raise e
  end.

(** The world after one more network call, after one more random draw. *)
Definition bump_net (w : world) : world :=
  World (net w) (rnd w) (S (net_calls w)) (rnd_calls w) (account_stats w).
Definition bump_rnd (w : world) : world :=
  World (net w) (rnd w) (net_calls w) (S (rnd_calls w)) (account_stats w).

(** The next answer of the network. *)
Definition next_answer : M net_outcome := fun w =>
  Result (Val (net w (net_calls w))) (bump_net w) [].

(** The value that [random.randint(a, b)] makes of a raw draw: an integer of
    [[a, b]]. *)
Definition randint_of (a b raw : Z) : Z := a + raw mod (b - a + 1).

(** [random.randint(a, b)], from the next raw draw. *)
Definition randint (a b : Z) : M Z := fun w =>
  Result (Val (randint_of a b (rnd w (rnd_calls w)))) (bump_rnd w) [].

Definition get_account_stats : M json := fun w => Result (Val (account_stats w)) w [].
Definition set_account_stats (v : json) : M unit := fun w =>
  Result (Val tt) (World (net w) (rnd w) (net_calls w) (rnd_calls w) v) [].

(** [d.get(key, default)]: [AttributeError] when [d] is not a dict. *)
Definition py_get (d : json) (key : string) (default : json) : M json :=
  match d with
  | JObj m => ret (match m !! key with Some v => v | None => default end)
  | _ => raise AttributeError
  end.

(** The defaults of [retries] and of [backoff] / [backoff_factor]. *)
Definition default_retries : Z := 3.
Definition default_backoff : Z := 3.

(** [status in [200, 201]] *)
Definition is_200_201 (status : Z) : bool := (status =? 200) || (status =? 201).

(** [API] *)
Definition API_user_profile : string := "https://app.overnads.xyz/api/auth/me".
Definition API_game_start : string := "https://app.overnads.xyz/api/game/start".
Definition API_game_end : string := "https://app.overnads.xyz/api/game/end".

(** One call of [requests]: the next answer of the network, written to the
    trace together with the request. *)
Definition request (method url : string) (payload : option json)
  : M net_outcome :=
  let* o := next_answer in
  let* _ := emit (ERequest method url payload o) in
  ret o.

(** [bool(r)] for [r] a response or [None]. *)
Definition truthy (r : option response) : bool :=
  match r with
  | Some r => response_ok r
  | None => false
  end.

(** The end payload of a played game:
    [{"overPoints": points, "collectedItems": [coin entry, ticket entry]}]. *)
Definition item (kind : string) (count : Z) : json :=
  JObj (<["type" := JStr kind]> (<["count" := JNum count]> ∅)).

Definition game_payload (points coins tickets : Z) : json :=
  JObj (<["overPoints" := JNum points]>
       (<["collectedItems" := JArr [item "coin" coins; item "ticket" tickets]]> ∅)).

(** The end payload of a recovery:
    [{"gameId": id, "overPoints": points, "collectedItems": []}]. *)
Definition recovery_payload (game_id : string) (points : Z) : json :=
  JObj (<["gameId" := JStr game_id]>
       (<["overPoints" := JNum points]>
       (<["collectedItems" := JArr []]> ∅))).

(* ===================================================================== *)
(** ** [main.py] *)

Module Main.

(** [send_request], the loop [for attempt in range(retries)] from the
    iteration [attempt] on, with [n] iterations left.  The headers are not
    modelled: they do not influence the control flow. *)
Fixpoint send_request_from (n attempt : nat) (method url : string)
    (payload : option json) (retries backoff : Z) : M (option response) :=
  match n with
  | O =>
      let* _ := log Error (MRequestFailed retries url) in
      ret None
  | S n' =>
      let* o := request method url payload in
      match o with
      | Responded response =>
          if status_code response =? 401 then
            let* _ := log Error MAuthExpired in
            exit (Some 1)
          else if status_code response <? 500 then
            ret (Some response)
          else
            let* _ := log Warning (MServerError (status_code response) backoff
                                                (attempt + 1) retries) in
            let* _ := sleep backoff in
            send_request_from n' (S attempt) method url payload retries backoff
      | RequestException =>
          let* _ := log Warning (MNetworkError backoff (attempt + 1) retries) in
          let* _ := sleep backoff in
          send_request_from n' (S attempt) method url payload retries backoff
      end
  end.

Definition send_request (method url : string) (payload : option json)
    (retries backoff : Z) : M (option response) :=
  send_request_from (Z.to_nat retries) 0 method url payload retries backoff.

Definition fetch_account_stats : M (option json) :=
  let* _ := log Info MFetchingStats in
  let* response := send_request "GET" API_user_profile None
                                default_retries default_backoff in
  match response with
  | Some r =>
      if response_ok r && (status_code r =? 200) then
        match json_body r with
        | Some stats =>
            let* points := py_get stats "overPoints" (JNum 0) in
            let* coins := py_get stats "coins" (JNum 0) in
            let* tickets := py_get stats "tickets" (JNum 0) in
            let* _ := log Success (MStatsUpdated points coins tickets) in
            ret (Some stats)
        | None =>
            let* _ := log Error MStatsParseFailed in
            ret None
        end
      else
        let* _ := log Error MStatsFetchFailed in
        ret None
  | None =>
      let* _ := log Error MStatsFetchFailed in
      ret None
  end.

Definition handle_stuck_game (error_response_text : string) : M bool :=
  match search_game_id error_response_text with
  | None =>
      let* _ := log Error MStuckIdNotParsed in
      ret false
  | Some stuck_game_id =>
      let* _ := log Warning (MClearingStuck stuck_game_id) in
      let* points := randint 90 110 in
      let end_payload := recovery_payload stuck_game_id points in
      let* end_response := send_request "POST" API_game_end (Some end_payload)
                                        default_retries default_backoff in
      match end_response with
      | Some r =>
          if response_ok r && is_200_201 (status_code r) then
            let* _ := log Success MStuckCleared in
            ret true
          else
            let err_text := if response_ok r then text r else "No Response" in
            let* _ := log Error (MStuckClearFailed err_text) in
            ret false
      | None =>
          let* _ := log Error (MStuckClearFailed "No Response") in
          ret false
      end
  end.

(** The wait that ends an iteration in which a game was played. *)
Definition wait_next (tickets : Z) (i : nat) : M unit :=
  if Z.of_nat i <? tickets - 1 then
    let* sleep_duration := randint 15 25 in
    let* _ := log Info (MWaiting sleep_duration) in
    sleep sleep_duration
  else ret tt.

(** The second half of an iteration of [play_all_games]: what is done with
    the start response once the stuck-game check is over. *)
Definition play_started (tickets : Z) (i : nat)
    (start_response : option response) : M unit :=
  let started :=
    match start_response with
    | Some r => response_ok r && is_200_201 (status_code r)
    | None => false
    end in
  if started then
    let* _ := log Info MGameStarted in
    let* _ := sleep 30 in
    let* points := randint 90 110 in
    let* coins := randint 1 4 in
    let* tickets_won := randint 0 4 in
    let end_payload := game_payload points coins tickets_won in
    let* _ := log Info (MEndingGame (JNum points)) in
    let* _ := send_request "POST" API_game_end (Some end_payload)
                           default_retries default_backoff in
    let* _ := log Success MGameFinished in
    wait_next tickets i
  else
    let err_text :=
      match start_response with
      | Some r => if response_ok r then text r else "No Response"
      | None => "No Response"
      end in
    let status :=
      match start_response with
      | Some r => if response_ok r then Some (status_code r) else None
      | None => None
      end in
    let* _ := log Error (MCouldNotStart status err_text) in
    log Warning MSkippingTicket.

(** One iteration of the loop of [play_all_games]; [continue] ends it. *)
Definition play_ticket (tickets_available : json) (tickets : Z) (i : nat)
  : M unit :=
  let* _ := log Plain (MTicketBanner (i + 1) tickets_available) in
  let* start_response := send_request "POST" API_game_start None
                                      default_retries default_backoff in
  let stuck :=
    match start_response with
    | Some r => response_ok r && (status_code r =? 400)
                && contains "active game" (text r)
    | None => false
    end in
  if stuck then
    let* _ := log Warning MStuckDetected in
    let* healed := handle_stuck_game
                     (match start_response with
                      | Some r => text r
                      | None => EmptyString
                      end) in
    if healed then
      let* _ := log Info MSelfHealOk in
      let* _ := sleep 10 in
      let* start_response := send_request "POST" API_game_start None
                                          default_retries default_backoff in
      play_started tickets i start_response
    else
      log Error MSelfHealFailed
  else
    play_started tickets i start_response.

(** [for i in range(tickets_available)] from [i] on, [n] iterations left. *)
Fixpoint play_tickets_from (n i : nat) (tickets_available : json)
    (tickets : Z) : M unit :=
  match n with
  | O => ret tt
  | S n' =>
      let* _ := play_ticket tickets_available tickets i in
      play_tickets_from n' (S i) tickets_available tickets
  end.

Definition play_all_games (tickets_available : json) : M unit :=
  if py_eq_zero tickets_available then
    log Info MNoTickets
  else
    let* _ := log Info (MStartingSequence tickets_available) in
    let* tickets := lift_option TypeError (py_int tickets_available) in
    let* _ := play_tickets_from (Z.to_nat tickets) 0 tickets_available tickets in
    log Success (MSequenceFinished None).

(** [print_summary] only prints.  Its table is one event here; the
    subtractions and the column formatting are not modelled. *)
Definition print_summary (initial_stats final_stats : option json) : M unit :=
  log Plain (MSummary initial_stats final_stats).

Definition main : M unit :=
  let* _ := log Plain MBotStarted in
  let* initial_stats := fetch_account_stats in
  match initial_stats with
  | Some stats =>
      if py_truthy stats then
        let* username := py_get stats "username" (JStr "User") in
        let* _ := log Info (MWelcome username) in
        let* tickets_to_play := py_get stats "tickets" (JNum 0) in
        let* _ := play_all_games tickets_to_play in
        let* _ := log Info MAllTasksDone in
        let* _ := sleep 5 in
        let* final_stats := fetch_account_stats in
        let* _ := print_summary initial_stats final_stats in
        log Plain MScriptFinished
      else
        let* _ := log Error MInitialStatsFailed in
        exit (Some 1)
  | None =>
      let* _ := log Error MInitialStatsFailed in
      exit (Some 1)
  end.

End Main.

(* ===================================================================== *)
(** ** [overnads.py] *)

Module Overnads.

Section WithConfig.

(** [config.get('telegram_bot_token')] and [config.get('telegram_chat_id')]:
    [None] when the key is not in [config.json]. *)
Variable TELEGRAM_TOKEN : option string.
Variable TELEGRAM_CHAT_ID : option string.

Definition configured (v : option string) : bool :=
  match v with
  | Some s => negb (String.eqb s EmptyString)
  | None => false
  end.

(** [send_telegram_message]: nothing without the two settings; otherwise one
    [requests.post], whose answer is ignored and whose exception is logged. *)
Definition send_telegram_message (n : notice) : M unit :=
  match TELEGRAM_TOKEN, TELEGRAM_CHAT_ID with
  | Some token, Some chat_id =>
      if configured TELEGRAM_TOKEN && configured TELEGRAM_CHAT_ID then
        let* o := next_answer in
        let* _ := emit (ETelegram token chat_id n o) in
        match o with
        | Responded _ => ret tt
        | RequestException => log Error MTelegramFailed
        end
      else ret tt
  | _, _ => ret tt
  end.

(** [requests.post(url, json=payload)] when [method.upper() == "POST"],
    [requests.get(url)] otherwise: a GET carries no payload. *)
Definition post_or_get (method url : string) (payload : option json)
  : M net_outcome :=
  if String.eqb (upper method) "POST" then request "POST" url payload
  else request "GET" url None.

(** [send_request_with_retry], the loop [for i in range(retries)] from the
    iteration [i] on, with [n] iterations left. *)
Fixpoint send_request_with_retry_from (n i : nat) (url method : string)
    (payload : option json) (retries backoff_factor : Z)
  : M (option response) :=
  match n with
  | O =>
      let* _ := log Error (MRequestFailed retries url) in
      ret None
  | S n' =>
      let* o := post_or_get method url payload in
      match o with
      | Responded response =>
          if status_code response =? 401 then
            let* _ := log Error MAuthExpired in
            let* _ := send_telegram_message NAuthExpired in
            exit None
          else if status_code response <? 500 then
            ret (Some response)
          else
            let delay := backoff_factor * (Z.of_nat i + 1) in
            let* _ := log Warning (MServerError (status_code response) delay
                                                (i + 1) retries) in
            let* _ := sleep delay in
            send_request_with_retry_from n' (S i) url method payload
                                         retries backoff_factor
      | RequestException =>
          let delay := backoff_factor * (Z.of_nat i + 1) in
          let* _ := log Error (MNetworkError delay (i + 1) retries) in
          let* _ := sleep delay in
          send_request_with_retry_from n' (S i) url method payload
                                       retries backoff_factor
      end
  end.

Definition send_request_with_retry (url method : string)
    (payload : option json) (retries backoff_factor : Z)
  : M (option response) :=
  send_request_with_retry_from (Z.to_nat retries) 0 url method payload
                               retries backoff_factor.

Definition fetch_account_stats : M bool :=
  let* _ := log Info MFetchingStats in
  let* response := send_request_with_retry API_user_profile "GET" None
                                           default_retries default_backoff in
  match response with
  | Some r =>
      if response_ok r && (status_code r =? 200) then
        let* stats := lift_option JSONDecodeError (json_body r) in
        let* _ := set_account_stats stats in
        let* points := py_get stats "overPoints" (JNum 0) in
        let* coins := py_get stats "coins" (JNum 0) in
        let* tickets := py_get stats "tickets" (JNum 0) in
        let* _ := log Info (MStatsUpdated points coins tickets) in
        ret true
      else ret false
  | None => ret false
  end.

(** [re.search(pattern, v)]: [TypeError] when [v] is not a string. *)
Definition search_game_id_in (v : json) : M (option string) :=
  match v with
  | JStr s => ret (search_game_id s)
  | _ => raise TypeError
  end.

Definition handle_stuck_game (error_response : response) : M bool :=
  match json_body error_response with
  | None =>
      let* _ := log Error MStuckJsonNotParsed in
      ret false
  | Some error_json =>
      let* error_message := py_get error_json "error" (JStr EmptyString) in
      let* stuck_game_id_match := search_game_id_in error_message in
      match stuck_game_id_match with
      | Some stuck_game_id =>
          let* _ := log Info (MClearingStuck stuck_game_id) in
          let* points := randint 90 110 in
          let end_payload := recovery_payload stuck_game_id points in
          let* end_response :=
            send_request_with_retry API_game_end "POST" (Some end_payload)
                                    default_retries default_backoff in
          match end_response with
          | Some r =>
              if response_ok r && is_200_201 (status_code r) then
                let* _ := log Info MStuckCleared in
                ret true
              else
                let err_text := if response_ok r then text r
                                else "No Response" in
                let* _ := log Error (MStuckClearFailed err_text) in
                ret false
          | None =>
              let* _ := log Error (MStuckClearFailed "No Response") in
              ret false
          end
      | None =>
          let* _ := log Error MStuckIdNotParsed in
          ret false
      end
  end.

(** The wait that ends an iteration of [play_all_games]. *)
Definition wait_next (tickets : Z) (i : nat) : M unit :=
  if Z.of_nat i <? tickets - 1 then
    let* sleep_duration := randint 15 20 in
    let* _ := log Info (MWaiting sleep_duration) in
    sleep sleep_duration
  else ret tt.

(** The second half of an iteration of [play_all_games]: what is done with
    the start response once the stuck-game check is over.  The result is the
    new value of [games_played_successfully]. *)
Definition play_started (tickets : Z) (i : nat) (played : Z)
    (start_response : option response) : M Z :=
  let started :=
    match start_response with
    | Some r => response_ok r && is_200_201 (status_code r)
    | None => false
    end in
  let* played :=
    if started then
      let* _ := log Info MGameStarted in
      let* _ := sleep 30 in
      let* points := randint 90 110 in
      let* coins := randint 1 4 in
      let* tickets_won := randint 0 4 in
      let end_payload := game_payload points coins tickets_won in
      let* _ := log Info (MEndingGame end_payload) in
      let* _ := send_request_with_retry API_game_end "POST" (Some end_payload)
                                        default_retries default_backoff in
      ret (played + 1)
    else
      let* _ :=
        match start_response with
        | Some r => log Error (MCouldNotStart (Some (status_code r)) (text r))
        | None => log Error MCouldNotSend
        end in
      let* _ := log Warning MSkippingTicket in
      let* _ := send_telegram_message NCouldNotStart in
      ret played
  in
  let* _ := wait_next tickets i in
  ret played.

(** One iteration of the loop of [play_all_games]; [continue] ends it. *)
Definition play_ticket (initial_tickets : json) (tickets : Z) (i : nat)
    (played : Z) : M Z :=
  let* _ := log Info MSeparator in
  let* _ := log Info (MTicketBanner (i + 1) initial_tickets) in
  let* start_response := send_request_with_retry API_game_start "POST" None
                                                 default_retries default_backoff in
  let stuck :=
    match start_response with
    | Some r => response_ok r && (status_code r =? 400)
                && contains "You already have an active game" (text r)
    | None => false
    end in
  match start_response with
  | Some r =>
      if stuck then
        let* _ := log Warning MStuckDetected in
        let* _ := send_telegram_message NStuckDetected in
        let* healed := handle_stuck_game r in
        if healed then
          let* _ := log Info MSelfHealOk in
          let* _ := sleep 10 in
          let* start_response :=
            send_request_with_retry API_game_start "POST" None
                                    default_retries default_backoff in
          play_started tickets i played start_response
        else
          let* _ := log Error MSelfHealFailed in
          let* _ := send_telegram_message NSelfHealFailed in
          ret played
      else play_started tickets i played start_response
  | None => play_started tickets i played start_response
  end.

(** [for i in range(initial_tickets)] from [i] on, [n] iterations left. *)
Fixpoint play_tickets_from (n i : nat) (initial_tickets : json)
    (tickets : Z) (played : Z) : M Z :=
  match n with
  | O => ret played
  | S n' =>
      let* played := play_ticket initial_tickets tickets i played in
      play_tickets_from n' (S i) initial_tickets tickets played
  end.

Definition play_all_games : M unit :=
  let* stats := get_account_stats in
  let* initial_tickets := py_get stats "tickets" (JNum 0) in
  if py_eq_zero initial_tickets then
    log Info MNoTickets
  else
    let* _ := log Info (MStartingSequence initial_tickets) in
    let* tickets := lift_option TypeError (py_int initial_tickets) in
    let* played := play_tickets_from (Z.to_nat tickets) 0 initial_tickets
                                     tickets 0 in
    log Info (MSequenceFinished (Some played)).

(** The body of [if __name__ == "__main__"]. *)
Definition main : M unit :=
  let* _ := log Info MBotStarted in
  let* _ := send_telegram_message NBotStarted in
  let* fetched := fetch_account_stats in
  if fetched then
    let* stats := get_account_stats in
    let* username := py_get stats "username" (JStr "N/A") in
    let* points := py_get stats "overPoints" (JNum 0) in
    let* coins := py_get stats "coins" (JNum 0) in
    let* tickets := py_get stats "tickets" (JNum 0) in
    let* _ := send_telegram_message
                (NStartingBalance username points coins tickets) in
    let* _ := play_all_games in
    let* _ := log Info MAllTasksDone in
    let* _ := sleep 5 in
    let* _ := fetch_account_stats in
    let* stats := get_account_stats in
    let* points := py_get stats "overPoints" (JNum 0) in
    let* coins := py_get stats "coins" (JNum 0) in
    let* tickets := py_get stats "tickets" (JNum 0) in
    let* _ := send_telegram_message (NFinalBalance points coins tickets) in
    log Info MScriptFinished
  else
    let* _ := log Error MInitialStatsFailed in
    exit None.

End WithConfig.

End Overnads.

(* ===================================================================== *)
(** ** Vocabulary of the statements *)

(** An answer after which the executor tries again: a server error or a
    network-level exception. *)
Definition retryable (o : net_outcome) : Prop :=
  match o with
  | Responded r => 500 <= status_code r
  | RequestException => True
  end.

(** The answers to the requests of the executor in a trace, in order. *)
Fixpoint answers_of (evs : list event) : list net_outcome :=
  match evs with
  | [] => []
  | ERequest _ _ _ o :: rest => o :: answers_of rest
  | _ :: rest => answers_of rest
  end.

(** A trace in which no request of the executor was answered with 401. *)
Definition clean (evs : list event) : Prop :=
  Forall (fun e => is_rejection e = false) evs.

(** A trace without requests of the executor, without network calls. *)
Definition no_request (evs : list event) : Prop :=
  Forall (fun e => is_request e = false) evs.
Definition no_network_call (evs : list event) : Prop :=
  Forall (fun e => is_network_call e = false) evs.

(** [m] stops at a rejection: whenever one of its requests is answered with
    401, the run ends in a process exit, and the exit code [c] and the events
    [post] that follow the rejected request satisfy [tail c post]. *)
Definition stops_at_rejection {A} (tail : option Z -> list event -> Prop)
    (m : M A) : Prop :=
  forall w before e post,
    events (m w) = before ++ e :: post ->
    is_rejection e = true ->
    exists c, out (m w) = Exit c /\ tail c post.

(** The run hit a rejection: everything before it is clean, and the exit
    code and the events after it satisfy [tail]. *)
Definition fatal {A} (tail : option Z -> list event -> Prop) (r : result A)
  : Prop :=
  exists pre e post c,
    events r = pre ++ e :: post /\ is_rejection e = true /\
    clean pre /\ tail c post /\ out r = Exit c.

(** Every run of [m] is free of rejections, or ends at its first one. *)
Definition guarded {A} (tail : option Z -> list event -> Prop) (m : M A)
  : Prop :=
  forall w, clean (events (m w)) \/ fatal tail (m w).

(** After a rejection in [main.py]: the critical error, and exit code 1. *)
Definition main_tail (c : option Z) (post : list event) : Prop :=
  c = Some 1 /\ post = [ELog Error MAuthExpired].

(** After a rejection in [overnads.py]: the critical error, then what the
    Telegram notification leaves (nothing when Telegram is not configured),
    and a bare [exit()]. *)
Definition overnads_tail (token chat_id : option string)
    (c : option Z) (post : list event) : Prop :=
  c = None /\
  exists rest,
    post = ELog Error MAuthExpired :: rest /\
    no_request rest /\
    (Overnads.configured token && Overnads.configured chat_id = false ->
     rest = []).

(** What a failed attempt of [Main.send_request] leaves in the trace: the
    request, the warning, and the sleep of [backoff] seconds. *)
Definition main_failed_attempt (method url : string) (payload : option json)
    (retries backoff : Z) (attempt : nat) (o : net_outcome) : list event :=
  [ ERequest method url payload o;
    ELog Warning
      match o with
      | Responded r => MServerError (status_code r) backoff (attempt + 1) retries
      | RequestException => MNetworkError backoff (attempt + 1) retries
      end;
    ESleep backoff ].

(** The request that [Overnads.post_or_get] sends. *)
Definition overnads_request (url method : string) (payload : option json)
    (o : net_outcome) : event :=
  if String.eqb (upper method) "POST" then ERequest "POST" url payload o
  else ERequest "GET" url None o.

(** What a failed attempt of [Overnads.send_request_with_retry] leaves in
    the trace: the request, the log line, and the sleep of
    [backoff_factor * (i + 1)] seconds. *)
Definition overnads_failed_attempt (url method : string)
    (payload : option json) (retries backoff_factor : Z) (i : nat)
    (o : net_outcome) : list event :=
  let delay := backoff_factor * (Z.of_nat i + 1) in
  [ overnads_request url method payload o;
    match o with
    | Responded r =>
        ELog Warning (MServerError (status_code r) delay (i + 1) retries)
    | RequestException =>
        ELog Error (MNetworkError delay (i + 1) retries)
    end;
    ESleep delay ].

(** What the recoverer makes of the answer of the executor to its end
    request: the log line and the result. *)
Definition recovery_verdict (success : level) (end_response : option response)
  : event * bool :=
  match end_response with
  | Some r =>
      if response_ok r && is_200_201 (status_code r) then
        (ELog success MStuckCleared, true)
      else
        (ELog Error (MStuckClearFailed
                       (if response_ok r then text r else "No Response")),
         false)
  | None => (ELog Error (MStuckClearFailed "No Response"), false)
  end.

(** [payload] is the end payload of a recovery of the game [id]: exactly the
    three fields [gameId], [overPoints] and [collectedItems], with the id, a
    point value of [[90, 110]] and the empty list. *)
Definition is_recovery_payload (id : string) (payload : option json) : Prop :=
  exists points m,
    payload = Some (JObj m) /\
    m !! "gameId" = Some (JStr id) /\
    m !! "overPoints" = Some (JNum points) /\
    90 <= points <= 110 /\
    m !! "collectedItems" = Some (JArr []) /\
    size m = 3%nat.

(** [payload] is the end payload of a played game: the field [overPoints]
    and the field [collectedItems], a list of one coin entry and one ticket
    entry with the given counts. *)
Definition is_game_payload (points coins won : Z) (payload : option json)
  : Prop :=
  exists m coin ticket,
    payload = Some (JObj m) /\
    m !! "overPoints" = Some (JNum points) /\
    m !! "collectedItems" = Some (JArr [JObj coin; JObj ticket]) /\
    size m = 2%nat /\
    coin !! "type" = Some (JStr "coin") /\
    coin !! "count" = Some (JNum coins) /\
    ticket !! "type" = Some (JStr "ticket") /\
    ticket !! "count" = Some (JNum won).

(** A trace that starts with a played game: the 30 seconds of simulated
    play, then the end request, with a point value of [[90, 110]], a coin
    count of [[1, 4]] and a ticket count of [[0, 4]].  [logged] is what the
    log line before the request shows of the payload. *)
Definition game_played (logged : Z -> json -> json) (evs : list event)
  : Prop :=
  exists points coins won payload o rest,
    90 <= points <= 110 /\ 1 <= coins <= 4 /\ 0 <= won <= 4 /\
    is_game_payload points coins won (Some payload) /\
    evs = [ ELog Info MGameStarted;
            ESleep 30;
            ELog Info (MEndingGame (logged points payload));
            ERequest "POST" API_game_end (Some payload) o ] ++ rest.

(** The field [key] of the object [m], or [default]: what
    [m.get(key, default)] gives. *)
Definition field_or (m : gmap string json) (key : string) (default : json)
  : json :=
  match m !! key with
  | Some v => v
  | None => default
  end.

(** The world after [k] network calls. *)
Fixpoint called (k : nat) (w : world) : world :=
  match k with
  | O => w
  | S k' => called k' (bump_net w)
  end.

(** The world after [k] random draws. *)
Fixpoint drawn (k : nat) (w : world) : world :=
  match k with
  | O => w
  | S k' => drawn k' (bump_rnd w)
  end.

(* ===================================================================== *)
(** ** Concrete worlds *)

Module Examples.

(** The network answers with the elements of [l], then with exceptions. *)
Definition answers (l : list net_outcome) : nat -> net_outcome :=
  fun n => nth n l RequestException.

(** A world at the start of a run: the answers of [l], raw draws all [0]. *)
Definition world_of (l : list net_outcome) (stats : json) : world :=
  World (answers l) (fun _ => 0) 0 0 stats.

(** A response whose body is not JSON. *)
Definition plain (status : Z) (body : string) : net_outcome :=
  Responded (Response status body None).

(** The double quote. *)
Definition dq : string := String "034"%char EmptyString.

(** A 400 whose body is the JSON string
    ["You already have an active game"], quotes included. *)
Definition conflict_json_string : response :=
  Response 400 (dq ++ "You already have an active game" ++ dq)%string
           (Some (JStr "You already have an active game")).


(** The same with a game id. *)
Definition conflict_text : string :=
  "You already have an active game. Game ID: abc12345-0000-0000-0000-000000000000".

Definition conflict_with_id : response :=
  Response 400
    ("{" ++ dq ++ "error" ++ dq ++ ": " ++ dq ++ conflict_text ++ dq ++ "}")%string
    (Some (JObj (<["error" := JStr conflict_text]> ∅))).


(** A 200 whose body is the empty JSON object. *)
Definition stats_empty : response := Response 200 "{}" (Some (JObj ∅)).

(** A 200 whose body is [{"username": "bob"}]. *)
Definition stats_bob : response :=
  Response 200
    ("{" ++ dq ++ "username" ++ dq ++ ": " ++ dq ++ "bob" ++ dq ++ "}")%string
    (Some (JObj (<["username" := JStr "bob"]> ∅))).

(** The first request is rejected; Telegram, if asked, answers 200. *)
Definition rejected_at_once : world :=
  world_of [plain 401 "Unauthorized"; plain 200 "ok"] (JObj ∅).

(** A server error, a timeout, then a 404. *)
Definition two_failures_then_404 : world :=
  world_of [plain 503 "Service Unavailable"; RequestException;
            plain 404 "Not Found"] (JObj ∅).

(** The end request of a recovery is answered with 200. *)
Definition end_accepted : world := world_of [plain 200 "ok"] (JObj ∅).

(** A start answered with 200, then an end answered with 404. *)
Definition end_refused : list net_outcome :=
  [plain 200 "started"; plain 404 "Not Found"].

(** A start answered with 403. *)
Definition start_refused : list net_outcome := [plain 403 "Forbidden"].

(** The stats as [play_all_games] of [overnads.py] reads them: one ticket. *)
Definition one_ticket : json := JObj (<["tickets" := JNum 1]> ∅).
Definition no_ticket : json := JObj (<["tickets" := JNum 0]> ∅).

(** The stats request is answered with the empty object. *)
Definition empty_stats : world := world_of [Responded stats_empty] (JObj ∅).

(** The stats request is answered with [{"username": "bob"}]. *)
Definition stats_without_tickets : world :=
  world_of [Responded stats_bob] (JObj ∅).

(** No answer at all. *)
Definition silent : world := world_of [] (JObj ∅).

(** Server errors and timeouts only. *)
Definition always_failing : world :=
  world_of [plain 500 "Internal Server Error"; RequestException;
            plain 502 "Bad Gateway"] (JObj ∅).

End Examples.

(* ===================================================================== *)
(** ** [print_summary] of [main.py], as a value *)

Module Summary.

(** What [print_summary] prints under its header: the warning that stats
    are missing, or the table with the three gains. *)
Inductive printed : Type :=
  | Missing
  | Table (points_gain coins_gain tickets_gain : Z).

(** [a - b] on Python values: integers and booleans subtract, anything else
    raises [TypeError]. *)
Definition py_sub (a b : json) : M Z :=
  match py_int a, py_int b with
  | Some x, Some y => ret (x - y)
  | _, _ => raise TypeError
  end.

(** [final_stats.get(key, 0) - initial_stats.get(key, 0)] *)
Definition gain (initial_stats final_stats : json) (key : string) : M Z :=
  let* after := py_get final_stats key (JNum 0) in
  let* before := py_get initial_stats key (JNum 0) in
  py_sub after before.

(** [print_summary]: the three gains are computed before the table is
    printed; the values that the table formats are the operands of the
    subtractions, so the formatting raises nothing once the gains exist. *)
Definition print_summary (initial_stats final_stats : option json)
  : M printed :=
  match initial_stats, final_stats with
  | Some i, Some f =>
      if negb (py_truthy i) || negb (py_truthy f) then ret Missing
      else
        let* points_gain := gain i f "overPoints" in
        let* coins_gain := gain i f "coins" in
        let* tickets_gain := gain i f "tickets" in
        ret (Table points_gain coins_gain tickets_gain)
  | _, _ => ret Missing
  end.

End Summary.

(* ===================================================================== *)
(** ** More vocabulary *)

(** A triple on a computation: every event of every run satisfies [P]; a
    returned value satisfies [R], an exit code [E], an escaped exception
    [X]. *)
Definition yields {A} (P : event -> Prop) (R : A -> Prop)
    (E : option Z -> Prop) (X : exn -> Prop) (m : M A) : Prop :=
  forall w,
    Forall P (events (m w)) /\
    match out (m w) with
    | Val a => R a
    | Exit c => E c
    | Raise e => X e
    end.

(** The last request of a trace was answered with 401. *)
Definition ends_with_rejection (evs : list event) : Prop :=
  exists r,
    last (answers_of evs) = Some (Responded r) /\ status_code r = 401.

(** Every run of [m] that ends the process does so right after a request
    that was answered with 401: no request follows it. *)
Definition exits_by_rejection {A} (m : M A) : Prop :=
  forall w c, out (m w) = Exit c -> ends_with_rejection (events (m w)).

(** The seconds slept in a trace. *)
Fixpoint slept (evs : list event) : Z :=
  match evs with
  | [] => 0
  | ESleep s :: rest => s + slept rest
  | _ :: rest => slept rest
  end.

(** The number of events of a trace that [f] picks. *)
Fixpoint count_events (f : event -> bool) (evs : list event) : nat :=
  match evs with
  | [] => O
  | e :: rest => (if f e then 1 else 0) + count_events f rest
  end.

Definition is_banner (e : event) : bool :=
  match e with
  | ELog _ (MTicketBanner _ _) => true
  | _ => false
  end.

Definition is_game_started (e : event) : bool :=
  match e with
  | ELog _ MGameStarted => true
  | _ => false
  end.

(** The log lines and the notices of the stuck-game recovery. *)
Definition recovery_message (m : message) : bool :=
  match m with
  | MStuckDetected | MClearingStuck _ | MStuckCleared | MStuckClearFailed _
  | MStuckIdNotParsed | MStuckJsonNotParsed | MSelfHealOk | MSelfHealFailed =>
      true
  | _ => false
  end.

Definition recovery_notice (n : notice) : bool :=
  match n with
  | NStuckDetected | NSelfHealFailed => true
  | _ => false
  end.

(** A payload of a played game with its values in their ranges. *)
Definition game_payload_in_range (payload : option json) : Prop :=
  exists points coins won,
    90 <= points <= 110 /\ 1 <= coins <= 4 /\ 0 <= won <= 4 /\
    payload = Some (game_payload points coins won).

(** The three requests of the scripts: the stats, the start of a game, the
    end of a played game. *)
Definition script_request (method url : string) (payload : option json)
  : Prop :=
  (method = "GET" /\ url = API_user_profile /\ payload = None) \/
  (method = "POST" /\ url = API_game_start /\ payload = None) \/
  (method = "POST" /\ url = API_game_end /\ game_payload_in_range payload).

(** The events that a run of [main.py] can leave. *)
Definition main_event (e : event) : Prop :=
  match e with
  | ERequest method url payload _ => script_request method url payload
  | ETelegram _ _ _ _ => False
  | ESleep s => s = 3 \/ s = 5 \/ s = 30 \/ 15 <= s <= 25
  | ELog _ m => recovery_message m = false
  end.

(** The events that a run of [overnads.py] can leave. *)
Definition overnads_event (token chat_id : option string) (e : event) : Prop :=
  match e with
  | ERequest method url payload _ => script_request method url payload
  | ETelegram tk ch n _ =>
      token = Some tk /\ chat_id = Some ch /\ tk <> EmptyString /\
      ch <> EmptyString /\ recovery_notice n = false
  | ESleep s => s = 3 \/ s = 6 \/ s = 9 \/ s = 5 \/ s = 30 \/ 15 <= s <= 20
  | ELog _ m => recovery_message m = false
  end.

(** No trace of a recovery in an event: no log line and no notice of it, no
    wait of 10 seconds, no payload with a [gameId]. *)
Definition no_recovery (e : event) : Prop :=
  match e with
  | ERequest _ _ (Some (JObj m)) _ => m !! "gameId" = None
  | ERequest _ _ _ _ => True
  | ETelegram _ _ n _ => recovery_notice n = false
  | ESleep s => s <> 10
  | ELog _ m => recovery_message m = false
  end.

(** The events of the executor of [main.py]. *)
Definition main_executor_event (method url : string) (payload : option json)
    (backoff : Z) (e : event) : Prop :=
  match e with
  | ERequest m u p _ => m = method /\ u = url /\ p = payload
  | ETelegram _ _ _ _ => False
  | ESleep s => s = backoff
  | ELog Warning (MServerError status _ _ _) => 500 <= status
  | ELog Warning (MNetworkError _ _ _) => True
  | ELog Error MAuthExpired => True
  | ELog Error (MRequestFailed _ u) => u = url
  | ELog _ _ => False
  end.

(** What the executors return: never a 401, never a server error. *)
Definition returnable (res : option response) : Prop :=
  match res with
  | Some r => status_code r < 500 /\ status_code r <> 401
  | None => True
  end.

(** The integer that a subtraction of [print_summary] sees in the field
    [key] of the stats [m]: 0 when the field is absent, nothing when its
    value is not an integer. *)
Definition int_field (m : gmap string json) (key : string) : option Z :=
  match m !! key with
  | Some v => py_int v
  | None => Some 0
  end.

(** [s] is made of characters of the class of the game-id pattern. *)
Definition game_id_string (s : string) : Prop :=
  forallb game_id_char (list_ascii_of_string s) = true.

(** [s] does not go on with a character of the class. *)
Definition game_id_stops (s : string) : Prop :=
  match s with
  | EmptyString => True
  | String c _ => game_id_char c = false
  end.

Module MoreExamples.

(** Stats before and after a run without a played game. *)
Definition stats_42 : json :=
  JObj (<["username" := JStr "bob"]>
       (<["overPoints" := JNum 42]>
       (<["coins" := JNum 7]> ∅))).

(** A 200 whose body is not JSON. *)
Definition stats_html : world :=
  Examples.world_of [Examples.plain 200 "<html>maintenance</html>"] (JObj ∅).

(** Two tickets: the first start is answered with 200 and its end with 200,
    the second start with a conflict in the format of the server. *)
Definition played_then_conflict : world :=
  Examples.world_of
    [ Examples.plain 200 "started"; Examples.plain 200 "ended";
      Responded Examples.conflict_with_id ]
    (JObj (<["tickets" := JNum 2]> ∅)).

End MoreExamples.

(* ===================================================================== *)
(** ** Lemmas on the monad *)

Lemma bind_run {A B} (m : M A) (k : A -> M B) (w : world) :
  bind m k w =
  match out (m w) with
  | Val a => Result (out (k a (final (m w)))) (final (k a (final (m w))))
                    (events (m w) ++ events (k a (final (m w))))
  | Exit c => Result (Exit c) (final (m w)) (events (m w))
  | Raise e => Result (Raise e) (final (m w)) (events (m w))
  end.
Proof. reflexivity. Qed.

Lemma bind_val {A B} (m : M A) (k : A -> M B) (w : world) (a : A) :
  out (m w) = Val a ->
  bind m k w = Result (out (k a (final (m w)))) (final (k a (final (m w))))
                      (events (m w) ++ events (k a (final (m w)))).
Proof. intros H. rewrite bind_run, H. reflexivity. Qed.

Lemma bind_exit {A B} (m : M A) (k : A -> M B) (w : world) (c : option Z) :
  out (m w) = Exit c ->
  bind m k w = Result (Exit c) (final (m w)) (events (m w)).
Proof. intros H. rewrite bind_run, H. reflexivity. Qed.

Lemma bind_raise {A B} (m : M A) (k : A -> M B) (w : world) (e : exn) :
  out (m w) = Raise e ->
  bind m k w = Result (Raise e) (final (m w)) (events (m w)).
Proof. intros H. rewrite bind_run, H. reflexivity. Qed.

Lemma request_run (method url : string) (payload : option json) (w : world) :
  request method url payload w =
  Result (Val (net w (net_calls w))) (bump_net w)
         [ERequest method url payload (net w (net_calls w))].
Proof. reflexivity. Qed.

Lemma randint_of_range (a b raw : Z) :
  a <= b -> a <= randint_of a b raw <= b.
Proof.
  intros Hab. unfold randint_of.
  pose proof (Z.mod_pos_bound raw (b - a + 1)). lia.
Qed.

Lemma flat_map_seq_S {A} (f : nat -> list A) (n : nat) :
  flat_map f (seq 0 (S n)) = f 0%nat ++ flat_map (fun k => f (S k)) (seq 0 n).
Proof.
  cbn [seq flat_map]. f_equal.
  rewrite <- seq_shift. generalize (seq 0 n) as l.
  induction l as [|x l IH]; cbn; [reflexivity|]. now rewrite IH.
Qed.

Lemma answers_of_app (l1 l2 : list event) :
  answers_of (l1 ++ l2) = answers_of l1 ++ answers_of l2.
Proof.
  induction l1 as [|e l1 IH]; [reflexivity|].
  destruct e; cbn; rewrite IH; reflexivity.
Qed.

Lemma is_200_201_ok (r : response) :
  is_200_201 (status_code r) = true -> response_ok r = true.
Proof.
  unfold is_200_201, response_ok. intros H.
  apply orb_true_iff in H. destruct H as [H|H]; apply Z.eqb_eq in H;
    rewrite H; reflexivity.
Qed.

(** The stuck-game test of [play_all_games] never holds: a response with
    status 400 is false as a condition. *)
Lemma stuck_test_false (r : response) (b : bool) :
  response_ok r && (status_code r =? 400) && b = false.
Proof.
  unfold response_ok.
  destruct (status_code r =? 400) eqn:E.
  - apply Z.eqb_eq in E. rewrite E. reflexivity.
  - now rewrite andb_false_r.
Qed.

Lemma in_removelast_split {A} (x : A) (l : list A) :
  In x (removelast l) ->
  exists before after, l = before ++ x :: after /\ after <> [].
Proof.
  induction l as [|a l IH]; [intros []|].
  destruct l as [|b l]; [intros []|].
  change (removelast (a :: b :: l)) with (a :: removelast (b :: l)).
  intros [<-|Hin].
  - exists [], (b :: l). split; [reflexivity|discriminate].
  - destruct (IH Hin) as (before & after & Heq & Hne).
    exists (a :: before), after. rewrite Heq. split; [reflexivity|exact Hne].
Qed.

Lemma answers_of_main_failed (method url : string) (payload : option json)
    (retries backoff : Z) (f : nat -> nat) (g : nat -> net_outcome)
    (l : list nat) :
  answers_of (flat_map (fun k => main_failed_attempt method url payload
                                   retries backoff (f k) (g k)) l)
  = map g l.
Proof. induction l as [|k l IH]; cbn; [reflexivity|now rewrite IH]. Qed.

Lemma answers_of_overnads_failed (url method : string)
    (payload : option json) (retries backoff_factor : Z) (f : nat -> nat)
    (g : nat -> net_outcome) (l : list nat) :
  answers_of (flat_map (fun k => overnads_failed_attempt url method payload
                                   retries backoff_factor (f k) (g k)) l)
  = map g l.
Proof.
  induction l as [|k l IH]; [reflexivity|].
  cbn [flat_map map]. rewrite answers_of_app, IH.
  unfold overnads_failed_attempt, overnads_request. cbv zeta.
  destruct (String.eqb _ _); destruct (g k); reflexivity.
Qed.

(* ===================================================================== *)
(** ** The request executor of [main.py] *)

Section MainExecutor.

Variables (method url : string) (payload : option json) (retries backoff : Z).

Local Abbreviation attempt_from n a :=
  (Main.send_request_from n a method url payload retries backoff).
Local Abbreviation failed a o :=
  (main_failed_attempt method url payload retries backoff a o).

Lemma main_attempt_step (n a : nat) (w : world) :
  attempt_from (S n) a w =
  match net w (net_calls w) with
  | Responded r =>
      if status_code r =? 401 then
        Result (Exit (Some 1)) (bump_net w)
               [ERequest method url payload (Responded r); ELog Error MAuthExpired]
      else if status_code r <? 500 then
        Result (Val (Some r)) (bump_net w)
               [ERequest method url payload (Responded r)]
      else
        let rest := attempt_from n (S a) (bump_net w) in
        Result (out rest) (final rest) (failed a (Responded r) ++ events rest)
  | RequestException =>
      let rest := attempt_from n (S a) (bump_net w) in
      Result (out rest) (final rest) (failed a RequestException ++ events rest)
  end.
Proof.
  cbn [Main.send_request_from]. rewrite bind_run, request_run.
  cbn [out final events].
  destruct (net w (net_calls w)) as [r|]; [|reflexivity].
  destruct (status_code r =? 401); [reflexivity|].
  destruct (status_code r <? 500); reflexivity.
Qed.

(** All attempts fail: every one of them is made, each followed by its
    warning and its sleep, and the result is [None]. *)
Lemma main_exhausted_from (n a : nat) (w : world) :
  (forall k, (k < n)%nat -> retryable (net w (net_calls w + k))) ->
  attempt_from n a w =
  Result (Val None) (called n w)
    (flat_map (fun k => failed (a + k) (net w (net_calls w + k))) (seq 0 n)
     ++ [ELog Error (MRequestFailed retries url)]).
Proof.
  revert a w. induction n as [|n IH]; intros a w Hall; [reflexivity|].
  rewrite main_attempt_step, flat_map_seq_S.
  pose proof (Hall 0%nat ltac:(lia)) as H0.
  rewrite Nat.add_0_r in H0. rewrite !Nat.add_0_r.
  assert (Hrest : forall k, (k < n)%nat ->
            retryable (net (bump_net w) (net_calls (bump_net w) + k))).
  { intros k Hk. cbn. specialize (Hall (S k) ltac:(lia)).
    now rewrite Nat.add_succ_r in Hall. }
  specialize (IH (S a) (bump_net w) Hrest).
  assert (Hev : flat_map (fun k => failed (S a + k)
                    (net (bump_net w) (net_calls (bump_net w) + k))) (seq 0 n)
              = flat_map (fun k => failed (a + S k) (net w (net_calls w + S k)))
                    (seq 0 n)).
  { apply flat_map_ext. intros k. cbn [bump_net net net_calls].
    now rewrite !Nat.add_succ_r. }
  destruct (net w (net_calls w)) as [r|] eqn:E; cbn in H0.
  - replace (status_code r =? 401) with false by (symmetry; apply Z.eqb_neq; lia).
    replace (status_code r <? 500) with false by (symmetry; apply Z.ltb_ge; lia).
    cbv zeta. rewrite IH, Hev. cbn [out final events called].
    now rewrite <- app_assoc.
  - cbv zeta. rewrite IH, Hev. cbn [out final events called].
    now rewrite <- app_assoc.
Qed.

(** The attempts before attempt [j] fail and attempt [j] is answered with a
    status below 500 other than 401: that response is returned, and its
    request is the last event. *)
Lemma main_returned_from (n a j : nat) (w : world) (r : response) :
  (j < n)%nat ->
  (forall k, (k < j)%nat -> retryable (net w (net_calls w + k))) ->
  net w (net_calls w + j) = Responded r ->
  status_code r < 500 -> status_code r <> 401 ->
  attempt_from n a w =
  Result (Val (Some r)) (called (S j) w)
    (flat_map (fun k => failed (a + k) (net w (net_calls w + k))) (seq 0 j)
     ++ [ERequest method url payload (Responded r)]).
Proof.
  revert n a w. induction j as [|j IH]; intros n a w Hj Hall Hr Hlt Hne.
  - destruct n as [|n]; [lia|].
    rewrite main_attempt_step. rewrite Nat.add_0_r in Hr. rewrite Hr.
    replace (status_code r =? 401) with false by (symmetry; now apply Z.eqb_neq).
    replace (status_code r <? 500) with true by (symmetry; now apply Z.ltb_lt).
    reflexivity.
  - destruct n as [|n]; [lia|].
    rewrite main_attempt_step, flat_map_seq_S.
    pose proof (Hall 0%nat ltac:(lia)) as H0.
    rewrite Nat.add_0_r in H0. rewrite !Nat.add_0_r.
    assert (Hrest : forall k, (k < j)%nat ->
              retryable (net (bump_net w) (net_calls (bump_net w) + k))).
    { intros k Hk. cbn. specialize (Hall (S k) ltac:(lia)).
      now rewrite Nat.add_succ_r in Hall. }
    assert (Hr' : net (bump_net w) (net_calls (bump_net w) + j) = Responded r).
    { cbn. now rewrite Nat.add_succ_r in Hr. }
    specialize (IH n (S a) (bump_net w) ltac:(lia) Hrest Hr' Hlt Hne).
    assert (Hev : flat_map (fun k => failed (S a + k)
                      (net (bump_net w) (net_calls (bump_net w) + k))) (seq 0 j)
                = flat_map (fun k => failed (a + S k) (net w (net_calls w + S k)))
                      (seq 0 j)).
    { apply flat_map_ext. intros k. cbn [bump_net net net_calls].
      now rewrite !Nat.add_succ_r. }
    destruct (net w (net_calls w)) as [r0|] eqn:E; cbn in H0.
    + replace (status_code r0 =? 401) with false
        by (symmetry; apply Z.eqb_neq; lia).
      replace (status_code r0 <? 500) with false
        by (symmetry; apply Z.ltb_ge; lia).
      cbv zeta. rewrite IH, Hev. cbn [out final events called].
      now rewrite <- app_assoc.
    + cbv zeta. rewrite IH, Hev. cbn [out final events called].
      now rewrite <- app_assoc.
Qed.

(** Whatever the network answers: every answer that is followed by another
    attempt is a server error or an exception. *)
Lemma main_only_retryable_from (n a : nat) (w : world)
    (before : list net_outcome) (o : net_outcome) (after : list net_outcome) :
  answers_of (events (attempt_from n a w)) = before ++ o :: after ->
  after <> [] -> retryable o.
Proof.
  revert a w before. induction n as [|n IH]; intros a w before Heq Hne.
  - cbn in Heq. destruct before; discriminate.
  - rewrite main_attempt_step in Heq.
    destruct (net w (net_calls w)) as [r|] eqn:E.
    + destruct (status_code r =? 401) eqn:E1.
      { cbn in Heq. destruct before as [|? [|? ?]]; inversion Heq; subst.
        now contradiction Hne. }
      destruct (status_code r <? 500) eqn:E2.
      { cbn in Heq. destruct before as [|? [|? ?]]; inversion Heq; subst.
        now contradiction Hne. }
      cbn in Heq. destruct before as [|b before].
      * inversion Heq; subst. cbn. apply Z.ltb_ge in E2. lia.
      * inversion Heq; subst. eapply IH; eauto.
    + cbn in Heq. destruct before as [|b before].
      * inversion Heq; subst. exact I.
      * inversion Heq; subst. eapply IH; eauto.
Qed.

(** Every request of the executor is the request it was asked to make. *)
Lemma main_requests_from (n a : nat) (w : world) (e : event) :
  In e (events (attempt_from n a w)) -> is_request e = true ->
  exists o, e = ERequest method url payload o.
Proof.
  revert a w. induction n as [|n IH]; intros a w Hin Hreq.
  - cbn in Hin. destruct Hin as [<-|[]]. discriminate.
  - rewrite main_attempt_step in Hin.
    destruct (net w (net_calls w)) as [r|] eqn:E.
    + destruct (status_code r =? 401).
      { cbn in Hin. destruct Hin as [<-|[<-|[]]]; [eauto|discriminate]. }
      destruct (status_code r <? 500).
      { cbn in Hin. destruct Hin as [<-|[]]. eauto. }
      cbn in Hin. destruct Hin as [<-|[<-|[<-|Hin]]];
        [eauto|discriminate|discriminate|eauto].
    + cbn in Hin. destruct Hin as [<-|[<-|[<-|Hin]]];
        [eauto|discriminate|discriminate|eauto].
Qed.

End MainExecutor.

(* ===================================================================== *)
(** ** The request executor of [overnads.py] *)

Section OvernadsExecutor.

Variables (token chat_id : option string).
Variables (url method : string) (payload : option json).
Variables (retries backoff_factor : Z).

Local Abbreviation attempt_from n i :=
  (Overnads.send_request_with_retry_from token chat_id n i url method payload
                                         retries backoff_factor).
Local Abbreviation failed i o :=
  (overnads_failed_attempt url method payload retries backoff_factor i o).
Local Abbreviation telegram n := (Overnads.send_telegram_message token chat_id n).

Lemma telegram_returns (n : notice) (w : world) :
  out (telegram n w) = Val tt.
Proof.
  unfold Overnads.send_telegram_message.
  destruct token, chat_id; try reflexivity.
  destruct (_ && _); [|reflexivity].
  rewrite bind_run. cbn. destruct (net w (net_calls w)); reflexivity.
Qed.

(** A notification leaves at most its own [requests.post] and the log line
    of its failure: no request of the executor. *)
Lemma telegram_no_request (n : notice) (w : world) :
  no_request (events (telegram n w)).
Proof.
  unfold Overnads.send_telegram_message, no_request.
  destruct token, chat_id; try (now constructor).
  destruct (_ && _); [|now constructor].
  rewrite bind_run. cbn. destruct (net w (net_calls w)); cbn;
    repeat constructor.
Qed.

Lemma post_or_get_run (w : world) :
  Overnads.post_or_get method url payload w =
  Result (Val (net w (net_calls w))) (bump_net w)
         [overnads_request url method payload (net w (net_calls w))].
Proof.
  unfold Overnads.post_or_get, overnads_request.
  destruct (String.eqb (upper method) "POST"); apply request_run.
Qed.

Lemma overnads_request_is_request (o : net_outcome) :
  exists m p, overnads_request url method payload o = ERequest m url p o.
Proof.
  unfold overnads_request. destruct (String.eqb _ _); eauto.
Qed.

Lemma overnads_attempt_step (n i : nat) (w : world) :
  attempt_from (S n) i w =
  match net w (net_calls w) with
  | Responded r =>
      if status_code r =? 401 then
        let t := telegram NAuthExpired (bump_net w) in
        Result (Exit None) (final t)
               (overnads_request url method payload (Responded r)
                :: ELog Error MAuthExpired :: events t)
      else if status_code r <? 500 then
        Result (Val (Some r)) (bump_net w)
               [overnads_request url method payload (Responded r)]
      else
        let rest := attempt_from n (S i) (bump_net w) in
        Result (out rest) (final rest) (failed i (Responded r) ++ events rest)
  | RequestException =>
      let rest := attempt_from n (S i) (bump_net w) in
      Result (out rest) (final rest) (failed i RequestException ++ events rest)
  end.
Proof.
  cbn [Overnads.send_request_with_retry_from].
  rewrite bind_run, post_or_get_run. cbn [out final events].
  destruct (net w (net_calls w)) as [r|]; [|reflexivity].
  destruct (status_code r =? 401).
  - rewrite bind_run. cbn [log emit out final events].
    rewrite bind_run, telegram_returns. cbn [exit out final events app].
    now rewrite app_nil_r.
  - destruct (status_code r <? 500); reflexivity.
Qed.

(** All attempts fail: every one of them is made, each followed by its log
    line and its sleep, and the result is [None]. *)
Lemma overnads_exhausted_from (n i : nat) (w : world) :
  (forall k, (k < n)%nat -> retryable (net w (net_calls w + k))) ->
  attempt_from n i w =
  Result (Val None) (called n w)
    (flat_map (fun k => failed (i + k) (net w (net_calls w + k))) (seq 0 n)
     ++ [ELog Error (MRequestFailed retries url)]).
Proof.
  revert i w. induction n as [|n IH]; intros i w Hall; [reflexivity|].
  rewrite overnads_attempt_step, flat_map_seq_S.
  pose proof (Hall 0%nat ltac:(lia)) as H0.
  rewrite Nat.add_0_r in H0. rewrite !Nat.add_0_r.
  assert (Hrest : forall k, (k < n)%nat ->
            retryable (net (bump_net w) (net_calls (bump_net w) + k))).
  { intros k Hk. cbn. specialize (Hall (S k) ltac:(lia)).
    now rewrite Nat.add_succ_r in Hall. }
  specialize (IH (S i) (bump_net w) Hrest).
  assert (Hev : flat_map (fun k => failed (S i + k)
                    (net (bump_net w) (net_calls (bump_net w) + k))) (seq 0 n)
              = flat_map (fun k => failed (i + S k) (net w (net_calls w + S k)))
                    (seq 0 n)).
  { apply flat_map_ext. intros k. cbn [bump_net net net_calls].
    now rewrite !Nat.add_succ_r. }
  destruct (net w (net_calls w)) as [r|] eqn:E; cbn in H0.
  - replace (status_code r =? 401) with false by (symmetry; apply Z.eqb_neq; lia).
    replace (status_code r <? 500) with false by (symmetry; apply Z.ltb_ge; lia).
    cbv zeta. rewrite IH, Hev. cbn [out final events called].
    now rewrite <- app_assoc.
  - cbv zeta. rewrite IH, Hev. cbn [out final events called].
    now rewrite <- app_assoc.
Qed.

(** The attempts before attempt [j] fail and attempt [j] is answered with a
    status below 500 other than 401: that response is returned, and its
    request is the last event. *)
Lemma overnads_returned_from (n i j : nat) (w : world) (r : response) :
  (j < n)%nat ->
  (forall k, (k < j)%nat -> retryable (net w (net_calls w + k))) ->
  net w (net_calls w + j) = Responded r ->
  status_code r < 500 -> status_code r <> 401 ->
  attempt_from n i w =
  Result (Val (Some r)) (called (S j) w)
    (flat_map (fun k => failed (i + k) (net w (net_calls w + k))) (seq 0 j)
     ++ [overnads_request url method payload (Responded r)]).
Proof.
  revert n i w. induction j as [|j IH]; intros n i w Hj Hall Hr Hlt Hne.
  - destruct n as [|n]; [lia|].
    rewrite overnads_attempt_step. rewrite Nat.add_0_r in Hr. rewrite Hr.
    replace (status_code r =? 401) with false by (symmetry; now apply Z.eqb_neq).
    replace (status_code r <? 500) with true by (symmetry; now apply Z.ltb_lt).
    reflexivity.
  - destruct n as [|n]; [lia|].
    rewrite overnads_attempt_step, flat_map_seq_S.
    pose proof (Hall 0%nat ltac:(lia)) as H0.
    rewrite Nat.add_0_r in H0. rewrite !Nat.add_0_r.
    assert (Hrest : forall k, (k < j)%nat ->
              retryable (net (bump_net w) (net_calls (bump_net w) + k))).
    { intros k Hk. cbn. specialize (Hall (S k) ltac:(lia)).
      now rewrite Nat.add_succ_r in Hall. }
    assert (Hr' : net (bump_net w) (net_calls (bump_net w) + j) = Responded r).
    { cbn. now rewrite Nat.add_succ_r in Hr. }
    specialize (IH n (S i) (bump_net w) ltac:(lia) Hrest Hr' Hlt Hne).
    assert (Hev : flat_map (fun k => failed (S i + k)
                      (net (bump_net w) (net_calls (bump_net w) + k))) (seq 0 j)
                = flat_map (fun k => failed (i + S k) (net w (net_calls w + S k)))
                      (seq 0 j)).
    { apply flat_map_ext. intros k. cbn [bump_net net net_calls].
      now rewrite !Nat.add_succ_r. }
    destruct (net w (net_calls w)) as [r0|] eqn:E; cbn in H0.
    + replace (status_code r0 =? 401) with false
        by (symmetry; apply Z.eqb_neq; lia).
      replace (status_code r0 <? 500) with false
        by (symmetry; apply Z.ltb_ge; lia).
      cbv zeta. rewrite IH, Hev. cbn [out final events called].
      now rewrite <- app_assoc.
    + cbv zeta. rewrite IH, Hev. cbn [out final events called].
      now rewrite <- app_assoc.
Qed.

Lemma answers_of_no_request (evs : list event) :
  no_request evs -> answers_of evs = [].
Proof.
  induction 1 as [|e evs He _ IH]; [reflexivity|].
  destruct e; cbn in *; try discriminate; exact IH.
Qed.

Lemma answers_of_overnads_request (o : net_outcome) (evs : list event) :
  answers_of (overnads_request url method payload o :: evs)
  = o :: answers_of evs.
Proof. unfold overnads_request. destruct (String.eqb _ _); reflexivity. Qed.

(** Whatever the network answers: every answer that is followed by another
    attempt is a server error or an exception. *)
Lemma overnads_only_retryable_from (n i : nat) (w : world)
    (before : list net_outcome) (o : net_outcome) (after : list net_outcome) :
  answers_of (events (attempt_from n i w)) = before ++ o :: after ->
  after <> [] -> retryable o.
Proof.
  revert i w before. induction n as [|n IH]; intros i w before Heq Hne.
  - cbn in Heq. destruct before; discriminate.
  - rewrite overnads_attempt_step in Heq.
    destruct (net w (net_calls w)) as [r|] eqn:E.
    + destruct (status_code r =? 401) eqn:E1.
      { cbv zeta in Heq. cbn [events] in Heq.
        rewrite answers_of_overnads_request in Heq. cbn in Heq.
        rewrite (answers_of_no_request _ (telegram_no_request _ _)) in Heq.
        destruct before as [|? [|? ?]]; inversion Heq; subst.
        now contradiction Hne. }
      destruct (status_code r <? 500) eqn:E2.
      { cbn [events] in Heq. rewrite answers_of_overnads_request in Heq.
        cbn in Heq. destruct before as [|? [|? ?]]; inversion Heq; subst.
        now contradiction Hne. }
      cbv zeta in Heq. cbn [events overnads_failed_attempt app] in Heq.
      rewrite answers_of_overnads_request in Heq. cbn in Heq.
      destruct before as [|b before].
      * inversion Heq; subst. cbn. apply Z.ltb_ge in E2. lia.
      * inversion Heq; subst. eapply IH; eauto.
    + cbv zeta in Heq. cbn [events overnads_failed_attempt app] in Heq.
      rewrite answers_of_overnads_request in Heq. cbn in Heq.
      destruct before as [|b before].
      * inversion Heq; subst. exact I.
      * inversion Heq; subst. eapply IH; eauto.
Qed.

(** Every request of the executor is the request it was asked to make. *)
Lemma overnads_requests_from (n i : nat) (w : world) (e : event) :
  In e (events (attempt_from n i w)) -> is_request e = true ->
  exists o, e = overnads_request url method payload o.
Proof.
  revert i w. induction n as [|n IH]; intros i w Hin Hreq.
  - cbn in Hin. destruct Hin as [<-|[]]. discriminate.
  - rewrite overnads_attempt_step in Hin.
    destruct (net w (net_calls w)) as [r|] eqn:E.
    + destruct (status_code r =? 401).
      { cbv zeta in Hin. cbn [events] in Hin.
        destruct Hin as [<-|[<-|Hin]]; [eauto|discriminate|].
        pose proof (telegram_no_request NAuthExpired (bump_net w)) as Hn.
        unfold no_request in Hn. rewrite Forall_forall in Hn.
        apply (proj2 (list_elem_of_In _ _)) in Hin.
        apply Hn in Hin. congruence. }
      destruct (status_code r <? 500).
      { cbn in Hin. destruct Hin as [<-|[]]. eauto. }
      cbn in Hin. destruct Hin as [<-|[<-|[<-|Hin]]];
        [eauto|discriminate|discriminate|eauto].
    + cbn in Hin. destruct Hin as [<-|[<-|[<-|Hin]]];
        [eauto|discriminate|discriminate|eauto].
Qed.

End OvernadsExecutor.

(* ===================================================================== *)
(** ** Rejections end the run *)

Lemma clean_app (l1 l2 : list event) : clean l1 -> clean l2 -> clean (l1 ++ l2).
Proof. unfold clean. intros. now apply Forall_app. Qed.

Lemma clean_in (l : list event) (e : event) :
  clean l -> In e l -> is_rejection e = false.
Proof.
  unfold clean. rewrite Forall_forall. intros H Hin. apply H.
  now apply list_elem_of_In.
Qed.

Lemma no_request_clean (l : list event) : no_request l -> clean l.
Proof.
  unfold no_request, clean. intros H. eapply Forall_impl; [exact H|].
  intros [? ? ? []| | |] H'; cbn in *; congruence.
Qed.

(** A trace has at most one place where a clean prefix is followed by a
    rejection. *)
Lemma rejection_unique (pre0 pre : list event) (e0 e : event)
    (post0 post : list event) :
  clean pre0 -> clean post0 ->
  pre0 ++ e0 :: post0 = pre ++ e :: post ->
  is_rejection e = true ->
  pre = pre0 /\ e = e0 /\ post = post0.
Proof.
  intros Hpre Hpost. revert pre.
  induction pre0 as [|a pre0 IH]; intros pre Heq He.
  - destruct pre as [|x pre]; cbn in Heq; inversion Heq; subst; [easy|].
    assert (is_rejection e = false) by
      (eapply clean_in; [exact Hpost | apply in_elt]).
    congruence.
  - destruct pre as [|x pre]; cbn in Heq; inversion Heq; subst.
    + assert (is_rejection e = false) by
        (eapply clean_in; [exact Hpre | now left]).
      congruence.
    + unfold clean in Hpre. apply Forall_cons in Hpre as [_ Hpre].
      destruct (IH Hpre pre H1 He) as (-> & -> & ->). easy.
Qed.

Section Guarded.

(** What may follow a rejection: the exit code and the rest of the trace. *)
Variable tail : option Z -> list event -> Prop.
Hypothesis tail_clean : forall c post, tail c post -> clean post.

Lemma guarded_quiet {A} (m : M A) :
  (forall w, clean (events (m w))) -> guarded tail m.
Proof. intros H w. left. apply H. Qed.

Lemma guarded_bind {A B} (m : M A) (k : A -> M B) :
  guarded tail m -> (forall a, guarded tail (k a)) -> guarded tail (bind m k).
Proof.
  intros Hm Hk w. rewrite bind_run.
  destruct (Hm w) as [Hc | (pre & e & post & c & Hev & He & Hpre & Ht & Ho)].
  - destruct (out (m w)) as [a| |]; [|now left..].
    destruct (Hk a (final (m w)))
      as [Hc' | (pre & e & post & c & Hev & He & Hpre & Ht & Ho)].
    + left. now apply clean_app.
    + right. exists (events (m w) ++ pre), e, post, c. cbn [events out].
      rewrite Hev, <- app_assoc. repeat split; auto using clean_app.
  - right. rewrite Ho. exists pre, e, post, c. cbn [events out]. auto.
Qed.

Lemma guarded_ret {A} (a : A) : guarded tail (ret a).
Proof. apply guarded_quiet. intros w. constructor. Qed.

Lemma guarded_exit {A} (c : option Z) : guarded tail (@exit A c).
Proof. apply guarded_quiet. intros w. constructor. Qed.

Lemma guarded_raise {A} (e : exn) : guarded tail (@raise A e).
Proof. apply guarded_quiet. intros w. constructor. Qed.

Lemma guarded_log (l : level) (m : message) : guarded tail (log l m).
Proof. apply guarded_quiet. intros w. repeat constructor. Qed.

Lemma guarded_sleep (s : Z) : guarded tail (sleep s).
Proof. apply guarded_quiet. intros w. repeat constructor. Qed.

Lemma guarded_randint (a b : Z) : guarded tail (randint a b).
Proof. apply guarded_quiet. intros w. constructor. Qed.

Lemma guarded_py_get (d : json) (key : string) (default : json) :
  guarded tail (py_get d key default).
Proof. apply guarded_quiet. intros w. destruct d; constructor. Qed.

Lemma guarded_lift_option {A} (e : exn) (o : option A) :
  guarded tail (lift_option e o).
Proof. apply guarded_quiet. intros w. destruct o; constructor. Qed.

Lemma guarded_get_account_stats : guarded tail get_account_stats.
Proof. apply guarded_quiet. intros w. constructor. Qed.

Lemma guarded_set_account_stats (v : json) : guarded tail (set_account_stats v).
Proof. apply guarded_quiet. intros w. constructor. Qed.

(** A guarded computation stops at a rejection. *)
Lemma guarded_stops {A} (m : M A) : guarded tail m -> stops_at_rejection tail m.
Proof.
  intros Hm w before e post Hev He.
  destruct (Hm w) as [Hc | (pre0 & e0 & post0 & c & Hev0 & He0 & Hpre & Ht & Ho)].
  - assert (is_rejection e = false).
    { eapply clean_in; [exact Hc|]. rewrite Hev. apply in_elt. }
    congruence.
  - rewrite Hev0 in Hev.
    destruct (rejection_unique _ _ _ _ _ _ Hpre (tail_clean _ _ Ht) Hev He)
      as (_ & _ & ->).
    eauto.
Qed.

End Guarded.

Create HintDb guarded.
#[local] Hint Resolve guarded_ret guarded_exit guarded_raise guarded_log
  guarded_sleep guarded_randint guarded_py_get guarded_lift_option
  guarded_get_account_stats guarded_set_account_stats : guarded.

(** Splits a computation along its binds, matches and tests, and closes the
    leaves with the hints. *)
Ltac split_guarded :=
  repeat first
    [ progress auto with guarded
    | apply guarded_bind; [|intros ?]
    | match goal with
      | |- guarded _ (match ?x with _ => _ end) => destruct x
      | |- guarded _ (if ?b then _ else _) => destruct b
      end ].

Lemma main_tail_clean (c : option Z) (post : list event) :
  main_tail c post -> clean post.
Proof. intros [_ ->]. repeat constructor. Qed.

Lemma overnads_tail_clean (token chat_id : option string)
    (c : option Z) (post : list event) :
  overnads_tail token chat_id c post -> clean post.
Proof.
  intros (_ & rest & -> & Hrest & _). constructor; [reflexivity|].
  now apply no_request_clean.
Qed.

Section GuardedMain.

Local Abbreviation guarded_main := (guarded main_tail).

Lemma guarded_main_send_request_from (n a : nat) (method url : string)
    (payload : option json) (retries backoff : Z) :
  guarded_main (Main.send_request_from n a method url payload retries backoff).
Proof.
  revert a. induction n as [|n IH]; intros a w.
  - left. repeat constructor.
  - rewrite main_attempt_step.
    destruct (net w (net_calls w)) as [r|] eqn:E.
    + destruct (status_code r =? 401) eqn:E1.
      { right. exists [], (ERequest method url payload (Responded r)),
          [ELog Error MAuthExpired], (Some 1).
        cbn [events out app]. cbn [is_rejection]. rewrite E1.
        refine (conj eq_refl (conj eq_refl (conj _ (conj (conj eq_refl eq_refl)
                                                         eq_refl)))).
        constructor. }
      destruct (status_code r <? 500) eqn:E2.
      { left. cbn. repeat constructor. exact E1. }
      cbv zeta.
      destruct (IH (S a) (bump_net w))
        as [Hc | (pre & e & post & c & Hev & He & Hpre & Ht & Ho)].
      * left. cbn [events]. apply clean_app; [|exact Hc].
        repeat constructor. exact E1.
      * right. exists
          (main_failed_attempt method url payload retries backoff a (Responded r)
           ++ pre), e, post, c.
        cbn [events out]. rewrite Hev, <- app_assoc.
        refine (conj eq_refl (conj He (conj _ (conj Ht Ho)))).
        apply clean_app; [|exact Hpre]. repeat constructor. exact E1.
    + cbv zeta.
      destruct (IH (S a) (bump_net w))
        as [Hc | (pre & e & post & c & Hev & He & Hpre & Ht & Ho)].
      * left. cbn [events]. apply clean_app; [|exact Hc]. repeat constructor.
      * right. exists
          (main_failed_attempt method url payload retries backoff a
                               RequestException ++ pre), e, post, c.
        cbn [events out]. rewrite Hev, <- app_assoc.
        refine (conj eq_refl (conj He (conj _ (conj Ht Ho)))).
        apply clean_app; [|exact Hpre]. repeat constructor.
Qed.

Lemma guarded_main_send_request (method url : string)
    (payload : option json) (retries backoff : Z) :
  guarded_main (Main.send_request method url payload retries backoff).
Proof. apply guarded_main_send_request_from. Qed.

#[local] Hint Resolve guarded_main_send_request : guarded.

Lemma guarded_main_fetch_account_stats : guarded_main Main.fetch_account_stats.
Proof. unfold Main.fetch_account_stats. split_guarded. Qed.

Lemma guarded_main_handle_stuck_game (t : string) :
  guarded_main (Main.handle_stuck_game t).
Proof. unfold Main.handle_stuck_game. split_guarded. Qed.

Lemma guarded_main_wait_next (tickets : Z) (i : nat) :
  guarded_main (Main.wait_next tickets i).
Proof. unfold Main.wait_next. split_guarded. Qed.

#[local] Hint Resolve guarded_main_wait_next : guarded.

Lemma guarded_main_play_started (tickets : Z) (i : nat) (s : option response) :
  guarded_main (Main.play_started tickets i s).
Proof. unfold Main.play_started. cbv zeta. split_guarded. Qed.

#[local] Hint Resolve guarded_main_fetch_account_stats guarded_main_handle_stuck_game
  guarded_main_play_started : guarded.

Lemma guarded_main_play_ticket (ta : json) (tickets : Z) (i : nat) :
  guarded_main (Main.play_ticket ta tickets i).
Proof. unfold Main.play_ticket. cbv zeta. split_guarded. Qed.

#[local] Hint Resolve guarded_main_play_ticket : guarded.

Lemma guarded_main_play_tickets_from (n i : nat) (ta : json) (tickets : Z) :
  guarded_main (Main.play_tickets_from n i ta tickets).
Proof.
  revert i. induction n as [|n IH]; intros i; cbn [Main.play_tickets_from];
    split_guarded.
Qed.

#[local] Hint Resolve guarded_main_play_tickets_from : guarded.

Lemma guarded_main_play_all_games (ta : json) :
  guarded_main (Main.play_all_games ta).
Proof. unfold Main.play_all_games. split_guarded. Qed.

#[local] Hint Resolve guarded_main_play_all_games : guarded.

Lemma guarded_main_main : guarded_main Main.main.
Proof. unfold Main.main, Main.print_summary. split_guarded. Qed.

End GuardedMain.

Section GuardedOvernads.

Variables (token chat_id : option string).

Local Abbreviation guarded_overnads := (guarded (overnads_tail token chat_id)).
Local Abbreviation telegram n := (Overnads.send_telegram_message token chat_id n).

Lemma telegram_unconfigured (n : notice) (w : world) :
  Overnads.configured token && Overnads.configured chat_id = false ->
  events (telegram n w) = [].
Proof.
  unfold Overnads.send_telegram_message. intros H.
  destruct token, chat_id; try reflexivity. now rewrite H.
Qed.

Lemma guarded_overnads_telegram (n : notice) : guarded_overnads (telegram n).
Proof.
  apply guarded_quiet. intros w. apply no_request_clean, telegram_no_request.
Qed.

Lemma overnads_request_rejection (url method : string)
    (payload : option json) (o : net_outcome) :
  is_rejection (overnads_request url method payload o)
  = match o with Responded r => status_code r =? 401 | _ => false end.
Proof. unfold overnads_request. destruct (String.eqb _ _); reflexivity. Qed.

Lemma overnads_failed_attempt_clean (url method : string)
    (payload : option json) (retries backoff_factor : Z) (i : nat)
    (o : net_outcome) :
  match o with Responded r => status_code r =? 401 | _ => false end = false ->
  clean (overnads_failed_attempt url method payload retries backoff_factor i o).
Proof.
  intros H. unfold overnads_failed_attempt. cbv zeta.
  constructor; [now rewrite overnads_request_rejection|].
  constructor; [now destruct o|]. repeat constructor.
Qed.

Lemma guarded_overnads_send_request_from (n i : nat) (url method : string)
    (payload : option json) (retries backoff_factor : Z) :
  guarded_overnads
    (Overnads.send_request_with_retry_from token chat_id n i url method payload
                                           retries backoff_factor).
Proof.
  revert i. induction n as [|n IH]; intros i w.
  - left. repeat constructor.
  - rewrite overnads_attempt_step.
    destruct (net w (net_calls w)) as [r|] eqn:E.
    + destruct (status_code r =? 401) eqn:E1.
      { right. exists [], (overnads_request url method payload (Responded r)),
          (ELog Error MAuthExpired :: events (telegram NAuthExpired (bump_net w))),
          None.
        cbv zeta. cbn [events out app]. rewrite overnads_request_rejection.
        refine (conj eq_refl (conj E1 (conj _ (conj (conj eq_refl _) eq_refl)))).
        - constructor.
        - eexists. split; [reflexivity|]. split.
          + apply telegram_no_request.
          + apply telegram_unconfigured. }
      destruct (status_code r <? 500) eqn:E2.
      { left. cbn [events]. constructor; [|constructor].
        now rewrite overnads_request_rejection. }
      cbv zeta.
      destruct (IH (S i) (bump_net w))
        as [Hc | (pre & e & post & c & Hev & He & Hpre & Ht & Ho)].
      * left. cbn [events]. apply clean_app; [|exact Hc].
        now apply overnads_failed_attempt_clean.
      * right. exists
          (overnads_failed_attempt url method payload retries backoff_factor i
                                   (Responded r) ++ pre), e, post, c.
        cbn [events out]. rewrite Hev, <- app_assoc.
        refine (conj eq_refl (conj He (conj _ (conj Ht Ho)))).
        apply clean_app; [|exact Hpre]. now apply overnads_failed_attempt_clean.
    + cbv zeta.
      destruct (IH (S i) (bump_net w))
        as [Hc | (pre & e & post & c & Hev & He & Hpre & Ht & Ho)].
      * left. cbn [events]. apply clean_app; [|exact Hc].
        now apply overnads_failed_attempt_clean.
      * right. exists
          (overnads_failed_attempt url method payload retries backoff_factor i
                                   RequestException ++ pre), e, post, c.
        cbn [events out]. rewrite Hev, <- app_assoc.
        refine (conj eq_refl (conj He (conj _ (conj Ht Ho)))).
        apply clean_app; [|exact Hpre]. now apply overnads_failed_attempt_clean.
Qed.

Lemma guarded_overnads_send_request (url method : string)
    (payload : option json) (retries backoff_factor : Z) :
  guarded_overnads
    (Overnads.send_request_with_retry token chat_id url method payload
                                      retries backoff_factor).
Proof. apply guarded_overnads_send_request_from. Qed.

#[local] Hint Resolve guarded_overnads_telegram guarded_overnads_send_request : guarded.

Lemma guarded_overnads_fetch_account_stats :
  guarded_overnads (Overnads.fetch_account_stats token chat_id).
Proof. unfold Overnads.fetch_account_stats. split_guarded. Qed.

Lemma guarded_overnads_handle_stuck_game (r : response) :
  guarded_overnads (Overnads.handle_stuck_game token chat_id r).
Proof.
  unfold Overnads.handle_stuck_game, Overnads.search_game_id_in. split_guarded.
Qed.

Lemma guarded_overnads_wait_next (tickets : Z) (i : nat) :
  guarded_overnads (Overnads.wait_next tickets i).
Proof. unfold Overnads.wait_next. split_guarded. Qed.

#[local] Hint Resolve guarded_overnads_fetch_account_stats
  guarded_overnads_handle_stuck_game guarded_overnads_wait_next : guarded.

Lemma guarded_overnads_play_started (tickets : Z) (i : nat) (played : Z)
    (s : option response) :
  guarded_overnads (Overnads.play_started token chat_id tickets i played s).
Proof. unfold Overnads.play_started. cbv zeta. split_guarded. Qed.

#[local] Hint Resolve guarded_overnads_play_started : guarded.

Lemma guarded_overnads_play_ticket (ta : json) (tickets : Z) (i : nat)
    (played : Z) :
  guarded_overnads (Overnads.play_ticket token chat_id ta tickets i played).
Proof. unfold Overnads.play_ticket. cbv zeta. split_guarded. Qed.

#[local] Hint Resolve guarded_overnads_play_ticket : guarded.

Lemma guarded_overnads_play_tickets_from (n i : nat) (ta : json)
    (tickets played : Z) :
  guarded_overnads
    (Overnads.play_tickets_from token chat_id n i ta tickets played).
Proof.
  revert i played. induction n as [|n IH]; intros i played;
    cbn [Overnads.play_tickets_from]; split_guarded.
Qed.

#[local] Hint Resolve guarded_overnads_play_tickets_from : guarded.

Lemma guarded_overnads_play_all_games :
  guarded_overnads (Overnads.play_all_games token chat_id).
Proof. unfold Overnads.play_all_games. split_guarded. Qed.

#[local] Hint Resolve guarded_overnads_play_all_games : guarded.

Lemma guarded_overnads_main :
  guarded_overnads (Overnads.main token chat_id).
Proof. unfold Overnads.main. split_guarded. Qed.

End GuardedOvernads.

(* ===================================================================== *)
(** ** The stuck-game recoverer *)

Lemma upper_POST : upper "POST" = "POST".
Proof. reflexivity. Qed.

Lemma overnads_request_POST (url : string) (payload : option json)
    (o : net_outcome) :
  overnads_request url "POST" payload o = ERequest "POST" url payload o.
Proof. reflexivity. Qed.

(** [main.py]: with a game id in the text, the recoverer logs, draws the
    points, sends the end request, and judges its answer. *)
Lemma main_handle_stuck_game_found (text : string) (id : string) (w : world) :
  search_game_id text = Some id ->
  let points := randint_of 90 110 (rnd w (rnd_calls w)) in
  let end_call := Main.send_request "POST" API_game_end
                    (Some (recovery_payload id points))
                    default_retries default_backoff (bump_rnd w) in
  Main.handle_stuck_game text w =
  match out end_call with
  | Val end_response =>
      Result (Val (snd (recovery_verdict Success end_response)))
             (final end_call)
             (ELog Warning (MClearingStuck id) :: events end_call
              ++ [fst (recovery_verdict Success end_response)])
  | Exit c =>
      Result (Exit c) (final end_call)
             (ELog Warning (MClearingStuck id) :: events end_call)
  | Raise e =>
      Result (Raise e) (final end_call)
             (ELog Warning (MClearingStuck id) :: events end_call)
  end.
Proof.
  intros Hid points end_call. unfold Main.handle_stuck_game. rewrite Hid.
  rewrite bind_run. cbn [log emit out final events].
  rewrite bind_run. cbn [randint out final events].
  rewrite bind_run. fold points. fold end_call.
  destruct (out end_call) as [[r|]| |]; cbn [app]; try reflexivity.
  unfold recovery_verdict.
  destruct (response_ok r && is_200_201 (status_code r)); reflexivity.
Qed.

(** [main.py]: without a game id in the text, the recoverer returns [False]
    after one log line; the world is untouched. *)
Lemma main_handle_stuck_game_not_found (text : string) (w : world) :
  search_game_id text = None ->
  Main.handle_stuck_game text w =
  Result (Val false) w [ELog Error MStuckIdNotParsed].
Proof. intros H. unfold Main.handle_stuck_game. now rewrite H. Qed.

Section OvernadsRecoverer.

Variables (token chat_id : option string).

Lemma overnads_handle_stuck_game_found (r0 : response)
    (m : gmap string json) (s id : string) (w : world) :
  json_body r0 = Some (JObj m) ->
  m !! "error" = Some (JStr s) ->
  search_game_id s = Some id ->
  let points := randint_of 90 110 (rnd w (rnd_calls w)) in
  let end_call := Overnads.send_request_with_retry token chat_id API_game_end
                    "POST" (Some (recovery_payload id points))
                    default_retries default_backoff (bump_rnd w) in
  Overnads.handle_stuck_game token chat_id r0 w =
  match out end_call with
  | Val end_response =>
      Result (Val (snd (recovery_verdict Info end_response)))
             (final end_call)
             (ELog Info (MClearingStuck id) :: events end_call
              ++ [fst (recovery_verdict Info end_response)])
  | Exit c =>
      Result (Exit c) (final end_call)
             (ELog Info (MClearingStuck id) :: events end_call)
  | Raise e =>
      Result (Raise e) (final end_call)
             (ELog Info (MClearingStuck id) :: events end_call)
  end.
Proof.
  intros Hbody Herr Hid points end_call.
  unfold Overnads.handle_stuck_game. rewrite Hbody.
  rewrite bind_run. cbn [py_get]. rewrite Herr. cbn [ret out final events].
  rewrite bind_run. cbn [Overnads.search_game_id_in ret out final events].
  rewrite Hid.
  rewrite bind_run. cbn [log emit out final events].
  rewrite bind_run. cbn [randint out final events].
  rewrite bind_run. fold points. fold end_call.
  destruct (out end_call) as [[r|]| |]; cbn [app]; try reflexivity.
  unfold recovery_verdict.
  destruct (response_ok r && is_200_201 (status_code r)); reflexivity.
Qed.


(** [overnads.py]: the body is a JSON object whose [error] field is absent,
    or is a string without a game id. *)
Lemma overnads_handle_stuck_game_not_found (r0 : response)
    (m : gmap string json) (w : world) :
  json_body r0 = Some (JObj m) ->
  (m !! "error" = None \/
   exists s, m !! "error" = Some (JStr s) /\ search_game_id s = None) ->
  Overnads.handle_stuck_game token chat_id r0 w =
  Result (Val false) w [ELog Error MStuckIdNotParsed].
Proof.
  intros Hbody Herr. unfold Overnads.handle_stuck_game. rewrite Hbody.
  rewrite bind_run. cbn [py_get].
  destruct Herr as [Herr | (s & Herr & Hs)]; rewrite Herr;
    cbn [ret out final events];
    rewrite bind_run; cbn [Overnads.search_game_id_in ret out final events].
  - reflexivity.
  - now rewrite Hs.
Qed.

(** [overnads.py]: the requests of the recoverer, whatever the response. *)
Lemma overnads_handle_stuck_game_requests (r0 : response) (w : world)
    (e : event) :
  In e (events (Overnads.handle_stuck_game token chat_id r0 w)) ->
  is_request e = true ->
  exists m s id o,
    json_body r0 = Some (JObj m) /\ m !! "error" = Some (JStr s) /\
    search_game_id s = Some id /\
    e = ERequest "POST" API_game_end
          (Some (recovery_payload id
                   (randint_of 90 110 (rnd w (rnd_calls w))))) o.
Proof.
  intros Hin Hreq.
  destruct (json_body r0) as [[| | | | |m]|] eqn:Hbody;
    try (unfold Overnads.handle_stuck_game in Hin; rewrite Hbody in Hin;
         cbn in Hin; destruct Hin as [<-|[]]; discriminate);
    try (unfold Overnads.handle_stuck_game in Hin; rewrite Hbody in Hin;
         cbn in Hin; contradiction).
  destruct (m !! "error") as [[| | |s| |]|] eqn:Herr;
    try (unfold Overnads.handle_stuck_game in Hin; rewrite Hbody in Hin;
         rewrite bind_run in Hin; cbn [py_get] in Hin; rewrite Herr in Hin;
         cbn in Hin; contradiction).
  - destruct (search_game_id s) as [id|] eqn:Hid.
    + rewrite (overnads_handle_stuck_game_found r0 m s id w Hbody Herr Hid) in Hin.
      exists m, s, id.
      assert (Hcall : In e (events
                (Overnads.send_request_with_retry token chat_id API_game_end
                   "POST" (Some (recovery_payload id
                            (randint_of 90 110 (rnd w (rnd_calls w)))))
                   default_retries default_backoff (bump_rnd w)))).
      { destruct (out _) as [res| |] in Hin; cbn [events] in Hin;
          destruct Hin as [<-|Hin]; try discriminate; try exact Hin.
        apply in_app_or in Hin as [Hin|[<-|[]]]; [exact Hin|].
        unfold recovery_verdict in Hreq.
        destruct res as [r|]; [destruct (_ && _)|]; discriminate. }
      apply overnads_requests_from in Hcall as [o ->]; [|exact Hreq].
      exists o. rewrite overnads_request_POST. auto.
    + rewrite (overnads_handle_stuck_game_not_found r0 m w Hbody) in Hin
        by (right; eauto).
      cbn in Hin. destruct Hin as [<-|[]]. discriminate.
  - rewrite (overnads_handle_stuck_game_not_found r0 m w Hbody) in Hin
      by (now left).
    cbn in Hin. destruct Hin as [<-|[]]. discriminate.
Qed.

End OvernadsRecoverer.

(** [main.py]: the requests of the recoverer, whatever the text. *)
Lemma main_handle_stuck_game_requests (text : string) (w : world) (e : event) :
  In e (events (Main.handle_stuck_game text w)) ->
  is_request e = true ->
  exists id o,
    search_game_id text = Some id /\
    e = ERequest "POST" API_game_end
          (Some (recovery_payload id
                   (randint_of 90 110 (rnd w (rnd_calls w))))) o.
Proof.
  intros Hin Hreq.
  destruct (search_game_id text) as [id|] eqn:Hid.
  - rewrite (main_handle_stuck_game_found text id w Hid) in Hin.
    exists id.
    assert (Hcall : In e (events
              (Main.send_request "POST" API_game_end
                 (Some (recovery_payload id
                          (randint_of 90 110 (rnd w (rnd_calls w)))))
                 default_retries default_backoff (bump_rnd w)))).
    { destruct (out _) as [res| |] in Hin; cbn [events] in Hin;
        destruct Hin as [<-|Hin]; try discriminate; try exact Hin.
      apply in_app_or in Hin as [Hin|[<-|[]]]; [exact Hin|].
      unfold recovery_verdict in Hreq.
      destruct res as [r|]; [destruct (_ && _)|]; discriminate. }
    apply main_requests_from in Hcall as [o ->]; [|exact Hreq].
    exists o. auto.
  - rewrite (main_handle_stuck_game_not_found text w Hid) in Hin.
    cbn in Hin. destruct Hin as [<-|[]]. discriminate.
Qed.

Lemma recovery_payload_fields (id : string) (points : Z) :
  exists m, recovery_payload id points = JObj m /\
            m !! "gameId" = Some (JStr id) /\
            m !! "overPoints" = Some (JNum points) /\
            m !! "collectedItems" = Some (JArr []) /\
            size m = 3%nat.
Proof. eexists. split; [reflexivity|]. repeat split. Qed.

(* ===================================================================== *)
(** ** The ticket play loop *)

Lemma drawn_3 (w : world) :
  drawn 3 w = bump_rnd (bump_rnd (bump_rnd w)).
Proof. reflexivity. Qed.

Lemma game_payload_fields (points coins won : Z) :
  is_game_payload points coins won (Some (game_payload points coins won)).
Proof.
  unfold is_game_payload, game_payload, item.
  do 3 eexists. split; [reflexivity|]. repeat split.
Qed.

(** The first event of the executor with the default number of attempts is
    its request. *)
Lemma main_send_request_first (method url : string) (payload : option json)
    (w : world) :
  exists rest,
    events (Main.send_request method url payload default_retries
                              default_backoff w)
    = ERequest method url payload (net w (net_calls w)) :: rest.
Proof.
  unfold Main.send_request.
  change (Z.to_nat default_retries) with 3%nat.
  rewrite main_attempt_step.
  destruct (net w (net_calls w)) as [r|]; [|cbn; eauto].
  destruct (status_code r =? 401); [cbn; eauto|].
  destruct (status_code r <? 500); cbn; eauto.
Qed.

Lemma overnads_send_request_first (token chat_id : option string)
    (url : string) (payload : option json) (w : world) :
  exists rest,
    events (Overnads.send_request_with_retry token chat_id url "POST" payload
              default_retries default_backoff w)
    = ERequest "POST" url payload (net w (net_calls w)) :: rest.
Proof.
  unfold Overnads.send_request_with_retry.
  change (Z.to_nat default_retries) with 3%nat.
  rewrite overnads_attempt_step.
  destruct (net w (net_calls w)) as [r|];
    [|cbv zeta; cbn [events overnads_failed_attempt app];
      rewrite overnads_request_POST; eauto].
  destruct (status_code r =? 401);
    [cbv zeta; cbn [events]; rewrite overnads_request_POST; eauto|].
  destruct (status_code r <? 500);
    cbv zeta; cbn [events overnads_failed_attempt app];
    rewrite overnads_request_POST; eauto.
Qed.

(** [main.py]: the second half of an iteration whose start response has
    status 200 or 201. *)
Lemma main_play_started_run (tickets : Z) (i : nat) (r : response)
    (w : world) :
  is_200_201 (status_code r) = true ->
  let points := randint_of 90 110 (rnd w (rnd_calls w)) in
  let coins := randint_of 1 4 (rnd w (S (rnd_calls w))) in
  let won := randint_of 0 4 (rnd w (S (S (rnd_calls w)))) in
  let end_call := Main.send_request "POST" API_game_end
                    (Some (game_payload points coins won))
                    default_retries default_backoff (drawn 3 w) in
  let before := [ ELog Info MGameStarted; ESleep 30;
                  ELog Info (MEndingGame (JNum points)) ] in
  Main.play_started tickets i (Some r) w =
  match out end_call with
  | Val _ =>
      let wait := Main.wait_next tickets i (final end_call) in
      Result (out wait) (final wait)
             (before ++ events end_call
              ++ ELog Success MGameFinished :: events wait)
  | Exit c => Result (Exit c) (final end_call) (before ++ events end_call)
  | Raise e => Result (Raise e) (final end_call) (before ++ events end_call)
  end.
Proof.
  intros H points coins won end_call before.
  unfold Main.play_started. rewrite H, (is_200_201_ok r H). cbn [andb].
  rewrite bind_run. cbn [log emit out final events].
  rewrite bind_run. cbn [sleep emit out final events].
  rewrite bind_run. cbn [randint out final events bump_rnd rnd rnd_calls].
  rewrite bind_run. cbn [randint out final events bump_rnd rnd rnd_calls].
  rewrite bind_run. cbn [randint out final events bump_rnd rnd rnd_calls].
  rewrite bind_run. cbn [log emit out final events].
  rewrite bind_run. fold points coins won.
  change (bump_rnd (bump_rnd (bump_rnd w))) with (drawn 3 w).
  fold end_call.
  destruct (out end_call) as [res| |]; reflexivity.
Qed.

(** [main.py]: the second half of an iteration whose start response is not
    a 200 or 201 that counts as true. *)
Lemma main_play_started_skip (tickets : Z) (i : nat)
    (start_response : option response) (w : world) :
  match start_response with
  | Some r => response_ok r && is_200_201 (status_code r)
  | None => false
  end = false ->
  Main.play_started tickets i start_response w =
  Result (Val tt) w
    [ ELog Error
        (MCouldNotStart
           match start_response with
           | Some r => if response_ok r then Some (status_code r) else None
           | None => None
           end
           match start_response with
           | Some r => if response_ok r then text r else "No Response"
           | None => "No Response"
           end);
      ELog Warning MSkippingTicket ].
Proof.
  intros H. unfold Main.play_started. cbv zeta. rewrite H. reflexivity.
Qed.

(** [main.py]: an iteration is its banner, its start request, and the
    second half on the answer: the stuck-game branch is never taken. *)
Lemma main_play_ticket_run (ta : json) (tickets : Z) (i : nat) (w : world) :
  let start := Main.send_request "POST" API_game_start None
                 default_retries default_backoff w in
  let banner := ELog Plain (MTicketBanner (i + 1) ta) in
  Main.play_ticket ta tickets i w =
  match out start with
  | Val start_response =>
      let rest := Main.play_started tickets i start_response (final start) in
      Result (out rest) (final rest) (banner :: events start ++ events rest)
  | Exit c => Result (Exit c) (final start) (banner :: events start)
  | Raise e => Result (Raise e) (final start) (banner :: events start)
  end.
Proof.
  intros start banner. unfold Main.play_ticket.
  rewrite bind_run. cbn [log emit out final events].
  rewrite bind_run. fold start.
  destruct (out start) as [[r|]| |]; cbn [app]; try reflexivity.
  cbv zeta. now rewrite stuck_test_false.
Qed.

Section OvernadsPlayLoop.

Variables (token chat_id : option string).

Lemma overnads_play_started_run (tickets : Z) (i : nat) (played : Z)
    (r : response) (w : world) :
  is_200_201 (status_code r) = true ->
  let points := randint_of 90 110 (rnd w (rnd_calls w)) in
  let coins := randint_of 1 4 (rnd w (S (rnd_calls w))) in
  let won := randint_of 0 4 (rnd w (S (S (rnd_calls w)))) in
  let payload := game_payload points coins won in
  let end_call := Overnads.send_request_with_retry token chat_id API_game_end
                    "POST" (Some payload)
                    default_retries default_backoff (drawn 3 w) in
  let before := [ ELog Info MGameStarted; ESleep 30;
                  ELog Info (MEndingGame payload) ] in
  Overnads.play_started token chat_id tickets i played (Some r) w =
  match out end_call with
  | Val _ =>
      let wait := Overnads.wait_next tickets i (final end_call) in
      Result (match out wait with
              | Val _ => Val (played + 1)
              | Exit c => Exit c
              | Raise e => Raise e
              end)
             (final wait) (before ++ events end_call ++ events wait)
  | Exit c => Result (Exit c) (final end_call) (before ++ events end_call)
  | Raise e => Result (Raise e) (final end_call) (before ++ events end_call)
  end.
Proof.
  intros H points coins won payload end_call before.
  unfold Overnads.play_started. cbv zeta.
  rewrite H, (is_200_201_ok r H). cbn [andb].
  rewrite bind_run.
  rewrite bind_run. cbn [log emit out final events].
  rewrite bind_run. cbn [sleep emit out final events].
  rewrite bind_run. cbn [randint out final events bump_rnd rnd rnd_calls].
  rewrite bind_run. cbn [randint out final events bump_rnd rnd rnd_calls].
  rewrite bind_run. cbn [randint out final events bump_rnd rnd rnd_calls].
  rewrite bind_run. cbn [log emit out final events].
  rewrite bind_run. fold points coins won. fold payload.
  change (bump_rnd (bump_rnd (bump_rnd w))) with (drawn 3 w).
  fold end_call.
  destruct (out end_call) as [res| |]; cbn [out final events app ret];
    try reflexivity.
  rewrite bind_run.
  destruct (out (Overnads.wait_next tickets i (final end_call)));
    cbn [out final events app ret]; rewrite ?app_nil_r; reflexivity.
Qed.

(** [overnads.py]: an iteration is its two log lines, its start request,
    and the second half on the answer: the stuck-game branch is never
    taken. *)
Lemma overnads_play_ticket_run (ta : json) (tickets : Z) (i : nat)
    (played : Z) (w : world) :
  let start := Overnads.send_request_with_retry token chat_id API_game_start
                 "POST" None default_retries default_backoff w in
  let banner := [ELog Info MSeparator; ELog Info (MTicketBanner (i + 1) ta)] in
  Overnads.play_ticket token chat_id ta tickets i played w =
  match out start with
  | Val start_response =>
      let rest := Overnads.play_started token chat_id tickets i played
                    start_response (final start) in
      Result (out rest) (final rest) (banner ++ events start ++ events rest)
  | Exit c => Result (Exit c) (final start) (banner ++ events start)
  | Raise e => Result (Raise e) (final start) (banner ++ events start)
  end.
Proof.
  intros start banner. unfold Overnads.play_ticket.
  rewrite bind_run. cbn [log emit out final events].
  rewrite bind_run. cbn [log emit out final events].
  rewrite bind_run. fold start.
  destruct (out start) as [[r|]| |]; cbn [app]; try reflexivity.
  cbv zeta. now rewrite stuck_test_false.
Qed.

End OvernadsPlayLoop.

(* ===================================================================== *)
(** ** The claims on the request executor *)

(** C1, as stated, fails in [overnads.py] when Telegram is configured: after
    the 401 the executor posts the notification to Telegram before it
    exits, which is a network call made after that response. *)
Lemma C1_counterexample :
  events (Overnads.send_request_with_retry (Some "token") (Some "chat")
            API_game_start "POST" None default_retries default_backoff
            Examples.rejected_at_once)
  = [ ERequest "POST" API_game_start None (Examples.plain 401 "Unauthorized");
      ELog Error MAuthExpired;
      ETelegram "token" "chat" NAuthExpired (Examples.plain 200 "ok") ]
  /\ is_rejection
       (ERequest "POST" API_game_start None (Examples.plain 401 "Unauthorized"))
     = true
  /\ ~ no_network_call
       [ ELog Error MAuthExpired;
         ETelegram "token" "chat" NAuthExpired (Examples.plain 200 "ok") ].
Proof.
  split; [reflexivity|]. split; [reflexivity|].
  intros H. unfold no_network_call in H.
  apply Forall_cons in H as [_ H]. apply Forall_cons in H as [H _].
  discriminate H.
Qed.

(** C1 (amended): whenever a request of the executor is answered with 401,
    the run ends in a process exit and no request of the executor follows.
    In [main.py] the critical error is the only event after the rejected
    request and the exit code is 1.  In [overnads.py] the critical error is
    followed by what the Telegram notification leaves, which is nothing when
    Telegram is not configured, and by no request of the executor; the exit
    is a bare [exit()].  This holds of the executor alone, of the play loop
    and of the whole script. *)
Theorem C1_rejection_ends_the_run (token chat_id : option string) :
  (forall method url payload retries backoff,
     stops_at_rejection main_tail
       (Main.send_request method url payload retries backoff))
  /\ (forall tickets_available,
        stops_at_rejection main_tail (Main.play_all_games tickets_available))
  /\ stops_at_rejection main_tail Main.main
  /\ (forall url method payload retries backoff_factor,
        stops_at_rejection (overnads_tail token chat_id)
          (Overnads.send_request_with_retry token chat_id url method payload
                                            retries backoff_factor))
  /\ stops_at_rejection (overnads_tail token chat_id)
       (Overnads.play_all_games token chat_id)
  /\ stops_at_rejection (overnads_tail token chat_id)
       (Overnads.main token chat_id).
Proof.
  repeat split; intros;
    first [ apply (guarded_stops main_tail main_tail_clean)
          | apply (guarded_stops _ (overnads_tail_clean token chat_id)) ].
  - apply guarded_main_send_request.
  - apply guarded_main_play_all_games.
  - apply guarded_main_main.
  - apply guarded_overnads_send_request.
  - apply guarded_overnads_play_all_games.
  - apply guarded_overnads_main.
Qed.

(** C1 at work: the first request of [main.py] is rejected, and the script
    exits with code 1 right after the critical error. *)
Lemma C1_witness :
  exists c, out (Main.main Examples.rejected_at_once) = Exit c
            /\ main_tail c [ELog Error MAuthExpired].
Proof.
  destruct (C1_rejection_ends_the_run None None) as (_ & _ & H & _).
  apply (H Examples.rejected_at_once
           [ELog Plain MBotStarted; ELog Info MFetchingStats]
           (ERequest "GET" API_user_profile None
                     (Examples.plain 401 "Unauthorized"))
           [ELog Error MAuthExpired]); reflexivity.
Defined.

(** C2: a response with a status below 500 other than 401 is returned by the
    attempt that received it, and its request is the last one.  Every answer
    that is followed by another attempt is a server error (status 500 or
    more) or a network-level exception.  In [main.py] and in [overnads.py]. *)
Theorem C2_only_failures_are_retried (token chat_id : option string)
    (method url : string) (payload : option json) (retries backoff : Z)
    (w : world) :
  let main_run := Main.send_request method url payload retries backoff w in
  let overnads_run :=
    Overnads.send_request_with_retry token chat_id url method payload
                                     retries backoff w in
  (forall (j : nat) (r : response),
     (j < Z.to_nat retries)%nat ->
     (forall k, (k < j)%nat -> retryable (net w (net_calls w + k))) ->
     net w (net_calls w + j) = Responded r ->
     status_code r < 500 -> status_code r <> 401 ->
     (out main_run = Val (Some r) /\
      answers_of (events main_run)
      = map (fun k => net w (net_calls w + k)) (seq 0 j) ++ [Responded r] /\
      net_calls (final main_run) = (net_calls w + S j)%nat) /\
     (out overnads_run = Val (Some r) /\
      answers_of (events overnads_run)
      = map (fun k => net w (net_calls w + k)) (seq 0 j) ++ [Responded r] /\
      net_calls (final overnads_run) = (net_calls w + S j)%nat))
  /\ Forall retryable (removelast (answers_of (events main_run)))
  /\ Forall retryable (removelast (answers_of (events overnads_run))).
Proof.
  intros main_run overnads_run.
  assert (Hcalls : forall k v, net_calls (called k v) = (net_calls v + k)%nat).
  { induction k as [|k IH]; intros v; cbn [called]; [lia|].
    rewrite IH. cbn. lia. }
  split; [|split].
  - intros j r Hj Hall Hr Hlt Hne. split.
    + unfold main_run, Main.send_request.
      rewrite (main_returned_from _ _ _ _ _ _ _ j w r Hj Hall Hr Hlt Hne).
      cbn [out events final]. split; [reflexivity|]. split; [|apply Hcalls].
      rewrite answers_of_app, (answers_of_main_failed _ _ _ _ _ (fun k => (0 + k)%nat)
                  (fun k => net w (net_calls w + k))).
      reflexivity.
    + unfold overnads_run, Overnads.send_request_with_retry.
      rewrite (overnads_returned_from _ _ _ _ _ _ _ _ _ j w r Hj Hall Hr Hlt Hne).
      cbn [out events final]. split; [reflexivity|]. split; [|apply Hcalls].
      rewrite answers_of_app,
        (answers_of_overnads_failed _ _ _ _ _ (fun k => (0 + k)%nat)
           (fun k => net w (net_calls w + k))).
      now rewrite answers_of_overnads_request.
  - apply Forall_forall. intros o Hin. apply list_elem_of_In in Hin.
    apply in_removelast_split in Hin as (before & after & Heq & Hne).
    eapply main_only_retryable_from; eauto.
  - apply Forall_forall. intros o Hin. apply list_elem_of_In in Hin.
    apply in_removelast_split in Hin as (before & after & Heq & Hne).
    eapply overnads_only_retryable_from; eauto.
Qed.

(** C2 at work: a 503 and a timeout are retried, the 404 of the third
    attempt is returned. *)
Lemma C2_witness :
  out (Main.send_request "GET" API_user_profile None 3 3
                         Examples.two_failures_then_404)
  = Val (Some (Response 404 "Not Found" None))
  /\ out (Overnads.send_request_with_retry None None API_user_profile "GET"
                                           None 3 3
                                           Examples.two_failures_then_404)
     = Val (Some (Response 404 "Not Found" None)).
Proof.
  destruct (C2_only_failures_are_retried None None "GET" API_user_profile None
              3 3 Examples.two_failures_then_404) as (H & _).
  destruct (H 2%nat (Response 404 "Not Found" None)) as ((Hm & _) & (Ho & _)).
  - cbn. lia.
  - intros [|[|k]] Hk; cbn; lia.
  - reflexivity.
  - cbn. lia.
  - cbn. discriminate.
  - split; [exact Hm|exact Ho].
Defined.

(** C3: when every attempt gets a server error or a network-level exception,
    the executor makes exactly [retries] attempts, each followed by its log
    line and by the sleep of the variant ([backoff] seconds in [main.py],
    [backoff_factor * (i + 1)] seconds after attempt [i] in [overnads.py]);
    then it logs the URL and returns [None].  The sleep follows every failed
    attempt, the last one too.  The default of [retries] is 3. *)
Theorem C3_retries_exhausted (token chat_id : option string)
    (method url : string) (payload : option json) (retries backoff : Z)
    (w : world) :
  (forall k, (k < Z.to_nat retries)%nat ->
             retryable (net w (net_calls w + k))) ->
  let main_run := Main.send_request method url payload retries backoff w in
  let overnads_run :=
    Overnads.send_request_with_retry token chat_id url method payload
                                     retries backoff w in
  (out main_run = Val None /\
   events main_run
   = flat_map (fun k => main_failed_attempt method url payload retries backoff
                          k (net w (net_calls w + k)))
              (seq 0 (Z.to_nat retries))
     ++ [ELog Error (MRequestFailed retries url)] /\
   length (answers_of (events main_run)) = Z.to_nat retries)
  /\ (out overnads_run = Val None /\
      events overnads_run
      = flat_map (fun k => overnads_failed_attempt url method payload retries
                             backoff k (net w (net_calls w + k)))
                 (seq 0 (Z.to_nat retries))
        ++ [ELog Error (MRequestFailed retries url)] /\
      length (answers_of (events overnads_run)) = Z.to_nat retries)
  /\ Z.to_nat default_retries = 3%nat.
Proof.
  intros Hall main_run overnads_run. split; [|split; [|reflexivity]].
  - unfold main_run, Main.send_request.
    rewrite (main_exhausted_from _ _ _ _ _ _ 0%nat w Hall).
    cbn [out events]. split; [reflexivity|]. split; [reflexivity|].
    rewrite answers_of_app,
      (answers_of_main_failed _ _ _ _ _ (fun k => (0 + k)%nat)
         (fun k => net w (net_calls w + k))).
    cbn [answers_of]. now rewrite app_nil_r, length_map, length_seq.
  - unfold overnads_run, Overnads.send_request_with_retry.
    rewrite (overnads_exhausted_from _ _ _ _ _ _ _ _ 0%nat w Hall).
    cbn [out events]. split; [reflexivity|]. split; [reflexivity|].
    rewrite answers_of_app,
      (answers_of_overnads_failed _ _ _ _ _ (fun k => (0 + k)%nat)
         (fun k => net w (net_calls w + k))).
    cbn [answers_of]. now rewrite app_nil_r, length_map, length_seq.
Qed.

(** C3 at work: a 500, a timeout and a 502 exhaust the three attempts. *)
Lemma C3_witness :
  out (Main.send_request "POST" API_game_start None 3 3
                         Examples.always_failing) = Val None
  /\ length (answers_of (events
       (Overnads.send_request_with_retry None None API_game_start "POST" None
                                         3 3 Examples.always_failing)))
     = 3%nat.
Proof.
  destruct (C3_retries_exhausted None None "POST" API_game_start None 3 3
              Examples.always_failing) as ((Hm & _) & (_ & _ & Ho) & _).
  - intros [|[|[|k]]] Hk; cbn in *; lia.
  - split; [exact Hm|exact Ho].
Defined.

(* ===================================================================== *)
(** ** The claims on the stuck-game recoverer *)




Lemma is_200_201_verdict (l : level) (end_response : option response) :
  snd (recovery_verdict l end_response)
  = match end_response with
    | Some r => is_200_201 (status_code r)
    | None => false
    end.
Proof.
  unfold recovery_verdict. destruct end_response as [r|]; [|reflexivity].
  destruct (is_200_201 (status_code r)) eqn:E.
  - now rewrite (is_200_201_ok r E).
  - now rewrite andb_false_r.
Qed.

(** C5: once a game id [id] is extracted (from the text in [main.py], from
    the [error] field of the JSON body in [overnads.py]), the recoverer
    returns what the end request decides: [True] when the executor returns a
    response with status 200 or 201, [False] when it returns any other
    response or [None].  When the executor ends the process instead of
    returning, so does the recoverer. *)
Theorem C5_recovery_follows_end_request (token chat_id : option string)
    (w : world) (s id : string) :
  search_game_id s = Some id ->
  let payload := Some (recovery_payload id
                         (randint_of 90 110 (rnd w (rnd_calls w)))) in
  (let end_call := Main.send_request "POST" API_game_end payload
                     default_retries default_backoff (bump_rnd w) in
   let run := Main.handle_stuck_game s w in
   match out end_call with
   | Val (Some r) =>
       out run = Val (is_200_201 (status_code r))
   | Val None => out run = Val false
   | Exit c => out run = Exit c
   | Raise e => out run = Raise e
   end /\
   (out run = Val true <->
    exists r, out end_call = Val (Some r) /\
              (status_code r = 200 \/ status_code r = 201)))
  /\
  (forall r0 m,
     json_body r0 = Some (JObj m) -> m !! "error" = Some (JStr s) ->
     let end_call := Overnads.send_request_with_retry token chat_id
                       API_game_end "POST" payload
                       default_retries default_backoff (bump_rnd w) in
     let run := Overnads.handle_stuck_game token chat_id r0 w in
     match out end_call with
     | Val (Some r) =>
         out run = Val (is_200_201 (status_code r))
     | Val None => out run = Val false
     | Exit c => out run = Exit c
     | Raise e => out run = Raise e
     end /\
     (out run = Val true <->
      exists r, out end_call = Val (Some r) /\
                (status_code r = 200 \/ status_code r = 201))).
Proof.
  intros Hid payload.
  assert (Hiff : forall z, is_200_201 z = true <-> z = 200 \/ z = 201).
  { intros z. unfold is_200_201. rewrite orb_true_iff, !Z.eqb_eq. tauto. }
  split.
  - intros end_call run. unfold run.
    rewrite (main_handle_stuck_game_found s id w Hid).
    fold payload. fold end_call.
    destruct (out end_call) as [[r|]| |]; cbn [out];
      rewrite ?is_200_201_verdict.
    + split; [reflexivity|]. split.
      * intros H. exists r. split; [reflexivity|]. apply Hiff. congruence.
      * intros (r' & Hr' & Hs). inversion Hr'; subst.
        apply Hiff in Hs. now rewrite Hs.
    + split; [reflexivity|]. split; [discriminate|].
      intros (r' & Hr' & _). discriminate.
    + split; [reflexivity|]. split; [discriminate|].
      intros (r' & Hr' & _). discriminate.
    + split; [reflexivity|]. split; [discriminate|].
      intros (r' & Hr' & _). discriminate.
  - intros r0 m Hbody Herr end_call run. unfold run.
    rewrite (overnads_handle_stuck_game_found token chat_id r0 m s id w
               Hbody Herr Hid).
    fold payload. fold end_call.
    destruct (out end_call) as [[r|]| |]; cbn [out];
      rewrite ?is_200_201_verdict.
    + split; [reflexivity|]. split.
      * intros H. exists r. split; [reflexivity|]. apply Hiff. congruence.
      * intros (r' & Hr' & Hs). inversion Hr'; subst.
        apply Hiff in Hs. now rewrite Hs.
    + split; [reflexivity|]. split; [discriminate|].
      intros (r' & Hr' & _). discriminate.
    + split; [reflexivity|]. split; [discriminate|].
      intros (r' & Hr' & _). discriminate.
    + split; [reflexivity|]. split; [discriminate|].
      intros (r' & Hr' & _). discriminate.
Qed.

(** C5 at work: the end request is answered with 200 and the recoverer
    returns [True], in both scripts. *)
Lemma C5_witness :
  out (Main.handle_stuck_game Examples.conflict_text Examples.end_accepted)
  = Val true
  /\ out (Overnads.handle_stuck_game None None Examples.conflict_with_id
                                     Examples.end_accepted)
     = Val true.
Proof.
  destruct (C5_recovery_follows_end_request None None Examples.end_accepted
              Examples.conflict_text "abc12345-0000-0000-0000-000000000000"
              eq_refl) as ((Hm & _) & Ho).
  split; [exact Hm|].
  destruct (Ho Examples.conflict_with_id _ eq_refl eq_refl) as (Ho' & _).
  exact Ho'.
Defined.

(** C6: every request that the recoverer makes is the end request of the
    game whose id it extracted: a POST to the end URL whose payload has
    exactly the fields [gameId] (that id), [overPoints] (a value of
    [[90, 110]]) and [collectedItems] (the empty list). *)
Theorem C6_recovery_payload (token chat_id : option string) (w : world)
    (text : string) (r0 : response)
    (method url : string) (payload : option json) (o : net_outcome) :
  (In (ERequest method url payload o)
      (events (Main.handle_stuck_game text w)) ->
   exists id,
     search_game_id text = Some id /\
     method = "POST" /\ url = API_game_end /\
     is_recovery_payload id payload)
  /\
  (In (ERequest method url payload o)
      (events (Overnads.handle_stuck_game token chat_id r0 w)) ->
   exists id m s,
     json_body r0 = Some (JObj m) /\ m !! "error" = Some (JStr s) /\
     search_game_id s = Some id /\
     method = "POST" /\ url = API_game_end /\
     is_recovery_payload id payload).
Proof.
  assert (Hpay : forall id raw,
            is_recovery_payload id
              (Some (recovery_payload id (randint_of 90 110 raw)))).
  { intros id raw.
    destruct (recovery_payload_fields id (randint_of 90 110 raw))
      as (m & Hm & Hg & Hp & Hc & Hs).
    exists (randint_of 90 110 raw), m. rewrite Hm.
    repeat split; auto; apply randint_of_range; lia. }
  split; intros Hin.
  - apply main_handle_stuck_game_requests in Hin as (id & o' & Hid & He);
      [|reflexivity].
    inversion He; subst. exists id. auto.
  - apply overnads_handle_stuck_game_requests in Hin
      as (m & s & id & o' & Hb & He' & Hid & He); [|reflexivity].
    inversion He; subst. exists id, m, s. auto 10.
Qed.

(** C6 at work: the one request of a recovery in [main.py]. *)
Lemma C6_witness :
  exists id,
    search_game_id Examples.conflict_text = Some id /\
    "POST" = "POST" /\ API_game_end = API_game_end /\
    is_recovery_payload id
      (Some (recovery_payload "abc12345-0000-0000-0000-000000000000" 90)).
Proof.
  apply (proj1 (C6_recovery_payload None None Examples.end_accepted
                  Examples.conflict_text Examples.conflict_with_id
                  "POST" API_game_end
                  (Some (recovery_payload
                           "abc12345-0000-0000-0000-000000000000" 90))
                  (Examples.plain 200 "ok"))).
  right. left. reflexivity.
Defined.

(* ===================================================================== *)
(** ** The claims on the ticket play loop *)

(** C7: with a ticket count of 0 the play loop logs that there is no ticket
    and returns; it makes no network call and leaves the world as it was.
    [main.py] gets the count as its argument, [overnads.py] reads it from
    the [tickets] field of the stats. *)
Theorem C7_no_ticket_no_call (token chat_id : option string) (w : world) :
  Main.play_all_games (JNum 0) w = Result (Val tt) w [ELog Info MNoTickets]
  /\ (forall m,
        account_stats w = JObj m -> m !! "tickets" = Some (JNum 0) ->
        Overnads.play_all_games token chat_id w
        = Result (Val tt) w [ELog Info MNoTickets]).
Proof.
  split; [reflexivity|].
  intros m Hstats Ht. unfold Overnads.play_all_games.
  rewrite bind_run. cbn [get_account_stats out final events].
  rewrite Hstats. rewrite bind_run. cbn [py_get]. rewrite Ht. reflexivity.
Qed.

(** C7 at work: [overnads.py] on stats with [tickets] 0. *)
Lemma C7_witness :
  Overnads.play_all_games None None
    (Examples.world_of [] Examples.no_ticket)
  = Result (Val tt) (Examples.world_of [] Examples.no_ticket)
           [ELog Info MNoTickets].
Proof.
  apply (proj2 (C7_no_ticket_no_call None None
                  (Examples.world_of [] Examples.no_ticket))
               (<["tickets" := JNum 0]> ∅)); reflexivity.
Defined.

Lemma main_wait_next_quiet (tickets : Z) (i : nat) (w : world) :
  out (Main.wait_next tickets i w) = Val tt
  /\ no_request (events (Main.wait_next tickets i w)).
Proof.
  unfold Main.wait_next. destruct (_ <? _); cbn; split;
    repeat constructor.
Qed.

Lemma overnads_wait_next_quiet (tickets : Z) (i : nat) (w : world) :
  out (Overnads.wait_next tickets i w) = Val tt
  /\ no_request (events (Overnads.wait_next tickets i w)).
Proof.
  unfold Overnads.wait_next. destruct (_ <? _); cbn; split;
    repeat constructor.
Qed.

Lemma game_played_main (points coins won : Z) (raw1 raw2 raw3 : Z)
    (end_events rest : list event) (o : net_outcome) (tl : list event) :
  points = randint_of 90 110 raw1 ->
  coins = randint_of 1 4 raw2 ->
  won = randint_of 0 4 raw3 ->
  end_events
  = ERequest "POST" API_game_end (Some (game_payload points coins won)) o
    :: tl ->
  game_played (fun p _ => JNum p)
    ([ ELog Info MGameStarted; ESleep 30;
       ELog Info (MEndingGame (JNum points)) ] ++ end_events ++ rest).
Proof.
  intros -> -> -> ->.
  exists (randint_of 90 110 raw1), (randint_of 1 4 raw2),
    (randint_of 0 4 raw3), (game_payload (randint_of 90 110 raw1)
                              (randint_of 1 4 raw2) (randint_of 0 4 raw3)),
    o, (tl ++ rest).
  split; [apply randint_of_range; lia|].
  split; [apply randint_of_range; lia|].
  split; [apply randint_of_range; lia|].
  split; [apply game_payload_fields|reflexivity].
Qed.

Lemma game_played_overnads (points coins won : Z) (raw1 raw2 raw3 : Z)
    (end_events rest : list event) (o : net_outcome) (tl : list event) :
  points = randint_of 90 110 raw1 ->
  coins = randint_of 1 4 raw2 ->
  won = randint_of 0 4 raw3 ->
  end_events
  = ERequest "POST" API_game_end (Some (game_payload points coins won)) o
    :: tl ->
  game_played (fun _ payload => payload)
    ([ ELog Info MGameStarted; ESleep 30;
       ELog Info (MEndingGame (game_payload points coins won)) ]
     ++ end_events ++ rest).
Proof.
  intros -> -> -> ->.
  exists (randint_of 90 110 raw1), (randint_of 1 4 raw2),
    (randint_of 0 4 raw3), (game_payload (randint_of 90 110 raw1)
                              (randint_of 1 4 raw2) (randint_of 0 4 raw3)),
    o, (tl ++ rest).
  split; [apply randint_of_range; lia|].
  split; [apply randint_of_range; lia|].
  split; [apply randint_of_range; lia|].
  split; [apply game_payload_fields|reflexivity].
Qed.

Lemma main_play_started_played (tickets : Z) (i : nat) (r : response)
    (w : world) :
  is_200_201 (status_code r) = true ->
  game_played (fun p _ => JNum p)
              (events (Main.play_started tickets i (Some r) w)).
Proof.
  intros H. rewrite (main_play_started_run tickets i r w H). cbv zeta.
  destruct (main_send_request_first "POST" API_game_end
              (Some (game_payload (randint_of 90 110 (rnd w (rnd_calls w)))
                       (randint_of 1 4 (rnd w (S (rnd_calls w))))
                       (randint_of 0 4 (rnd w (S (S (rnd_calls w)))))))
              (drawn 3 w)) as (tl & Htl).
  destruct (out _) as [res| |]; cbn [events].
  - eapply game_played_main; eauto.
  - rewrite <- (app_nil_r (events _)). eapply game_played_main; eauto.
  - rewrite <- (app_nil_r (events _)). eapply game_played_main; eauto.
Qed.

Lemma overnads_play_started_played (token chat_id : option string)
    (tickets : Z) (i : nat) (played : Z) (r : response) (w : world) :
  is_200_201 (status_code r) = true ->
  game_played (fun _ payload => payload)
    (events (Overnads.play_started token chat_id tickets i played (Some r) w)).
Proof.
  intros H.
  rewrite (overnads_play_started_run token chat_id tickets i played r w H).
  cbv zeta.
  destruct (overnads_send_request_first token chat_id API_game_end
              (Some (game_payload (randint_of 90 110 (rnd w (rnd_calls w)))
                       (randint_of 1 4 (rnd w (S (rnd_calls w))))
                       (randint_of 0 4 (rnd w (S (S (rnd_calls w)))))))
              (drawn 3 w)) as (tl & Htl).
  destruct (out _) as [res| |]; cbn [events].
  - eapply game_played_overnads; eauto.
  - rewrite <- (app_nil_r (events _)). eapply game_played_overnads; eauto.
  - rewrite <- (app_nil_r (events _)). eapply game_played_overnads; eauto.
Qed.

(** C8: when the start response of an iteration has status 200 or 201, the
    iteration goes on with the log line of the start, the sleep of 30
    seconds, the log line of the end, and the end request: a POST to the end
    URL whose payload has a point value of [[90, 110]] and a list of one
    coin entry with a count of [[1, 4]] and one ticket entry with a count of
    [[0, 4]].  This holds of the second half of the iteration on any such
    start response, and of the whole iteration when its start request
    returns such a response. *)
Theorem C8_started_game_is_played (token chat_id : option string)
    (tickets_available : json) (tickets : Z) (i : nat) (played : Z)
    (r : response) (w : world) :
  is_200_201 (status_code r) = true ->
  game_played (fun p _ => JNum p)
              (events (Main.play_started tickets i (Some r) w))
  /\ game_played (fun _ payload => payload)
       (events (Overnads.play_started token chat_id tickets i played
                                      (Some r) w))
  /\ (let start := Main.send_request "POST" API_game_start None
                     default_retries default_backoff w in
      out start = Val (Some r) ->
      exists evs,
        game_played (fun p _ => JNum p) evs /\
        events (Main.play_ticket tickets_available tickets i w)
        = ELog Plain (MTicketBanner (i + 1) tickets_available)
          :: events start ++ evs)
  /\ (let start := Overnads.send_request_with_retry token chat_id
                     API_game_start "POST" None
                     default_retries default_backoff w in
      out start = Val (Some r) ->
      exists evs,
        game_played (fun _ payload => payload) evs /\
        events (Overnads.play_ticket token chat_id tickets_available tickets
                                     i played w)
        = [ ELog Info MSeparator;
            ELog Info (MTicketBanner (i + 1) tickets_available) ]
          ++ events start ++ evs).
Proof.
  intros H.
  split; [now apply main_play_started_played|].
  split; [now apply overnads_play_started_played|].
  split.
  - intros start Hstart. rewrite main_play_ticket_run. fold start.
    rewrite Hstart. cbv zeta. cbn [events].
    eexists. split; [|reflexivity]. now apply main_play_started_played.
  - intros start Hstart. rewrite overnads_play_ticket_run. fold start.
    rewrite Hstart. cbv zeta. cbn [events].
    eexists. split; [|reflexivity]. now apply overnads_play_started_played.
Qed.

(** C8 at work: a start response with status 201 in [main.py]. *)
Lemma C8_witness :
  game_played (fun p _ => JNum p)
    (events (Main.play_started 1 0 (Some (Response 201 "created" None))
                               Examples.end_accepted)).
Proof.
  apply (proj1 (C8_started_game_is_played None None (JNum 1) 1 0 0
                  (Response 201 "created" None) Examples.end_accepted
                  eq_refl)).
Defined.

Lemma main_send_request_at_once (method url : string)
    (payload : option json) (w : world) (r : response) :
  net w (net_calls w) = Responded r ->
  status_code r < 500 -> status_code r <> 401 ->
  Main.send_request method url payload default_retries default_backoff w
  = Result (Val (Some r)) (bump_net w)
           [ERequest method url payload (Responded r)].
Proof.
  intros Hr Hlt Hne. unfold Main.send_request.
  rewrite (main_returned_from method url payload default_retries
             default_backoff (Z.to_nat default_retries) 0 0 w r);
    [ reflexivity
    | unfold default_retries; lia
    | intros k Hk; lia
    | now rewrite Nat.add_0_r
    | assumption
    | assumption ].
Qed.

Lemma overnads_send_request_at_once (token chat_id : option string)
    (url : string) (payload : option json) (w : world) (r : response) :
  net w (net_calls w) = Responded r ->
  status_code r < 500 -> status_code r <> 401 ->
  Overnads.send_request_with_retry token chat_id url "POST" payload
                                   default_retries default_backoff w
  = Result (Val (Some r)) (bump_net w)
           [ERequest "POST" url payload (Responded r)].
Proof.
  intros Hr Hlt Hne. unfold Overnads.send_request_with_retry.
  rewrite (overnads_returned_from token chat_id url "POST" payload
             default_retries default_backoff (Z.to_nat default_retries)
             0 0 w r);
    [ reflexivity
    | unfold default_retries; lia
    | intros k Hk; lia
    | now rewrite Nat.add_0_r
    | assumption
    | assumption ].
Qed.

(** [overnads.py]: the second half of an iteration whose start response is
    not a 200 or 201 that counts as true. *)
Lemma overnads_play_started_skip (token chat_id : option string)
    (tickets : Z) (i : nat) (played : Z) (start_response : option response)
    (w : world) :
  match start_response with
  | Some r => response_ok r && is_200_201 (status_code r)
  | None => false
  end = false ->
  let run := Overnads.play_started token chat_id tickets i played
                                   start_response w in
  out run = Val played /\
  exists rest,
    events run
    = [ match start_response with
        | Some r => ELog Error (MCouldNotStart (Some (status_code r)) (text r))
        | None => ELog Error MCouldNotSend
        end;
        ELog Warning MSkippingTicket ] ++ rest /\
    no_request rest.
Proof.
  intros H run. unfold run, Overnads.play_started. cbv zeta. rewrite H.
  pose proof (telegram_returns token chat_id NCouldNotStart w) as Htel.
  pose proof (telegram_no_request token chat_id NCouldNotStart w) as Hquiet.
  destruct (overnads_wait_next_quiet tickets i
              (final (Overnads.send_telegram_message token chat_id
                        NCouldNotStart w))) as (Hwait & Hwq).
  rewrite bind_run.
  assert (Hfirst :
    (let* _ := match start_response with
               | Some r => log Error (MCouldNotStart (Some (status_code r))
                                                     (text r))
               | None => log Error MCouldNotSend
               end in
     let* _ := log Warning MSkippingTicket in
     let* _ := Overnads.send_telegram_message token chat_id NCouldNotStart in
     ret played) w
    = Result (Val played)
        (final (Overnads.send_telegram_message token chat_id NCouldNotStart w))
        ([ match start_response with
           | Some r => ELog Error (MCouldNotStart (Some (status_code r)) (text r))
           | None => ELog Error MCouldNotSend
           end;
           ELog Warning MSkippingTicket ]
         ++ events (Overnads.send_telegram_message token chat_id
                      NCouldNotStart w))).
  { rewrite bind_run.
    replace (out (match start_response with
                  | Some r => log Error (MCouldNotStart (Some (status_code r))
                                                        (text r))
                  | None => log Error MCouldNotSend
                  end w)) with (Val (A := unit) tt)
      by (destruct start_response; reflexivity).
    replace (final (match start_response with
                  | Some r => log Error (MCouldNotStart (Some (status_code r))
                                                        (text r))
                  | None => log Error MCouldNotSend
                  end w)) with w
      by (destruct start_response; reflexivity).
    rewrite bind_run. cbn [log emit out final events].
    rewrite bind_run, Htel. cbn [ret out final events].
    rewrite app_nil_r. destruct start_response; reflexivity. }
  rewrite Hfirst. cbn [out final events].
  rewrite bind_run, Hwait. cbn [ret out final events].
  split; [reflexivity|].
  eexists. rewrite app_nil_r, <- app_assoc. split; [reflexivity|].
  unfold no_request. apply Forall_app. split; assumption.
Qed.

(** C9, as stated, fails for the end call: its answer is not looked at.  In
    [overnads.py] a ticket whose end request is answered with 404 is counted
    as played: the loop reports one game played. *)
Lemma C9_counterexample :
  events (Overnads.play_all_games None None
            (Examples.world_of Examples.end_refused Examples.one_ticket))
  = [ ELog Info (MStartingSequence (JNum 1));
      ELog Info MSeparator;
      ELog Info (MTicketBanner 1 (JNum 1));
      ERequest "POST" API_game_start None (Examples.plain 200 "started");
      ELog Info MGameStarted;
      ESleep 30;
      ELog Info (MEndingGame (game_payload 90 1 0));
      ERequest "POST" API_game_end (Some (game_payload 90 1 0))
               (Examples.plain 404 "Not Found");
      ELog Info (MSequenceFinished (Some 1)) ].
Proof. reflexivity. Qed.

(** C9 (amended): a client error (status 400 to 499, 401 apart) is not
    retried, be it the answer to the start request or to the end request.
    As the answer to the start request it makes the iteration skip the
    ticket: no game is played, no end request is made, the count of played
    games stays.  As the answer to the end request it changes nothing: the
    answer is not looked at, [main.py] logs that the game is finished and
    [overnads.py] counts the game as played. *)
Theorem C9_client_errors (token chat_id : option string)
    (tickets_available : json) (tickets : Z) (i : nat) (played : Z)
    (w : world) :
  (forall r,
     net w (net_calls w) = Responded r ->
     400 <= status_code r < 500 -> status_code r <> 401 ->
     Main.play_ticket tickets_available tickets i w
     = Result (Val tt) (bump_net w)
         [ ELog Plain (MTicketBanner (i + 1) tickets_available);
           ERequest "POST" API_game_start None (Responded r);
           ELog Error (MCouldNotStart None "No Response");
           ELog Warning MSkippingTicket ]
     /\
     (let run := Overnads.play_ticket token chat_id tickets_available tickets
                                      i played w in
      out run = Val played /\
      exists rest,
        events run
        = [ ELog Info MSeparator;
            ELog Info (MTicketBanner (i + 1) tickets_available);
            ERequest "POST" API_game_start None (Responded r);
            ELog Error (MCouldNotStart (Some (status_code r)) (text r));
            ELog Warning MSkippingTicket ] ++ rest /\
        no_request rest))
  /\
  (forall r1 r2,
     net w (net_calls w) = Responded r1 ->
     is_200_201 (status_code r1) = true ->
     net w (S (net_calls w)) = Responded r2 ->
     400 <= status_code r2 < 500 -> status_code r2 <> 401 ->
     (let run := Main.play_ticket tickets_available tickets i w in
      out run = Val tt /\
      answers_of (events run) = [Responded r1; Responded r2] /\
      In (ELog Success MGameFinished) (events run))
     /\
     (let run := Overnads.play_ticket token chat_id tickets_available tickets
                                      i played w in
      out run = Val (played + 1) /\
      answers_of (events run) = [Responded r1; Responded r2])).
Proof.
  split.
  - intros r Hr Hs Hne.
    assert (Hok : response_ok r = false).
    { unfold response_ok.
      replace (400 <=? status_code r) with true by (symmetry; apply Z.leb_le; lia).
      replace (status_code r <? 600) with true by (symmetry; apply Z.ltb_lt; lia).
      reflexivity. }
    split.
    + rewrite main_play_ticket_run,
        (main_send_request_at_once _ _ _ w r Hr) by lia.
      cbv zeta. cbn [out final events].
      rewrite main_play_started_skip by (now rewrite Hok).
      rewrite Hok. reflexivity.
    + cbv zeta. rewrite overnads_play_ticket_run,
        (overnads_send_request_at_once _ _ _ _ w r Hr) by lia.
      cbv zeta. cbn [out final events].
      destruct (overnads_play_started_skip token chat_id tickets i played
                  (Some r) (bump_net w)) as (Hout & rest & Hev & Hq);
        [now rewrite Hok|].
      split; [exact Hout|]. exists rest. rewrite Hev. split; [reflexivity|exact Hq].
  - intros r1 r2 Hr1 H1 Hr2 Hs Hne.
    assert (Hlt : status_code r1 < 500 /\ status_code r1 <> 401).
    { unfold is_200_201 in H1. apply orb_true_iff in H1.
      destruct H1 as [H1|H1]; apply Z.eqb_eq in H1; lia. }
    assert (Hr2' : net (drawn 3 (bump_net w))
                       (net_calls (drawn 3 (bump_net w))) = Responded r2)
      by exact Hr2.
    split.
    + cbv zeta. rewrite main_play_ticket_run,
        (main_send_request_at_once _ _ _ w r1 Hr1) by lia.
      cbv zeta. cbn [out final events].
      rewrite (main_play_started_run tickets i r1 (bump_net w) H1). cbv zeta.
      rewrite (main_send_request_at_once _ _ _ _ r2 Hr2') by lia.
      cbn [out final events].
      destruct (main_wait_next_quiet tickets i
                  (bump_net (drawn 3 (bump_net w)))) as (Hwait & Hq).
      split; [exact Hwait|]. split.
      * cbn [app answers_of]. rewrite (answers_of_no_request _ Hq). reflexivity.
      * cbn [app]. do 6 right. now left.
    + cbv zeta. rewrite overnads_play_ticket_run,
        (overnads_send_request_at_once _ _ _ _ w r1 Hr1) by lia.
      cbv zeta. cbn [out final events].
      rewrite (overnads_play_started_run token chat_id tickets i played r1
                 (bump_net w) H1). cbv zeta.
      rewrite (overnads_send_request_at_once _ _ _ _ _ r2 Hr2') by lia.
      cbn [out final events].
      destruct (overnads_wait_next_quiet tickets i
                  (bump_net (drawn 3 (bump_net w)))) as (Hwait & Hq).
      rewrite Hwait. split; [reflexivity|].
      cbn [app answers_of]. rewrite (answers_of_no_request _ Hq). reflexivity.
Qed.

(** C9 at work: a start answered with 403 ends the iteration of [main.py]
    after the two log lines of the skip. *)
Lemma C9_witness :
  Main.play_ticket (JNum 1) 1 0
    (Examples.world_of Examples.start_refused (JObj ∅))
  = Result (Val tt)
      (bump_net (Examples.world_of Examples.start_refused (JObj ∅)))
      [ ELog Plain (MTicketBanner 1 (JNum 1));
        ERequest "POST" API_game_start None (Examples.plain 403 "Forbidden");
        ELog Error (MCouldNotStart None "No Response");
        ELog Warning MSkippingTicket ].
Proof.
  destruct (C9_client_errors None None (JNum 1) 1 0 0
              (Examples.world_of Examples.start_refused (JObj ∅))) as (H & _).
  destruct (H (Response 403 "Forbidden" None)) as (Hm & _).
  - reflexivity.
  - cbn. lia.
  - cbn. discriminate.
  - exact Hm.
Defined.

(* ===================================================================== *)
(** ** The claim on the account stats *)

Lemma overnads_send_request_get_at_once (token chat_id : option string)
    (url : string) (payload : option json) (w : world) (r : response) :
  net w (net_calls w) = Responded r ->
  status_code r < 500 -> status_code r <> 401 ->
  Overnads.send_request_with_retry token chat_id url "GET" payload
                                   default_retries default_backoff w
  = Result (Val (Some r)) (bump_net w)
           [ERequest "GET" url None (Responded r)].
Proof.
  intros Hr Hlt Hne. unfold Overnads.send_request_with_retry.
  rewrite (overnads_returned_from token chat_id url "GET" payload
             default_retries default_backoff (Z.to_nat default_retries)
             0 0 w r);
    [ reflexivity
    | unfold default_retries; lia
    | intros k Hk; lia
    | now rewrite Nat.add_0_r
    | assumption
    | assumption ].
Qed.

Lemma py_get_object (m : gmap string json) (key : string) (default : json)
    (w : world) :
  py_get (JObj m) key default w = Result (Val (field_or m key default)) w [].
Proof. reflexivity. Qed.

Lemma status_200_ok (r : response) :
  status_code r = 200 ->
  response_ok r && (status_code r =? 200) = true
  /\ status_code r < 500 /\ status_code r <> 401.
Proof.
  unfold response_ok. intros ->.
  split; [reflexivity|]. split; [lia|discriminate].
Qed.

(** [main.py]: the stats request is answered with 200 and a JSON object. *)
Lemma main_fetch_account_stats_object (w : world) (r : response)
    (m : gmap string json) :
  net w (net_calls w) = Responded r ->
  status_code r = 200 ->
  json_body r = Some (JObj m) ->
  Main.fetch_account_stats w
  = Result (Val (Some (JObj m))) (bump_net w)
      [ ELog Info MFetchingStats;
        ERequest "GET" API_user_profile None (Responded r);
        ELog Success (MStatsUpdated (field_or m "overPoints" (JNum 0))
                                    (field_or m "coins" (JNum 0))
                                    (field_or m "tickets" (JNum 0))) ].
Proof.
  intros Hr Hs Hb. destruct (status_200_ok r Hs) as (Hok & Hlt & Hne).
  unfold Main.fetch_account_stats.
  rewrite bind_run. cbn [log emit out final events].
  rewrite bind_run, (main_send_request_at_once _ _ _ w r Hr Hlt Hne).
  cbn [out final events]. rewrite Hok, Hb.
  rewrite bind_run, py_get_object. cbn [out final events].
  rewrite bind_run, py_get_object. cbn [out final events].
  rewrite bind_run, py_get_object. cbn [out final events].
  reflexivity.
Qed.

(** [overnads.py]: the same; the object becomes the global stats. *)
Lemma overnads_fetch_account_stats_object (token chat_id : option string)
    (w : world) (r : response) (m : gmap string json) :
  net w (net_calls w) = Responded r ->
  status_code r = 200 ->
  json_body r = Some (JObj m) ->
  Overnads.fetch_account_stats token chat_id w
  = Result (Val true)
      (World (net w) (rnd w) (S (net_calls w)) (rnd_calls w) (JObj m))
      [ ELog Info MFetchingStats;
        ERequest "GET" API_user_profile None (Responded r);
        ELog Info (MStatsUpdated (field_or m "overPoints" (JNum 0))
                                 (field_or m "coins" (JNum 0))
                                 (field_or m "tickets" (JNum 0))) ].
Proof.
  intros Hr Hs Hb. destruct (status_200_ok r Hs) as (Hok & Hlt & Hne).
  unfold Overnads.fetch_account_stats.
  rewrite bind_run. cbn [log emit out final events].
  rewrite bind_run,
    (overnads_send_request_get_at_once _ _ _ _ w r Hr Hlt Hne).
  cbn [out final events]. rewrite Hok, Hb.
  rewrite bind_run. cbn [lift_option ret out final events].
  rewrite bind_run. cbn [set_account_stats out final events].
  rewrite bind_run, py_get_object. cbn [out final events].
  rewrite bind_run, py_get_object. cbn [out final events].
  rewrite bind_run, py_get_object. cbn [out final events].
  reflexivity.
Qed.

(** C10 fails in [main.py] for the empty object: it lacks the [tickets]
    field as it lacks every field, the three numbers are read as 0 and
    logged, but [if not initial_stats] then takes the empty stats for a
    failed fetch, and the script exits with code 1 instead of going on with
    a ticket count of 0. *)
Lemma C10_main_exits_on_empty_stats :
  status_code Examples.stats_empty = 200
  /\ json_body Examples.stats_empty = Some (JObj ∅)
  /\ (∅ : gmap string json) !! "tickets" = None
  /\ Main.main Examples.empty_stats
     = Result (Exit (Some 1)) (bump_net Examples.empty_stats)
         [ ELog Plain MBotStarted;
           ELog Info MFetchingStats;
           ERequest "GET" API_user_profile None
                    (Responded Examples.stats_empty);
           ELog Success (MStatsUpdated (JNum 0) (JNum 0) (JNum 0));
           ELog Error MInitialStatsFailed ].
Proof. repeat split. Qed.

(** What holds of C10: when the stats request is answered with 200 and a
    body that is a JSON object, the fetch succeeds and the three numbers
    that the object lacks are read as 0; nothing is raised.  When the object
    lacks [tickets], the ticket count is 0 and the play loop does nothing
    but log it: in [overnads.py] for every object, in [main.py] for every
    object that is not empty. *)
Lemma stats_absent_fields_default (token chat_id : option string)
    (w : world) (r : response) (m : gmap string json) :
  net w (net_calls w) = Responded r ->
  status_code r = 200 ->
  json_body r = Some (JObj m) ->
  let request := ERequest "GET" API_user_profile None (Responded r) in
  let updated l :=
    ELog l (MStatsUpdated (field_or m "overPoints" (JNum 0))
                          (field_or m "coins" (JNum 0))
                          (field_or m "tickets" (JNum 0))) in
  Main.fetch_account_stats w
  = Result (Val (Some (JObj m))) (bump_net w)
           [ELog Info MFetchingStats; request; updated Success]
  /\ Overnads.fetch_account_stats token chat_id w
     = Result (Val true)
         (World (net w) (rnd w) (S (net_calls w)) (rnd_calls w) (JObj m))
         [ELog Info MFetchingStats; request; updated Info]
  /\ (m !! "tickets" = None ->
      field_or m "tickets" (JNum 0) = JNum 0
      /\ (size m <> 0%nat ->
          exists rest,
            events (Main.main w)
            = [ ELog Plain MBotStarted;
                ELog Info MFetchingStats; request; updated Success;
                ELog Info (MWelcome (field_or m "username" (JStr "User")));
                ELog Info MNoTickets;
                ELog Info MAllTasksDone;
                ESleep 5 ] ++ rest)
      /\ (let w' := final (Overnads.fetch_account_stats token chat_id w) in
          Overnads.play_all_games token chat_id w'
          = Result (Val tt) w' [ELog Info MNoTickets])).
Proof.
  intros Hr Hs Hb request updated.
  pose proof (main_fetch_account_stats_object w r m Hr Hs Hb) as Hmain.
  pose proof (overnads_fetch_account_stats_object token chat_id w r m Hr Hs Hb)
    as Hover.
  split; [exact Hmain|]. split; [exact Hover|].
  intros Ht.
  assert (Hzero : field_or m "tickets" (JNum 0) = JNum 0)
    by (unfold field_or; now rewrite Ht).
  split; [exact Hzero|]. split.
  - intros Hsize. unfold Main.main.
    rewrite bind_run. cbn [log emit out final events].
    rewrite bind_run, Hmain. cbn [out final events py_truthy].
    replace (size m =? 0)%nat with false
      by (symmetry; now apply Nat.eqb_neq).
    cbn [negb].
    rewrite bind_run, py_get_object. cbn [out final events].
    rewrite bind_run. cbn [log emit out final events].
    rewrite bind_run, py_get_object, Hzero. cbn [out final events].
    rewrite bind_run.
    change (Main.play_all_games (JNum 0) (bump_net w))
      with (Result (Val tt) (bump_net w) [ELog Info MNoTickets]).
    cbn [out final events].
    rewrite bind_run. cbn [log emit out final events].
    rewrite bind_run. cbn [sleep emit out final events].
    cbn [app]. unfold updated, request. rewrite Hzero.
    eexists. reflexivity.
  - cbv zeta. rewrite Hover. cbn [final].
    unfold Overnads.play_all_games.
    rewrite bind_run. cbn [get_account_stats out final events account_stats].
    rewrite bind_run, py_get_object, Hzero. reflexivity.
Qed.

(** The stats [{"username": "bob"}] in [main.py]. *)
Lemma stats_absent_fields_default_witness :
  Main.fetch_account_stats Examples.stats_without_tickets
  = Result (Val (Some (JObj (<["username" := JStr "bob"]> ∅))))
      (bump_net Examples.stats_without_tickets)
      [ ELog Info MFetchingStats;
        ERequest "GET" API_user_profile None (Responded Examples.stats_bob);
        ELog Success (MStatsUpdated (JNum 0) (JNum 0) (JNum 0)) ].
Proof.
  apply (proj1 (stats_absent_fields_default None None
                  Examples.stats_without_tickets Examples.stats_bob
                  (<["username" := JStr "bob"]> ∅)
                  eq_refl eq_refl eq_refl)).
Defined.

(* ===================================================================== *)
(** ** Triples *)

Section Yields.

Context {A B : Type}.
Variables (P : event -> Prop) (E : option Z -> Prop) (X : exn -> Prop).

Lemma yields_bind (R : A -> Prop) (R' : B -> Prop) (m : M A) (k : A -> M B) :
  yields P R E X m ->
  (forall a, R a -> yields P R' E X (k a)) ->
  yields P R' E X (bind m k).
Proof.
  intros Hm Hk w. rewrite bind_run. destruct (Hm w) as (Hev & Hout).
  destruct (out (m w)) as [a| |]; cbn [events out]; auto.
  destruct (Hk a Hout (final (m w))) as (Hev' & Hout').
  split; [now apply Forall_app|exact Hout'].
Qed.

Lemma yields_ret (R : A -> Prop) (a : A) : R a -> yields P R E X (ret a).
Proof. intros H w. split; [constructor|exact H]. Qed.

Lemma yields_exit (R : A -> Prop) (c : option Z) :
  E c -> yields P R E X (exit c).
Proof. intros H w. split; [constructor|exact H]. Qed.

Lemma yields_raise (R : A -> Prop) (e : exn) :
  X e -> yields P R E X (raise e).
Proof. intros H w. split; [constructor|exact H]. Qed.

Lemma yields_lift_option (R : A -> Prop) (e : exn) (o : option A) :
  match o with Some a => R a | None => X e end ->
  yields P R E X (lift_option e o).
Proof. destruct o; intros H w; (split; [constructor|exact H]). Qed.

End Yields.

Lemma yields_weaken {A} (P P' : event -> Prop) (R R' : A -> Prop)
    (E E' : option Z -> Prop) (X X' : exn -> Prop) (m : M A) :
  yields P R E X m ->
  (forall e, P e -> P' e) -> (forall a, R a -> R' a) ->
  (forall c, E c -> E' c) -> (forall x, X x -> X' x) ->
  yields P' R' E' X' m.
Proof.
  intros Hm HP HR HE HX w. destruct (Hm w) as (Hev & Hout). split.
  - eapply Forall_impl; [exact Hev|exact HP].
  - destruct (out (m w)); auto.
Qed.

Section YieldsPrimitives.

Variables (P : event -> Prop) (E : option Z -> Prop) (X : exn -> Prop).

Lemma yields_emit (e : event) : P e -> yields P (fun _ => True) E X (emit e).
Proof. intros H w. split; [repeat constructor; exact H|exact I]. Qed.

Lemma yields_log (l : level) (m : message) :
  P (ELog l m) -> yields P (fun _ => True) E X (log l m).
Proof. apply yields_emit. Qed.

Lemma yields_sleep (s : Z) :
  P (ESleep s) -> yields P (fun _ => True) E X (sleep s).
Proof. apply yields_emit. Qed.

Lemma yields_randint (a b : Z) :
  a <= b -> yields P (fun z => a <= z <= b) E X (randint a b).
Proof.
  intros H w. split; [constructor|]. cbn. now apply randint_of_range.
Qed.

Lemma yields_py_get (d : json) (key : string) (default : json) :
  X AttributeError ->
  yields P (fun v => exists m, d = JObj m /\ v = field_or m key default)
         E X (py_get d key default).
Proof.
  intros H w. destruct d; cbn; (split; [constructor|]); eauto.
Qed.

Lemma yields_get_account_stats :
  yields P (fun _ => True) E X get_account_stats.
Proof. intros w. split; [constructor|exact I]. Qed.

Lemma yields_set_account_stats (v : json) :
  yields P (fun _ => True) E X (set_account_stats v).
Proof. intros w. split; [constructor|exact I]. Qed.

End YieldsPrimitives.

(** The executor of [main.py]: its events are its requests, its log lines
    and its sleeps; it returns no 401 and no server error, exits with code 1
    only, and raises nothing. *)
Lemma yields_main_send_request_from (n a : nat) (method url : string)
    (payload : option json) (retries backoff : Z) :
  yields (main_executor_event method url payload backoff) returnable
         (fun c => c = Some 1) (fun _ => False)
         (Main.send_request_from n a method url payload retries backoff).
Proof.
  revert a. induction n as [|n IH]; intros a w.
  - cbn. split; [|exact I]. repeat constructor.
  - rewrite main_attempt_step.
    destruct (net w (net_calls w)) as [r|] eqn:E.
    + destruct (status_code r =? 401) eqn:E1.
      { cbn. split; [|reflexivity]. repeat constructor. }
      destruct (status_code r <? 500) eqn:E2.
      { cbn. split; [repeat constructor|].
        apply Z.eqb_neq in E1. apply Z.ltb_lt in E2. auto. }
      cbv zeta. cbn [events out]. destruct (IH (S a) (bump_net w)) as (Hev & Hout).
      split; [|exact Hout]. apply Forall_app. split; [|exact Hev].
      apply Z.ltb_ge in E2. repeat constructor. cbn. lia.
    + cbv zeta. cbn [events out]. destruct (IH (S a) (bump_net w)) as (Hev & Hout).
      split; [|exact Hout]. apply Forall_app. split; [|exact Hev].
      repeat constructor.
Qed.

(* ===================================================================== *)
(** ** The events of [main.py] *)

Section MainEvents.

Variable X : exn -> Prop.

Local Abbreviation main_yields R m :=
  (yields main_event R (fun c => c = Some 1) X m).

Lemma main_yields_send_request (method url : string) (payload : option json) :
  script_request method url payload ->
  main_yields returnable
    (Main.send_request method url payload default_retries default_backoff).
Proof.
  intros Hreq. eapply yields_weaken.
  - apply yields_main_send_request_from.
  - intros [m u p o| | |l msg]; cbn.
    + intros (-> & -> & ->). exact Hreq.
    + tauto.
    + intros ->. now left.
    + destruct l, msg; cbn; tauto.
  - auto.
  - auto.
  - intros x [].
Qed.

Lemma main_yields_wait_next (tickets : Z) (i : nat) :
  main_yields (fun _ => True) (Main.wait_next tickets i).
Proof.
  unfold Main.wait_next. destruct (_ <? _); [|now apply yields_ret].
  eapply yields_bind; [apply yields_randint; lia|]. intros d Hd.
  eapply yields_bind; [now apply yields_log|]. intros _ _.
  apply yields_sleep. cbn in *. lia.
Qed.

Lemma main_yields_play_started (tickets : Z) (i : nat)
    (start_response : option response) :
  main_yields (fun _ => True) (Main.play_started tickets i start_response).
Proof.
  unfold Main.play_started. cbv zeta.
  match goal with |- context [if ?c then _ else _] => destruct c end.
  - eapply yields_bind; [now apply yields_log|]. intros _ _.
    eapply yields_bind; [apply yields_sleep; cbn; lia|]. intros _ _.
    eapply yields_bind; [apply yields_randint; lia|]. intros points Hp.
    eapply yields_bind; [apply yields_randint; lia|]. intros coins Hc.
    eapply yields_bind; [apply yields_randint; lia|]. intros won Hw.
    eapply yields_bind; [now apply yields_log|]. intros _ _.
    eapply yields_bind.
    { apply main_yields_send_request. right. right.
      repeat split. exists points, coins, won. auto. }
    intros _ _.
    eapply yields_bind; [now apply yields_log|]. intros _ _.
    apply main_yields_wait_next.
  - eapply yields_bind; [now apply yields_log|]. intros _ _.
    now apply yields_log.
Qed.

Lemma main_yields_play_ticket (ta : json) (tickets : Z) (i : nat) :
  main_yields (fun _ => True) (Main.play_ticket ta tickets i).
Proof.
  unfold Main.play_ticket.
  eapply yields_bind; [now apply yields_log|]. intros _ _.
  eapply yields_bind.
  { apply main_yields_send_request. right. left. auto. }
  intros start_response _. cbv zeta.
  destruct start_response as [r|]; [rewrite stuck_test_false|];
    apply main_yields_play_started.
Qed.

Lemma main_yields_play_tickets_from (n i : nat) (ta : json) (tickets : Z) :
  main_yields (fun _ => True) (Main.play_tickets_from n i ta tickets).
Proof.
  revert i. induction n as [|n IH]; intros i; cbn [Main.play_tickets_from].
  - now apply yields_ret.
  - eapply yields_bind; [apply main_yields_play_ticket|]. intros _ _. apply IH.
Qed.

Lemma main_yields_play_all_games (ta : json) :
  (py_int ta = None -> X TypeError) ->
  main_yields (fun _ => True) (Main.play_all_games ta).
Proof.
  intros HX. unfold Main.play_all_games.
  destruct (py_eq_zero ta); [now apply yields_log|].
  eapply yields_bind; [now apply yields_log|]. intros _ _.
  eapply yields_bind.
  { apply (yields_lift_option _ _ _ (fun _ => True)).
    destruct (py_int ta); auto. }
  intros tickets _.
  eapply yields_bind; [apply main_yields_play_tickets_from|]. intros _ _.
  now apply yields_log.
Qed.

Lemma main_yields_fetch_account_stats :
  X AttributeError ->
  main_yields (fun res => match res with
                          | Some stats => exists m, stats = JObj m
                          | None => True
                          end)
              Main.fetch_account_stats.
Proof.
  intros HX. unfold Main.fetch_account_stats.
  eapply yields_bind; [now apply yields_log|]. intros _ _.
  eapply yields_bind.
  { apply main_yields_send_request. left. auto. }
  intros [r|] _.
  - destruct (_ && _).
    + destruct (json_body r) as [stats|].
      * eapply yields_bind; [now apply yields_py_get|].
        intros points (m & -> & _).
        eapply yields_bind; [now apply yields_py_get|]. intros coins _.
        eapply yields_bind; [now apply yields_py_get|]. intros tickets _.
        eapply yields_bind; [now apply yields_log|]. intros _ _.
        apply yields_ret. eauto.
      * eapply yields_bind; [now apply yields_log|]. intros _ _.
        now apply yields_ret.
    + eapply yields_bind; [now apply yields_log|]. intros _ _.
      now apply yields_ret.
  - eapply yields_bind; [now apply yields_log|]. intros _ _.
    now apply yields_ret.
Qed.

Lemma main_yields_main :
  X AttributeError -> X TypeError ->
  main_yields (fun _ => True) Main.main.
Proof.
  intros HA HT. unfold Main.main, Main.print_summary.
  eapply yields_bind; [now apply yields_log|]. intros _ _.
  eapply yields_bind; [now apply main_yields_fetch_account_stats|].
  intros [stats|] Hstats.
  - destruct (py_truthy stats).
    + eapply yields_bind; [now apply yields_py_get|]. intros username _.
      eapply yields_bind; [now apply yields_log|]. intros _ _.
      eapply yields_bind; [now apply yields_py_get|]. intros tickets _.
      eapply yields_bind; [now apply main_yields_play_all_games|]. intros _ _.
      eapply yields_bind; [now apply yields_log|]. intros _ _.
      eapply yields_bind; [apply yields_sleep; cbn; lia|]. intros _ _.
      eapply yields_bind; [now apply main_yields_fetch_account_stats|].
      intros final_stats _.
      eapply yields_bind; [now apply yields_log|]. intros _ _.
      now apply yields_log.
    + eapply yields_bind; [now apply yields_log|]. intros _ _.
      now apply yields_exit.
  - eapply yields_bind; [now apply yields_log|]. intros _ _.
    now apply yields_exit.
Qed.

End MainEvents.

(* ===================================================================== *)
(** ** The events of [overnads.py] *)

Section OvernadsEvents.

Variables (token chat_id : option string).
Variable X : exn -> Prop.

Local Abbreviation overnads_yields R m :=
  (yields (overnads_event token chat_id) R (fun c => c = None) X m).

Lemma yields_telegram (E : option Z -> Prop) (n : notice) :
  recovery_notice n = false ->
  yields (overnads_event token chat_id) (fun _ => True) E X
         (Overnads.send_telegram_message token chat_id n).
Proof.
  intros Hn w. rewrite telegram_returns. split; [|exact I].
  unfold Overnads.send_telegram_message.
  destruct token as [tk|], chat_id as [ch|]; try constructor.
  destruct (Overnads.configured (Some tk) && Overnads.configured (Some ch))
    eqn:Hc; [|constructor].
  apply andb_true_iff in Hc as (Htk & Hch). cbn in Htk, Hch.
  apply negb_true_iff, String.eqb_neq in Htk, Hch.
  rewrite bind_run. cbn.
  destruct (net w (net_calls w)); cbn; repeat constructor; auto.
Qed.

Lemma overnads_yields_send_request_from (n i : nat) (url method : string)
    (payload : option json) (retries : Z) :
  (i + n <= 3)%nat ->
  (forall o, overnads_event token chat_id
               (overnads_request url method payload o)) ->
  overnads_yields returnable
    (Overnads.send_request_with_retry_from token chat_id n i url method
                                           payload retries default_backoff).
Proof.
  intros Hn Hreq. revert i Hn. induction n as [|n IH]; intros i Hn w.
  - cbn. split; [|exact I]. repeat constructor.
  - rewrite overnads_attempt_step.
    assert (Hsleep : default_backoff * (Z.of_nat i + 1) = 3 \/
                     default_backoff * (Z.of_nat i + 1) = 6 \/
                     default_backoff * (Z.of_nat i + 1) = 9)
      by (unfold default_backoff; lia).
    destruct (net w (net_calls w)) as [r|] eqn:E.
    + destruct (status_code r =? 401) eqn:E1.
      { cbv zeta. cbn [events out]. split; [|reflexivity].
        constructor; [apply Hreq|]. constructor; [reflexivity|].
        apply (yields_telegram (fun _ => True) NAuthExpired eq_refl). }
      destruct (status_code r <? 500) eqn:E2.
      { cbn [events out]. split; [repeat constructor; apply Hreq|].
        apply Z.eqb_neq in E1. apply Z.ltb_lt in E2. cbn. auto. }
      cbv zeta. cbn [events out].
      destruct (IH (S i) ltac:(lia) (bump_net w)) as (Hev & Hout).
      split; [|exact Hout]. apply Forall_app. split; [|exact Hev].
      unfold overnads_failed_attempt. cbv zeta.
      constructor; [apply Hreq|]. constructor; [reflexivity|].
      constructor; [|constructor]. cbn. tauto.
    + cbv zeta. cbn [events out].
      destruct (IH (S i) ltac:(lia) (bump_net w)) as (Hev & Hout).
      split; [|exact Hout]. apply Forall_app. split; [|exact Hev].
      unfold overnads_failed_attempt. cbv zeta.
      constructor; [apply Hreq|]. constructor; [reflexivity|].
      constructor; [|constructor]. cbn. tauto.
Qed.

Lemma overnads_yields_send_request (url method : string)
    (payload : option json) :
  (forall o, overnads_event token chat_id
               (overnads_request url method payload o)) ->
  overnads_yields returnable
    (Overnads.send_request_with_retry token chat_id url method payload
                                      default_retries default_backoff).
Proof.
  intros H. unfold Overnads.send_request_with_retry.
  apply overnads_yields_send_request_from; [unfold default_retries; lia|exact H].
Qed.

Lemma overnads_yields_wait_next (tickets : Z) (i : nat) :
  overnads_yields (fun _ => True) (Overnads.wait_next tickets i).
Proof.
  unfold Overnads.wait_next. destruct (_ <? _); [|now apply yields_ret].
  eapply yields_bind; [apply yields_randint; lia|]. intros d Hd.
  eapply yields_bind; [now apply yields_log|]. intros _ _.
  apply yields_sleep. cbn in *. lia.
Qed.

Lemma overnads_yields_play_started (tickets : Z) (i : nat) (played : Z)
    (start_response : option response) :
  overnads_yields (fun _ => True)
    (Overnads.play_started token chat_id tickets i played start_response).
Proof.
  unfold Overnads.play_started. cbv zeta.
  eapply yields_bind with (R := fun _ => True).
  - match goal with |- context [if ?c then _ else _] => destruct c end.
    + eapply yields_bind; [now apply yields_log|]. intros _ _.
      eapply yields_bind; [apply yields_sleep; cbn; lia|]. intros _ _.
      eapply yields_bind; [apply yields_randint; lia|]. intros points Hp.
      eapply yields_bind; [apply yields_randint; lia|]. intros coins Hc.
      eapply yields_bind; [apply yields_randint; lia|]. intros won Hw.
      eapply yields_bind; [now apply yields_log|]. intros _ _.
      eapply yields_bind.
      { apply overnads_yields_send_request. intros o. cbn. right. right.
        repeat split. exists points, coins, won. auto. }
      intros _ _. now apply yields_ret.
    + eapply yields_bind with (R := fun _ => True).
      { destruct start_response; now apply yields_log. }
      intros _ _.
      eapply yields_bind; [now apply yields_log|]. intros _ _.
      eapply yields_bind; [now apply yields_telegram|]. intros _ _.
      now apply yields_ret.
  - intros p _.
    eapply yields_bind; [apply overnads_yields_wait_next|]. intros _ _.
    now apply yields_ret.
Qed.

Lemma overnads_yields_play_ticket (ta : json) (tickets : Z) (i : nat)
    (played : Z) :
  overnads_yields (fun _ => True)
    (Overnads.play_ticket token chat_id ta tickets i played).
Proof.
  unfold Overnads.play_ticket.
  eapply yields_bind; [now apply yields_log|]. intros _ _.
  eapply yields_bind; [now apply yields_log|]. intros _ _.
  eapply yields_bind.
  { apply overnads_yields_send_request. intros o. cbn. right. left. auto. }
  intros start_response _. cbv zeta.
  destruct start_response as [r|]; [rewrite stuck_test_false|];
    apply overnads_yields_play_started.
Qed.

Lemma overnads_yields_play_tickets_from (n i : nat) (ta : json)
    (tickets played : Z) :
  overnads_yields (fun _ => True)
    (Overnads.play_tickets_from token chat_id n i ta tickets played).
Proof.
  revert i played. induction n as [|n IH]; intros i played;
    cbn [Overnads.play_tickets_from].
  - now apply yields_ret.
  - eapply yields_bind; [apply overnads_yields_play_ticket|].
    intros p _. apply IH.
Qed.

Lemma overnads_yields_play_all_games :
  X AttributeError -> X TypeError ->
  overnads_yields (fun _ => True) (Overnads.play_all_games token chat_id).
Proof.
  intros HA HT. unfold Overnads.play_all_games.
  eapply yields_bind; [apply yields_get_account_stats|]. intros stats _.
  eapply yields_bind; [now apply yields_py_get|]. intros tickets _.
  destruct (py_eq_zero tickets); [now apply yields_log|].
  eapply yields_bind; [now apply yields_log|]. intros _ _.
  eapply yields_bind.
  { apply (yields_lift_option _ _ _ (fun _ => True)).
    destruct (py_int tickets); auto. }
  intros n _.
  eapply yields_bind; [apply overnads_yields_play_tickets_from|]. intros p _.
  now apply yields_log.
Qed.

Lemma overnads_yields_fetch_account_stats :
  X AttributeError -> X JSONDecodeError ->
  overnads_yields (fun _ => True) (Overnads.fetch_account_stats token chat_id).
Proof.
  intros HA HJ. unfold Overnads.fetch_account_stats.
  eapply yields_bind; [now apply yields_log|]. intros _ _.
  eapply yields_bind.
  { apply overnads_yields_send_request. intros o. cbn. left. auto. }
  intros [r|] _; [|now apply yields_ret].
  destruct (_ && _); [|now apply yields_ret].
  eapply yields_bind.
  { apply (yields_lift_option _ _ _ (fun _ => True)).
    destruct (json_body r); auto. }
  intros stats _.
  eapply yields_bind; [apply yields_set_account_stats|]. intros _ _.
  eapply yields_bind; [now apply yields_py_get|]. intros points _.
  eapply yields_bind; [now apply yields_py_get|]. intros coins _.
  eapply yields_bind; [now apply yields_py_get|]. intros tickets _.
  eapply yields_bind; [now apply yields_log|]. intros _ _.
  now apply yields_ret.
Qed.

Lemma overnads_yields_main :
  X AttributeError -> X TypeError -> X JSONDecodeError ->
  overnads_yields (fun _ => True) (Overnads.main token chat_id).
Proof.
  intros HA HT HJ. unfold Overnads.main.
  eapply yields_bind; [now apply yields_log|]. intros _ _.
  eapply yields_bind; [now apply yields_telegram|]. intros _ _.
  eapply yields_bind; [now apply overnads_yields_fetch_account_stats|].
  intros [|] _.
  - eapply yields_bind; [apply yields_get_account_stats|]. intros stats _.
    eapply yields_bind; [now apply yields_py_get|]. intros username _.
    eapply yields_bind; [now apply yields_py_get|]. intros points _.
    eapply yields_bind; [now apply yields_py_get|]. intros coins _.
    eapply yields_bind; [now apply yields_py_get|]. intros tickets _.
    eapply yields_bind; [now apply yields_telegram|]. intros _ _.
    eapply yields_bind; [now apply overnads_yields_play_all_games|]. intros _ _.
    eapply yields_bind; [now apply yields_log|]. intros _ _.
    eapply yields_bind; [apply yields_sleep; cbn; lia|]. intros _ _.
    eapply yields_bind; [now apply overnads_yields_fetch_account_stats|].
    intros _ _.
    eapply yields_bind; [apply yields_get_account_stats|]. intros stats' _.
    eapply yields_bind; [now apply yields_py_get|]. intros points' _.
    eapply yields_bind; [now apply yields_py_get|]. intros coins' _.
    eapply yields_bind; [now apply yields_py_get|]. intros tickets' _.
    eapply yields_bind; [now apply yields_telegram|]. intros _ _.
    now apply yields_log.
  - eapply yields_bind; [now apply yields_log|]. intros _ _.
    now apply yields_exit.
Qed.

End OvernadsEvents.

(* ===================================================================== *)
(** ** More on the request executors *)

Lemma last_cons_some {A} (x y : A) (l : list A) :
  last l = Some y -> last (x :: l) = Some y.
Proof. intros H. now rewrite last_cons, H. Qed.

Lemma main_executor_outcome (method url : string) (payload : option json)
    (retries backoff : Z) (n a : nat) (w : world) :
  let run := Main.send_request_from n a method url payload retries backoff w in
  let answers := answers_of (events run) in
  (length answers <= n)%nat /\
  match out run with
  | Val (Some r) => returnable (Some r) /\ last answers = Some (Responded r)
  | Val None => length answers = n /\ Forall retryable answers
  | Exit c =>
      c = Some 1 /\
      exists r, last answers = Some (Responded r) /\ status_code r = 401
  | Raise _ => False
  end.
Proof.
  revert a w. induction n as [|n IH]; intros a w; cbv zeta.
  - cbn. split; [lia|]. split; [reflexivity|constructor].
  - rewrite main_attempt_step.
    destruct (net w (net_calls w)) as [r|] eqn:E.
    + destruct (status_code r =? 401) eqn:E1.
      { cbn. split; [lia|]. split; [reflexivity|].
        exists r. split; [reflexivity|now apply Z.eqb_eq]. }
      destruct (status_code r <? 500) eqn:E2.
      { cbn. split; [lia|]. apply Z.eqb_neq in E1. apply Z.ltb_lt in E2.
        repeat split; assumption. }
      cbv zeta. cbn [events out main_failed_attempt app answers_of].
      specialize (IH (S a) (bump_net w)). cbv zeta in IH.
      destruct IH as (Hlen & Hout). split; [cbn; lia|].
      destruct (out _) as [[r'|]| |].
      * destruct Hout as (Hr & Hl). split; [exact Hr|now apply last_cons_some].
      * destruct Hout as (Hl & Hall). split; [cbn; lia|].
        constructor; [|exact Hall]. cbn. now apply Z.ltb_ge in E2.
      * destruct Hout as (Hc & r' & Hl & Hs). split; [exact Hc|].
        exists r'. split; [now apply last_cons_some|exact Hs].
      * exact Hout.
    + cbv zeta. cbn [events out main_failed_attempt app answers_of].
      specialize (IH (S a) (bump_net w)). cbv zeta in IH.
      destruct IH as (Hlen & Hout). split; [cbn; lia|].
      destruct (out _) as [[r'|]| |].
      * destruct Hout as (Hr & Hl). split; [exact Hr|now apply last_cons_some].
      * destruct Hout as (Hl & Hall). split; [cbn; lia|].
        constructor; [exact I|exact Hall].
      * destruct Hout as (Hc & r' & Hl & Hs). split; [exact Hc|].
        exists r'. split; [now apply last_cons_some|exact Hs].
      * exact Hout.
Qed.

Lemma overnads_executor_outcome (token chat_id : option string)
    (url method : string) (payload : option json)
    (retries backoff_factor : Z) (n i : nat) (w : world) :
  let run := Overnads.send_request_with_retry_from token chat_id n i url
               method payload retries backoff_factor w in
  let answers := answers_of (events run) in
  (length answers <= n)%nat /\
  match out run with
  | Val (Some r) => returnable (Some r) /\ last answers = Some (Responded r)
  | Val None => length answers = n /\ Forall retryable answers
  | Exit c =>
      c = None /\
      exists r, last answers = Some (Responded r) /\ status_code r = 401
  | Raise _ => False
  end.
Proof.
  revert i w. induction n as [|n IH]; intros i w; cbv zeta.
  - cbn. split; [lia|]. split; [reflexivity|constructor].
  - rewrite overnads_attempt_step.
    destruct (net w (net_calls w)) as [r|] eqn:E.
    + destruct (status_code r =? 401) eqn:E1.
      { cbv zeta. cbn [events out].
        rewrite answers_of_overnads_request. cbn [answers_of].
        rewrite (answers_of_no_request _
                   (telegram_no_request token chat_id NAuthExpired _)).
        cbn. split; [lia|]. split; [reflexivity|].
        exists r. split; [reflexivity|now apply Z.eqb_eq]. }
      destruct (status_code r <? 500) eqn:E2.
      { cbn [events out]. rewrite answers_of_overnads_request.
        cbn. split; [lia|]. apply Z.eqb_neq in E1. apply Z.ltb_lt in E2.
        repeat split; assumption. }
      cbv zeta. cbn [events out overnads_failed_attempt app].
      rewrite answers_of_overnads_request. cbn [answers_of].
      specialize (IH (S i) (bump_net w)). cbv zeta in IH.
      destruct IH as (Hlen & Hout). split; [cbn; lia|].
      destruct (out _) as [[r'|]| |].
      * destruct Hout as (Hr & Hl). split; [exact Hr|now apply last_cons_some].
      * destruct Hout as (Hl & Hall). split; [cbn; lia|].
        constructor; [|exact Hall]. cbn. now apply Z.ltb_ge in E2.
      * destruct Hout as (Hc & r' & Hl & Hs). split; [exact Hc|].
        exists r'. split; [now apply last_cons_some|exact Hs].
      * exact Hout.
    + cbv zeta. cbn [events out overnads_failed_attempt app].
      rewrite answers_of_overnads_request. cbn [answers_of].
      specialize (IH (S i) (bump_net w)). cbv zeta in IH.
      destruct IH as (Hlen & Hout). split; [cbn; lia|].
      destruct (out _) as [[r'|]| |].
      * destruct Hout as (Hr & Hl). split; [exact Hr|now apply last_cons_some].
      * destruct Hout as (Hl & Hall). split; [cbn; lia|].
        constructor; [exact I|exact Hall].
      * destruct Hout as (Hc & r' & Hl & Hs). split; [exact Hc|].
        exists r'. split; [now apply last_cons_some|exact Hs].
      * exact Hout.
Qed.

(** X1: the executor makes at most [retries] requests, whatever the network
    answers, and none at all when [retries] is zero or negative: it then
    returns [None] after the one log line of the failure. *)
Theorem executor_request_bound (token chat_id : option string)
    (method url : string) (payload : option json) (retries backoff : Z)
    (w : world) :
  let main_run := Main.send_request method url payload retries backoff w in
  let overnads_run :=
    Overnads.send_request_with_retry token chat_id url method payload
                                     retries backoff w in
  (length (answers_of (events main_run)) <= Z.to_nat retries)%nat
  /\ (length (answers_of (events overnads_run)) <= Z.to_nat retries)%nat
  /\ (retries <= 0 ->
      main_run = Result (Val None) w [ELog Error (MRequestFailed retries url)]
      /\ overnads_run
         = Result (Val None) w [ELog Error (MRequestFailed retries url)]).
Proof.
  cbv zeta. split; [|split].
  - apply (main_executor_outcome method url payload retries backoff).
  - apply (overnads_executor_outcome token chat_id url method payload
             retries backoff).
  - intros Hle. unfold Main.send_request, Overnads.send_request_with_retry.
    replace (Z.to_nat retries) with 0%nat by lia. split; reflexivity.
Qed.

(** No attempt at all: [retries] is 0. *)
Lemma executor_request_bound_witness :
  Main.send_request "GET" API_user_profile None 0 3 Examples.silent
  = Result (Val None) Examples.silent
           [ELog Error (MRequestFailed 0 API_user_profile)].
Proof.
  destruct (executor_request_bound None None "GET" API_user_profile None 0 3
              Examples.silent) as (_ & _ & H).
  apply (proj1 (H ltac:(lia))).
Defined.

(** X2: what each outcome of the executor tells about the answers it got.  A
    returned response has a status below 500 other than 401 and is the
    answer to the last request; [None] is returned only after [retries]
    requests that all got a server error or an exception; the process exits
    only when the last answer has status 401 (with code 1 in [main.py],
    with a bare [exit()] in [overnads.py]); no exception escapes. *)
Theorem executor_outcome (token chat_id : option string)
    (method url : string) (payload : option json) (retries backoff : Z)
    (w : world) :
  let main_run := Main.send_request method url payload retries backoff w in
  let overnads_run :=
    Overnads.send_request_with_retry token chat_id url method payload
                                     retries backoff w in
  match out main_run with
  | Val (Some r) =>
      status_code r < 500 /\ status_code r <> 401 /\
      last (answers_of (events main_run)) = Some (Responded r)
  | Val None =>
      length (answers_of (events main_run)) = Z.to_nat retries /\
      Forall retryable (answers_of (events main_run))
  | Exit c =>
      c = Some 1 /\
      exists r, last (answers_of (events main_run)) = Some (Responded r) /\
                status_code r = 401
  | Raise _ => False
  end
  /\
  match out overnads_run with
  | Val (Some r) =>
      status_code r < 500 /\ status_code r <> 401 /\
      last (answers_of (events overnads_run)) = Some (Responded r)
  | Val None =>
      length (answers_of (events overnads_run)) = Z.to_nat retries /\
      Forall retryable (answers_of (events overnads_run))
  | Exit c =>
      c = None /\
      exists r, last (answers_of (events overnads_run)) = Some (Responded r) /\
                status_code r = 401
  | Raise _ => False
  end.
Proof.
  cbv zeta. split.
  - destruct (main_executor_outcome method url payload retries backoff
                (Z.to_nat retries) 0 w) as (_ & H).
    cbv zeta in H. unfold Main.send_request.
    destruct (out _) as [[r|]| |]; try exact H.
    destruct H as ((H1 & H2) & H3). auto.
  - destruct (overnads_executor_outcome token chat_id url method payload
                retries backoff (Z.to_nat retries) 0 w) as (_ & H).
    cbv zeta in H. unfold Overnads.send_request_with_retry.
    destruct (out _) as [[r|]| |]; try exact H.
    destruct H as ((H1 & H2) & H3). auto.
Qed.

(** X3: every attempt of a request sends the same request.  In [main.py] each
    request of the executor has the method, the URL and the payload it was
    called with.  In [overnads.py] the method is compared in upper case:
    ["POST"] in any case is sent as a POST with the payload, any other
    method as a GET without payload. *)
Theorem executor_repeats_request (token chat_id : option string)
    (method url : string) (payload : option json) (retries backoff : Z)
    (w : world) :
  Forall (fun e => match e with
                   | ERequest m u p _ => m = method /\ u = url /\ p = payload
                   | _ => True
                   end)
         (events (Main.send_request method url payload retries backoff w))
  /\ Forall (fun e => match e with
                      | ERequest m u p _ =>
                          u = url /\
                          ((upper method = "POST" /\ m = "POST" /\ p = payload)
                           \/ (upper method <> "POST" /\ m = "GET" /\ p = None))
                      | _ => True
                      end)
            (events (Overnads.send_request_with_retry token chat_id url method
                                                      payload retries backoff w)).
Proof.
  split; apply Forall_forall; intros e Hin; apply list_elem_of_In in Hin;
    destruct e as [m u p o| | |]; try exact I.
  - apply main_requests_from in Hin as (o' & He); [|reflexivity].
    inversion He; subst. auto.
  - apply overnads_requests_from in Hin as (o' & He); [|reflexivity].
    unfold overnads_request in He.
    destruct (String.eqb (upper method) "POST") eqn:E;
      inversion He; subst; split; auto.
    + left. apply String.eqb_eq in E. auto.
    + right. apply String.eqb_neq in E. auto.
Qed.

Lemma slept_app (l1 l2 : list event) : slept (l1 ++ l2) = slept l1 + slept l2.
Proof.
  induction l1 as [|e l1 IH]; [reflexivity|].
  destruct e; cbn; rewrite IH; lia.
Qed.

Lemma slept_telegram (token chat_id : option string) (n : notice) (w : world) :
  slept (events (Overnads.send_telegram_message token chat_id n w)) = 0.
Proof.
  unfold Overnads.send_telegram_message.
  destruct token, chat_id; try reflexivity.
  destruct (_ && _); [|reflexivity].
  rewrite bind_run. cbn. destruct (net w (net_calls w)); reflexivity.
Qed.

Lemma slept_overnads_request (url method : string) (payload : option json)
    (o : net_outcome) (evs : list event) :
  slept (overnads_request url method payload o :: evs) = slept evs.
Proof. unfold overnads_request. destruct (String.eqb _ _); reflexivity. Qed.

Lemma main_executor_slept (method url : string) (payload : option json)
    (retries backoff : Z) (n a : nat) (w : world) :
  0 <= backoff ->
  let run := Main.send_request_from n a method url payload retries backoff w in
  0 <= slept (events run) <= Z.of_nat n * backoff /\
  (out run = Val None -> slept (events run) = Z.of_nat n * backoff).
Proof.
  intros Hb. revert a w. induction n as [|n IH]; intros a w; cbv zeta.
  - cbn. lia.
  - rewrite main_attempt_step.
    destruct (net w (net_calls w)) as [r|] eqn:E.
    + destruct (status_code r =? 401) eqn:E1.
      { cbn. split; [nia|discriminate]. }
      destruct (status_code r <? 500) eqn:E2.
      { cbn. split; [nia|discriminate]. }
      cbv zeta. cbn [events out main_failed_attempt app slept].
      specialize (IH (S a) (bump_net w)). cbv zeta in IH.
      destruct IH as (Hs & Hn). split; [nia|].
      intros Ho. specialize (Hn Ho). nia.
    + cbv zeta. cbn [events out main_failed_attempt app slept].
      specialize (IH (S a) (bump_net w)). cbv zeta in IH.
      destruct IH as (Hs & Hn). split; [nia|].
      intros Ho. specialize (Hn Ho). nia.
Qed.

Lemma overnads_executor_slept (token chat_id : option string)
    (url method : string) (payload : option json)
    (retries backoff_factor : Z) (n i : nat) (w : world) :
  0 <= backoff_factor ->
  let run := Overnads.send_request_with_retry_from token chat_id n i url
               method payload retries backoff_factor w in
  let full := backoff_factor
              * (2 * Z.of_nat n * Z.of_nat i + Z.of_nat n * (Z.of_nat n + 1)) in
  0 <= 2 * slept (events run) <= full /\
  (out run = Val None -> 2 * slept (events run) = full).
Proof.
  intros Hb. revert i w. induction n as [|n IH]; intros i w; cbv zeta.
  - cbn. lia.
  - rewrite overnads_attempt_step.
    destruct (net w (net_calls w)) as [r|] eqn:E.
    + destruct (status_code r =? 401) eqn:E1.
      { cbv zeta. cbn [events out]. rewrite slept_overnads_request.
        cbn [slept]. rewrite slept_telegram. split; [nia|discriminate]. }
      destruct (status_code r <? 500) eqn:E2.
      { cbn [events out]. rewrite slept_overnads_request. cbn.
        split; [nia|discriminate]. }
      cbv zeta. cbn [events out overnads_failed_attempt app].
      rewrite slept_overnads_request. cbn [slept].
      specialize (IH (S i) (bump_net w)). cbv zeta in IH.
      destruct IH as (Hs & Hn). split; [nia|].
      intros Ho. specialize (Hn Ho). nia.
    + cbv zeta. cbn [events out overnads_failed_attempt app].
      rewrite slept_overnads_request. cbn [slept].
      specialize (IH (S i) (bump_net w)). cbv zeta in IH.
      destruct IH as (Hs & Hn). split; [nia|].
      intros Ho. specialize (Hn Ho). nia.
Qed.

(** X4: the time that a request can cost in sleeps.  With a backoff that is
    not negative and [n] attempts, [main.py] sleeps at most [n * backoff]
    seconds in all and [overnads.py] at most
    [backoff_factor * n * (n + 1) / 2]; both sleep exactly that long when
    the request fails for good.  With the defaults that is 9 seconds and
    18 seconds. *)
Theorem executor_sleep_bound (token chat_id : option string)
    (method url : string) (payload : option json) (retries backoff : Z)
    (w : world) :
  0 <= backoff ->
  let n := Z.of_nat (Z.to_nat retries) in
  let main_run := Main.send_request method url payload retries backoff w in
  let overnads_run :=
    Overnads.send_request_with_retry token chat_id url method payload
                                     retries backoff w in
  (0 <= slept (events main_run) <= n * backoff /\
   (out main_run = Val None -> slept (events main_run) = n * backoff))
  /\ (0 <= 2 * slept (events overnads_run) <= backoff * n * (n + 1) /\
      (out overnads_run = Val None ->
       2 * slept (events overnads_run) = backoff * n * (n + 1)))
  /\ Z.of_nat (Z.to_nat default_retries) * default_backoff = 9
  /\ default_backoff * Z.of_nat (Z.to_nat default_retries)
     * (Z.of_nat (Z.to_nat default_retries) + 1) = 2 * 18.
Proof.
  intros Hb. cbv zeta. split; [|split; [|split; reflexivity]].
  - apply (main_executor_slept method url payload retries backoff
             (Z.to_nat retries) 0 w Hb).
  - destruct (overnads_executor_slept token chat_id url method payload
                retries backoff (Z.to_nat retries) 0 w Hb) as (H1 & H2).
    cbv zeta in H1, H2. unfold Overnads.send_request_with_retry.
    split; [nia|]. intros Ho. specialize (H2 Ho). nia.
Qed.

(** The sleeps of a request that fails for good, with the defaults. *)
Lemma executor_sleep_bound_witness :
  slept (events (Main.send_request "POST" API_game_start None 3 3
                                   Examples.always_failing)) = 9
  /\ 2 * slept (events (Overnads.send_request_with_retry None None
                          API_game_start "POST" None 3 3
                          Examples.always_failing)) = 36.
Proof.
  destruct (executor_sleep_bound None None "POST" API_game_start None 3 3
              Examples.always_failing ltac:(lia))
    as ((_ & Hm) & (_ & Ho) & _).
  split; [apply Hm; reflexivity|apply Ho; reflexivity].
Defined.

(* ===================================================================== *)
(** ** What the scripts do and never do *)

Lemma script_request_no_recovery (method url : string)
    (payload : option json) (o : net_outcome) :
  script_request method url payload ->
  no_recovery (ERequest method url payload o).
Proof.
  intros [(_ & _ & ->)|[(_ & _ & ->)|(_ & _ & p & c & t & _ & _ & _ & ->)]];
    cbn; [exact I|exact I|reflexivity].
Qed.

Lemma main_event_no_recovery (e : event) : main_event e -> no_recovery e.
Proof.
  destruct e as [m u p o| | |];
    [apply script_request_no_recovery|cbn; tauto|cbn; lia|cbn; tauto].
Qed.

Lemma overnads_event_no_recovery (token chat_id : option string) (e : event) :
  overnads_event token chat_id e -> no_recovery e.
Proof.
  destruct e as [m u p o| | |];
    [apply script_request_no_recovery|cbn; tauto|cbn; lia|cbn; tauto].
Qed.

(** X5: every request of a run is one of three: the GET of the stats without
    payload, the POST of a game start without payload, or the POST of a game
    end whose payload has its points in [[90, 110]], its coins in [[1, 4]]
    and its tickets in [[0, 4]]; this holds of the whole of [main.py] and of
    [overnads.py], whatever the network answers. *)
Theorem scripts_make_three_requests (token chat_id : option string)
    (w : world) :
  Forall (fun e => match e with
                   | ERequest method url payload _ =>
                       script_request method url payload
                   | _ => True
                   end)
         (events (Main.main w))
  /\ Forall (fun e => match e with
                      | ERequest method url payload _ =>
                          script_request method url payload
                      | _ => True
                      end)
            (events (Overnads.main token chat_id w)).
Proof.
  split.
  - eapply Forall_impl;
      [apply (main_yields_main (fun _ => True) I I w)|].
    intros [m u p o| | |]; cbn; tauto.
  - eapply Forall_impl;
      [apply (overnads_yields_main token chat_id (fun _ => True) I I I w)|].
    intros [m u p o| | |]; cbn; tauto.
Qed.

(** X6: the stuck-game recovery never runs, in neither script and whatever
    the network answers, a 400 with the text of an active game included:
    a run has no log line and no notice of a recovery, no wait of 10
    seconds, and no request whose payload has a [gameId].  The test
    [start_response and start_response.status_code == 400 and ...] is false
    for every response, a response with status 400 being false as a
    condition. *)
Theorem recovery_never_runs (token chat_id : option string) (w : world) :
  Forall no_recovery (events (Main.main w))
  /\ Forall no_recovery (events (Overnads.main token chat_id w))
  /\ (forall tickets_available,
        Forall no_recovery (events (Main.play_all_games tickets_available w)))
  /\ Forall no_recovery (events (Overnads.play_all_games token chat_id w)).
Proof.
  split; [|split; [|split]].
  - eapply Forall_impl;
      [apply (main_yields_main (fun _ => True) I I w)|].
    apply main_event_no_recovery.
  - eapply Forall_impl;
      [apply (overnads_yields_main token chat_id (fun _ => True) I I I w)|].
    apply overnads_event_no_recovery.
  - intros ta. eapply Forall_impl;
      [apply (main_yields_play_all_games (fun _ => True) ta (fun _ => I) w)|].
    apply main_event_no_recovery.
  - eapply Forall_impl;
      [apply (overnads_yields_play_all_games token chat_id (fun _ => True)
                I I w)|].
    apply overnads_event_no_recovery.
Qed.

(** X7: how long the scripts sleep at a time.  Every sleep of [main.py] lasts
    3 seconds (the backoff), 5 (before the final stats), 30 (the game) or
    15 to 25 (between tickets); every sleep of [overnads.py] lasts 3, 6 or 9
    seconds (the backoff), 5, 30, or 15 to 20. *)
Theorem scripts_sleep_durations (token chat_id : option string) (w : world) :
  Forall (fun e => match e with
                   | ESleep s => s = 3 \/ s = 5 \/ s = 30 \/ 15 <= s <= 25
                   | _ => True
                   end)
         (events (Main.main w))
  /\ Forall (fun e => match e with
                      | ESleep s =>
                          s = 3 \/ s = 6 \/ s = 9 \/ s = 5 \/ s = 30 \/
                          15 <= s <= 20
                      | _ => True
                      end)
            (events (Overnads.main token chat_id w)).
Proof.
  split.
  - eapply Forall_impl;
      [apply (main_yields_main (fun _ => True) I I w)|].
    intros [m u p o| | |]; cbn; tauto.
  - eapply Forall_impl;
      [apply (overnads_yields_main token chat_id (fun _ => True) I I I w)|].
    intros [m u p o| | |]; cbn; tauto.
Qed.

(** X8: [overnads.py] posts to Telegram only when both settings are in the
    configuration and are not empty, and then with these two; without them
    a run makes no network call but the requests of the executor. *)
Theorem telegram_only_when_configured (token chat_id : option string)
    (w : world) :
  Forall (fun e => match e with
                   | ETelegram tk ch _ _ =>
                       token = Some tk /\ chat_id = Some ch /\
                       tk <> EmptyString /\ ch <> EmptyString
                   | _ => True
                   end)
         (events (Overnads.main token chat_id w))
  /\ (Overnads.configured token && Overnads.configured chat_id = false ->
      Forall (fun e => is_network_call e = is_request e)
             (events (Overnads.main token chat_id w))).
Proof.
  pose proof (overnads_yields_main token chat_id (fun _ => True) I I I w)
    as (Hev & _).
  split.
  - eapply Forall_impl; [exact Hev|].
    intros [m u p o|tk ch n o| |]; cbn; tauto.
  - intros Hc. eapply Forall_impl; [exact Hev|].
    intros [m u p o|tk ch n o| |]; cbn; try reflexivity.
    intros (-> & -> & Htk & Hch & _). cbn in Hc.
    apply andb_false_iff in Hc as [Hc|Hc];
      apply negb_false_iff, String.eqb_eq in Hc; congruence.
Qed.

(** [overnads.py] without the Telegram settings. *)
Lemma telegram_only_when_configured_witness :
  Forall (fun e => is_network_call e = is_request e)
         (events (Overnads.main None None Examples.rejected_at_once)).
Proof.
  apply (proj2 (telegram_only_when_configured None None
                  Examples.rejected_at_once)).
  reflexivity.
Defined.

(* ===================================================================== *)
(** ** Counting in the play loop *)

Lemma count_events_app (f : event -> bool) (l1 l2 : list event) :
  count_events f (l1 ++ l2) = (count_events f l1 + count_events f l2)%nat.
Proof.
  induction l1 as [|e l1 IH]; [reflexivity|]. cbn. rewrite IH. lia.
Qed.

Lemma count_events_none (f : event -> bool) (l : list event) :
  Forall (fun e => f e = false) l -> count_events f l = 0%nat.
Proof. induction 1 as [|e l He _ IH]; [reflexivity|]. cbn. now rewrite He. Qed.

(** Neither a ticket banner nor the log line of a started game. *)
Local Abbreviation plain_event :=
  (fun e => is_banner e = false /\ is_game_started e = false).

Lemma plain_counts (l : list event) :
  Forall plain_event l ->
  count_events is_banner l = 0%nat /\ count_events is_game_started l = 0%nat.
Proof.
  intros H. split; apply count_events_none;
    (eapply Forall_impl; [exact H|]); cbn; tauto.
Qed.

Lemma main_executor_plain (method url : string) (payload : option json)
    (retries backoff : Z) (w : world) :
  Forall plain_event
         (events (Main.send_request method url payload retries backoff w)).
Proof.
  eapply Forall_impl; [apply yields_main_send_request_from|].
  intros [m u p o| | |l msg]; cbn; auto. destruct l, msg; cbn; tauto.
Qed.

Lemma telegram_plain (token chat_id : option string) (n : notice) (w : world) :
  Forall plain_event
         (events (Overnads.send_telegram_message token chat_id n w)).
Proof.
  unfold Overnads.send_telegram_message.
  destruct token, chat_id; try constructor.
  destruct (_ && _); [|constructor].
  rewrite bind_run. cbn. destruct (net w (net_calls w)); cbn;
    repeat constructor.
Qed.

Lemma overnads_request_plain (url method : string) (payload : option json)
    (o : net_outcome) :
  plain_event (overnads_request url method payload o).
Proof. unfold overnads_request. destruct (String.eqb _ _); now split. Qed.

Lemma overnads_executor_plain_from (token chat_id : option string)
    (url method : string) (payload : option json)
    (retries backoff_factor : Z) (n i : nat) (w : world) :
  Forall plain_event
         (events (Overnads.send_request_with_retry_from token chat_id n i url
                    method payload retries backoff_factor w)).
Proof.
  revert i w. induction n as [|n IH]; intros i w.
  - cbn. repeat constructor.
  - rewrite overnads_attempt_step.
    destruct (net w (net_calls w)) as [r|].
    + destruct (status_code r =? 401).
      { cbv zeta. cbn [events]. constructor; [apply overnads_request_plain|].
        constructor; [now split|apply telegram_plain]. }
      destruct (status_code r <? 500).
      { cbn [events]. constructor; [apply overnads_request_plain|constructor]. }
      cbv zeta. cbn [events overnads_failed_attempt app].
      constructor; [apply overnads_request_plain|].
      constructor; [now split|]. constructor; [now split|apply IH].
    + cbv zeta. cbn [events overnads_failed_attempt app].
      constructor; [apply overnads_request_plain|].
      constructor; [now split|]. constructor; [now split|apply IH].
Qed.

Lemma main_wait_next_plain (tickets : Z) (i : nat) (w : world) :
  Forall plain_event (events (Main.wait_next tickets i w)).
Proof.
  unfold Main.wait_next. destruct (_ <? _); cbn; repeat constructor.
Qed.

Lemma overnads_wait_next_plain (tickets : Z) (i : nat) (w : world) :
  Forall plain_event (events (Overnads.wait_next tickets i w)).
Proof.
  unfold Overnads.wait_next. destruct (_ <? _); cbn; repeat constructor.
Qed.

Lemma main_request_count (method url : string) (payload : option json)
    (w : world) :
  (length (answers_of (events (Main.send_request method url payload
                                 default_retries default_backoff w))) <= 3)%nat.
Proof.
  apply (main_executor_outcome method url payload default_retries
           default_backoff 3 0 w).
Qed.

Lemma overnads_request_count (token chat_id : option string)
    (url method : string) (payload : option json) (w : world) :
  (length (answers_of (events (Overnads.send_request_with_retry token chat_id
                                 url method payload
                                 default_retries default_backoff w))) <= 3)%nat.
Proof.
  apply (overnads_executor_outcome token chat_id url method payload
           default_retries default_backoff 3 0 w).
Qed.

(** The second half of an iteration of [main.py]: no banner, at most one
    started game, at most three requests. *)
Lemma main_play_started_counts (tickets : Z) (i : nat)
    (start_response : option response) (w : world) :
  let evs := events (Main.play_started tickets i start_response w) in
  count_events is_banner evs = 0%nat
  /\ (count_events is_game_started evs <= 1)%nat
  /\ (length (answers_of evs) <= 3)%nat.
Proof.
  cbv zeta.
  destruct (match start_response with
            | Some r => response_ok r && is_200_201 (status_code r)
            | None => false
            end) eqn:Hs.
  - destruct start_response as [r|]; [|discriminate].
    apply andb_true_iff in Hs as (_ & Hs).
    rewrite (main_play_started_run tickets i r w Hs). cbv zeta.
    set (end_call := Main.send_request _ _ _ _ _ _).
    destruct (plain_counts _ (main_executor_plain "POST" API_game_end
                (Some (game_payload
                         (randint_of 90 110 (rnd w (rnd_calls w)))
                         (randint_of 1 4 (rnd w (S (rnd_calls w))))
                         (randint_of 0 4 (rnd w (S (S (rnd_calls w)))))))
                default_retries default_backoff (drawn 3 w))) as (Hb & Hg).
    pose proof (main_request_count "POST" API_game_end
                (Some (game_payload
                         (randint_of 90 110 (rnd w (rnd_calls w)))
                         (randint_of 1 4 (rnd w (S (rnd_calls w))))
                         (randint_of 0 4 (rnd w (S (S (rnd_calls w)))))))
                (drawn 3 w)) as Hc.
    fold end_call in Hb, Hg, Hc.
    destruct (plain_counts _ (main_wait_next_plain tickets i (final end_call)))
      as (Hwb & Hwg).
    pose proof (answers_of_no_request _
                  (proj2 (main_wait_next_quiet tickets i (final end_call))))
      as Hwa.
    destruct (out end_call); cbn [events];
      rewrite ?count_events_app, ?answers_of_app, ?length_app;
      cbn [count_events answers_of is_banner is_game_started length app];
      rewrite ?count_events_app, ?answers_of_app, ?length_app, ?Hb, ?Hg,
        ?Hwb, ?Hwg, ?Hwa; cbn [length]; lia.
  - rewrite (main_play_started_skip tickets i start_response w Hs). cbn. lia.
Qed.

(** An iteration of [main.py]: one banner, at most one started game, at most
    six requests; it returns, or exits with code 1. *)
Lemma main_play_ticket_counts (ta : json) (tickets : Z) (i : nat) (w : world) :
  let run := Main.play_ticket ta tickets i w in
  count_events is_banner (events run) = 1%nat
  /\ (count_events is_game_started (events run) <= 1)%nat
  /\ (length (answers_of (events run)) <= 6)%nat
  /\ match out run with
     | Val _ => True
     | Exit c => c = Some 1
     | Raise _ => False
     end.
Proof.
  cbv zeta.
  destruct (main_yields_play_ticket (fun _ => False) ta tickets i w)
    as (_ & Hout).
  rewrite main_play_ticket_run in *. cbv zeta in *.
  set (start := Main.send_request _ _ _ _ _ _) in *.
  destruct (plain_counts _ (main_executor_plain "POST" API_game_start None
              default_retries default_backoff w)) as (Hb & Hg).
  pose proof (main_request_count "POST" API_game_start None w) as Hc.
  fold start in Hb, Hg, Hc.
  destruct (out start) as [sr| |]; cbn [events out] in *.
  - destruct (main_play_started_counts tickets i sr (final start))
      as (Hb' & Hg' & Hc').
    cbn [count_events is_banner is_game_started answers_of].
    rewrite !count_events_app, answers_of_app, length_app, Hb, Hg, Hb'.
    repeat split; try lia. exact Hout.
  - cbn [count_events is_banner is_game_started answers_of].
    rewrite Hb, Hg. repeat split; try lia. exact Hout.
  - contradiction.
Qed.

Lemma main_play_tickets_counts (n i : nat) (ta : json) (tickets : Z)
    (w : world) :
  let run := Main.play_tickets_from n i ta tickets w in
  (count_events is_game_started (events run)
   <= count_events is_banner (events run) <= n)%nat
  /\ (length (answers_of (events run)) <= 6 * n)%nat
  /\ match out run with
     | Val _ => count_events is_banner (events run) = n
     | Exit c => c = Some 1
     | Raise _ => False
     end.
Proof.
  revert i w. induction n as [|n IH]; intros i w; cbv zeta.
  - cbn. repeat split; lia.
  - cbn [Main.play_tickets_from]. rewrite bind_run.
    destruct (main_play_ticket_counts ta tickets i w) as (Hb & Hg & Hc & Ho).
    cbv zeta in Hb, Hg, Hc, Ho.
    destruct (out (Main.play_ticket ta tickets i w)) as [[]| |];
      cbn [events out].
    + specialize (IH (S i) (final (Main.play_ticket ta tickets i w))).
      cbv zeta in IH. destruct IH as (Hb' & Hc' & Ho').
      rewrite !count_events_app, answers_of_app, length_app.
      repeat split; try lia.
      destruct (out _); auto. lia.
    + repeat split; try lia. exact Ho.
    + contradiction.
Qed.

Section OvernadsCounts.

Variables (token chat_id : option string).

Local Abbreviation plain_event :=
  (fun e => is_banner e = false /\ is_game_started e = false).

(** The second half of an iteration whose start response is not a 200 or 201
    that counts as true, in full. *)
Lemma overnads_play_started_skip_run (tickets : Z) (i : nat) (played : Z)
    (start_response : option response) (w : world) :
  match start_response with
  | Some r => response_ok r && is_200_201 (status_code r)
  | None => false
  end = false ->
  let notice := Overnads.send_telegram_message token chat_id NCouldNotStart w in
  let wait := Overnads.wait_next tickets i (final notice) in
  Overnads.play_started token chat_id tickets i played start_response w
  = Result (Val played) (final wait)
      ([ match start_response with
         | Some r => ELog Error (MCouldNotStart (Some (status_code r)) (text r))
         | None => ELog Error MCouldNotSend
         end;
         ELog Warning MSkippingTicket ]
       ++ events notice ++ events wait).
Proof.
  intros H notice wait. unfold Overnads.play_started. cbv zeta. rewrite H.
  pose proof (telegram_returns token chat_id NCouldNotStart w) as Htel.
  destruct (overnads_wait_next_quiet tickets i (final notice)) as (Hwait & _).
  fold notice in Htel. fold wait in Hwait.
  rewrite bind_run.
  assert (Hfirst :
    (let* _ := match start_response with
               | Some r => log Error (MCouldNotStart (Some (status_code r))
                                                     (text r))
               | None => log Error MCouldNotSend
               end in
     let* _ := log Warning MSkippingTicket in
     let* _ := Overnads.send_telegram_message token chat_id NCouldNotStart in
     ret played) w
    = Result (Val played) (final notice)
        ([ match start_response with
           | Some r => ELog Error (MCouldNotStart (Some (status_code r)) (text r))
           | None => ELog Error MCouldNotSend
           end;
           ELog Warning MSkippingTicket ] ++ events notice)).
  { rewrite bind_run.
    replace (out (match start_response with
                  | Some r => log Error (MCouldNotStart (Some (status_code r))
                                                        (text r))
                  | None => log Error MCouldNotSend
                  end w)) with (Val (A := unit) tt)
      by (destruct start_response; reflexivity).
    replace (final (match start_response with
                  | Some r => log Error (MCouldNotStart (Some (status_code r))
                                                        (text r))
                  | None => log Error MCouldNotSend
                  end w)) with w
      by (destruct start_response; reflexivity).
    rewrite bind_run. cbn [log emit out final events].
    rewrite bind_run. fold notice. rewrite Htel. cbn [ret out final events].
    rewrite app_nil_r. destruct start_response; reflexivity. }
  rewrite Hfirst. cbn [out final events].
  rewrite bind_run. fold wait. rewrite Hwait. cbn [ret out final events].
  now rewrite app_nil_r, <- app_assoc.
Qed.

Lemma overnads_play_started_counts (tickets : Z) (i : nat) (played : Z)
    (start_response : option response) (w : world) :
  let run := Overnads.play_started token chat_id tickets i played
                                   start_response w in
  count_events is_banner (events run) = 0%nat
  /\ (count_events is_game_started (events run) <= 1)%nat
  /\ (length (answers_of (events run)) <= 3)%nat
  /\ match out run with
     | Val p =>
         p = played + Z.of_nat (count_events is_game_started (events run))
     | Exit c => c = None
     | Raise _ => False
     end.
Proof.
  cbv zeta.
  destruct (match start_response with
            | Some r => response_ok r && is_200_201 (status_code r)
            | None => false
            end) eqn:Hs.
  - destruct start_response as [r|]; [|discriminate].
    apply andb_true_iff in Hs as (_ & Hs).
    rewrite (overnads_play_started_run token chat_id tickets i played r w Hs).
    cbv zeta.
    set (end_call := Overnads.send_request_with_retry _ _ _ _ _ _ _ _).
    destruct (plain_counts _ (overnads_executor_plain_from token chat_id
                API_game_end "POST"
                (Some (game_payload
                         (randint_of 90 110 (rnd w (rnd_calls w)))
                         (randint_of 1 4 (rnd w (S (rnd_calls w))))
                         (randint_of 0 4 (rnd w (S (S (rnd_calls w)))))))
                default_retries default_backoff (Z.to_nat default_retries) 0
                (drawn 3 w))) as (Hb & Hg).
    destruct (overnads_executor_outcome token chat_id API_game_end "POST"
                (Some (game_payload
                         (randint_of 90 110 (rnd w (rnd_calls w)))
                         (randint_of 1 4 (rnd w (S (rnd_calls w))))
                         (randint_of 0 4 (rnd w (S (S (rnd_calls w)))))))
                default_retries default_backoff (Z.to_nat default_retries) 0
                (drawn 3 w)) as (Hc & Ho).
    cbv zeta in Hc, Ho.
    change (Overnads.send_request_with_retry_from token chat_id
              (Z.to_nat default_retries) 0 API_game_end "POST"
              (Some (game_payload
                       (randint_of 90 110 (rnd w (rnd_calls w)))
                       (randint_of 1 4 (rnd w (S (rnd_calls w))))
                       (randint_of 0 4 (rnd w (S (S (rnd_calls w)))))))
              default_retries default_backoff (drawn 3 w))
      with end_call in Hb, Hg, Hc, Ho.
    change (Z.to_nat default_retries) with 3%nat in Hc.
    destruct (plain_counts _ (overnads_wait_next_plain tickets i
                                (final end_call))) as (Hwb & Hwg).
    destruct (overnads_wait_next_quiet tickets i (final end_call))
      as (Hwo & Hwq).
    pose proof (answers_of_no_request _ Hwq) as Hwa.
    destruct (out end_call) as [res| |]; cbn [events out];
      rewrite ?Hwo;
      rewrite ?count_events_app, ?answers_of_app, ?length_app;
      cbn [count_events answers_of is_banner is_game_started length app];
      rewrite ?count_events_app, ?answers_of_app, ?length_app, ?Hb, ?Hg,
        ?Hwb, ?Hwg, ?Hwa; cbn [length].
    + repeat split; lia.
    + repeat split; try lia. apply Ho.
    + contradiction.
  - rewrite (overnads_play_started_skip_run tickets i played start_response
               w Hs).
    cbv zeta. cbn [events out].
    destruct (plain_counts _ (telegram_plain token chat_id NCouldNotStart w))
      as (Htb & Htg).
    destruct (plain_counts _ (overnads_wait_next_plain tickets i
                (final (Overnads.send_telegram_message token chat_id
                          NCouldNotStart w)))) as (Hwb & Hwg).
    pose proof (answers_of_no_request _
                  (telegram_no_request token chat_id NCouldNotStart w)) as Hta.
    pose proof (answers_of_no_request _
                  (proj2 (overnads_wait_next_quiet tickets i
                     (final (Overnads.send_telegram_message token chat_id
                               NCouldNotStart w))))) as Hwa.
    rewrite !count_events_app, !answers_of_app, !length_app,
      Htb, Htg, Hwb, Hwg, Hta, Hwa.
    destruct start_response; cbn; repeat split; lia.
Qed.

Lemma overnads_play_ticket_counts (ta : json) (tickets : Z) (i : nat)
    (played : Z) (w : world) :
  let run := Overnads.play_ticket token chat_id ta tickets i played w in
  count_events is_banner (events run) = 1%nat
  /\ (count_events is_game_started (events run) <= 1)%nat
  /\ (length (answers_of (events run)) <= 6)%nat
  /\ match out run with
     | Val p =>
         p = played + Z.of_nat (count_events is_game_started (events run))
     | Exit c => c = None
     | Raise _ => False
     end.
Proof.
  cbv zeta. rewrite overnads_play_ticket_run. cbv zeta.
  set (start := Overnads.send_request_with_retry _ _ _ _ _ _ _ _).
  destruct (plain_counts _ (overnads_executor_plain_from token chat_id
              API_game_start "POST" None default_retries default_backoff
              (Z.to_nat default_retries) 0 w)) as (Hb & Hg).
  destruct (overnads_executor_outcome token chat_id API_game_start "POST"
              None default_retries default_backoff
              (Z.to_nat default_retries) 0 w) as (Hc & Ho).
  cbv zeta in Hc, Ho.
  change (Overnads.send_request_with_retry_from token chat_id
            (Z.to_nat default_retries) 0 API_game_start "POST" None
            default_retries default_backoff w) with start in Hb, Hg, Hc, Ho.
  change (Z.to_nat default_retries) with 3%nat in Hc.
  destruct (out start) as [sr| |]; cbn [events out].
  - destruct (overnads_play_started_counts tickets i played sr (final start))
      as (Hb' & Hg' & Hc' & Ho').
    cbv zeta in Hb', Hg', Hc', Ho'.
    rewrite !count_events_app, !answers_of_app, !length_app, Hb, Hg, Hb'.
    cbn [count_events is_banner is_game_started answers_of length].
    repeat split; try lia.
    destruct (out _); auto; try lia.
  - rewrite !count_events_app, !answers_of_app, !length_app, Hb, Hg.
    cbn [count_events is_banner is_game_started answers_of length].
    repeat split; try lia. apply Ho.
  - contradiction.
Qed.

Lemma overnads_play_tickets_counts (n i : nat) (ta : json)
    (tickets played : Z) (w : world) :
  let run := Overnads.play_tickets_from token chat_id n i ta tickets played w in
  (count_events is_game_started (events run)
   <= count_events is_banner (events run) <= n)%nat
  /\ (length (answers_of (events run)) <= 6 * n)%nat
  /\ match out run with
     | Val p =>
         count_events is_banner (events run) = n /\
         p = played + Z.of_nat (count_events is_game_started (events run))
     | Exit c => c = None
     | Raise _ => False
     end.
Proof.
  revert i played w. induction n as [|n IH]; intros i played w; cbv zeta.
  - cbn. repeat split; lia.
  - cbn [Overnads.play_tickets_from]. rewrite bind_run.
    destruct (overnads_play_ticket_counts ta tickets i played w)
      as (Hb & Hg & Hc & Ho).
    cbv zeta in Hb, Hg, Hc, Ho.
    destruct (out (Overnads.play_ticket token chat_id ta tickets i played w))
      as [p| |]; cbn [events out].
    + specialize (IH (S i) p
                     (final (Overnads.play_ticket token chat_id ta tickets i
                                                  played w))).
      cbv zeta in IH. destruct IH as (Hb' & Hc' & Ho').
      rewrite !count_events_app, answers_of_app, length_app.
      repeat split; try lia.
      destruct (out _); auto. lia.
    + repeat split; try lia. exact Ho.
    + contradiction.
Qed.

End OvernadsCounts.

(* ===================================================================== *)
(** ** The play loop ends the process only after a 401 *)

Lemma ends_with_rejection_app (l1 l2 : list event) :
  ends_with_rejection l2 -> ends_with_rejection (l1 ++ l2).
Proof.
  intros (r & Hl & Hs). exists r. split; [|exact Hs].
  now rewrite answers_of_app, last_app, Hl.
Qed.

Lemma exits_by_rejection_bind {A B} (m : M A) (k : A -> M B) :
  exits_by_rejection m -> (forall a, exits_by_rejection (k a)) ->
  exits_by_rejection (bind m k).
Proof.
  intros Hm Hk w c. rewrite bind_run.
  destruct (out (m w)) as [a|c'|e] eqn:Ho; cbn [out events].
  - intros H. apply ends_with_rejection_app. now apply (Hk a _ c).
  - intros H. now apply (Hm w c').
  - discriminate.
Qed.

Lemma exits_by_rejection_never {A} (m : M A) :
  (forall w c, out (m w) <> Exit c) -> exits_by_rejection m.
Proof. intros H w c Ho. now contradiction (H w c). Qed.

Lemma no_exit_ret {A} (a : A) : exits_by_rejection (ret a).
Proof. apply exits_by_rejection_never. discriminate. Qed.

Lemma no_exit_raise {A} (e : exn) : exits_by_rejection (@raise A e).
Proof. apply exits_by_rejection_never. discriminate. Qed.

Lemma no_exit_log (l : level) (m : message) : exits_by_rejection (log l m).
Proof. apply exits_by_rejection_never. discriminate. Qed.

Lemma no_exit_sleep (s : Z) : exits_by_rejection (sleep s).
Proof. apply exits_by_rejection_never. discriminate. Qed.

Lemma no_exit_randint (a b : Z) : exits_by_rejection (randint a b).
Proof. apply exits_by_rejection_never. discriminate. Qed.

Lemma no_exit_py_get (d : json) (key : string) (default : json) :
  exits_by_rejection (py_get d key default).
Proof. apply exits_by_rejection_never. intros w c. now destruct d. Qed.

Lemma no_exit_lift_option {A} (e : exn) (o : option A) :
  exits_by_rejection (lift_option e o).
Proof. apply exits_by_rejection_never. intros w c. now destruct o. Qed.

Lemma no_exit_get_account_stats : exits_by_rejection get_account_stats.
Proof. apply exits_by_rejection_never. discriminate. Qed.

Lemma no_exit_telegram (token chat_id : option string) (n : notice) :
  exits_by_rejection (Overnads.send_telegram_message token chat_id n).
Proof.
  apply exits_by_rejection_never. intros w c.
  now rewrite telegram_returns.
Qed.

Lemma exits_by_rejection_main_send_request (method url : string)
    (payload : option json) (retries backoff : Z) :
  exits_by_rejection (Main.send_request method url payload retries backoff).
Proof.
  intros w c Ho.
  destruct (main_executor_outcome method url payload retries backoff
              (Z.to_nat retries) 0 w) as (_ & H).
  cbv zeta in H. unfold Main.send_request in *. rewrite Ho in H.
  exact (proj2 H).
Qed.

Lemma exits_by_rejection_overnads_send_request (token chat_id : option string)
    (url method : string) (payload : option json)
    (retries backoff_factor : Z) :
  exits_by_rejection
    (Overnads.send_request_with_retry token chat_id url method payload
                                      retries backoff_factor).
Proof.
  intros w c Ho.
  destruct (overnads_executor_outcome token chat_id url method payload
              retries backoff_factor (Z.to_nat retries) 0 w) as (_ & H).
  cbv zeta in H. unfold Overnads.send_request_with_retry in *.
  rewrite Ho in H. exact (proj2 H).
Qed.

Create HintDb exits.
#[local] Hint Resolve no_exit_ret no_exit_raise no_exit_log no_exit_sleep
  no_exit_randint no_exit_py_get no_exit_lift_option
  no_exit_get_account_stats no_exit_telegram
  exits_by_rejection_main_send_request
  exits_by_rejection_overnads_send_request : exits.

(** Splits a computation along its binds, matches and tests, and closes the
    leaves with the hints. *)
Ltac split_exits :=
  repeat first
    [ progress auto with exits
    | apply exits_by_rejection_bind; [|intros ?]
    | match goal with
      | |- exits_by_rejection (match ?x with _ => _ end) => destruct x
      | |- exits_by_rejection (if ?b then _ else _) => destruct b
      end ].

Lemma exits_by_rejection_main_play_ticket (ta : json) (tickets : Z) (i : nat) :
  exits_by_rejection (Main.play_ticket ta tickets i).
Proof.
  unfold Main.play_ticket, Main.handle_stuck_game, Main.play_started,
    Main.wait_next.
  cbv zeta. split_exits.
Qed.

Lemma exits_by_rejection_main_play_tickets_from (n i : nat) (ta : json)
    (tickets : Z) :
  exits_by_rejection (Main.play_tickets_from n i ta tickets).
Proof.
  revert i. induction n as [|n IH]; intros i; cbn [Main.play_tickets_from].
  - auto with exits.
  - apply exits_by_rejection_bind;
      [apply exits_by_rejection_main_play_ticket|intros _; apply IH].
Qed.

Lemma exits_by_rejection_main_play_all_games (ta : json) :
  exits_by_rejection (Main.play_all_games ta).
Proof.
  pose proof exits_by_rejection_main_play_tickets_from.
  unfold Main.play_all_games. split_exits.
Qed.

Lemma exits_by_rejection_overnads_play_ticket (token chat_id : option string)
    (ta : json) (tickets : Z) (i : nat) (played : Z) :
  exits_by_rejection
    (Overnads.play_ticket token chat_id ta tickets i played).
Proof.
  unfold Overnads.play_ticket, Overnads.handle_stuck_game,
    Overnads.search_game_id_in, Overnads.play_started, Overnads.wait_next.
  cbv zeta. split_exits.
Qed.

Lemma exits_by_rejection_overnads_play_tickets_from
    (token chat_id : option string) (n i : nat) (ta : json)
    (tickets played : Z) :
  exits_by_rejection
    (Overnads.play_tickets_from token chat_id n i ta tickets played).
Proof.
  revert i played. induction n as [|n IH]; intros i played;
    cbn [Overnads.play_tickets_from].
  - auto with exits.
  - apply exits_by_rejection_bind;
      [apply exits_by_rejection_overnads_play_ticket|intros p; apply IH].
Qed.

Lemma exits_by_rejection_overnads_play_all_games
    (token chat_id : option string) :
  exits_by_rejection (Overnads.play_all_games token chat_id).
Proof.
  pose proof (exits_by_rejection_overnads_play_tickets_from token chat_id).
  unfold Overnads.play_all_games. split_exits.
Qed.

Lemma main_play_all_games_run (n : Z) (w : world) :
  n <> 0 ->
  let loop := Main.play_tickets_from (Z.to_nat n) 0 (JNum n) n w in
  Main.play_all_games (JNum n) w =
  match out loop with
  | Val _ =>
      Result (Val tt) (final loop)
             (ELog Info (MStartingSequence (JNum n)) :: events loop
              ++ [ELog Success (MSequenceFinished None)])
  | Exit c =>
      Result (Exit c) (final loop)
             (ELog Info (MStartingSequence (JNum n)) :: events loop)
  | Raise e =>
      Result (Raise e) (final loop)
             (ELog Info (MStartingSequence (JNum n)) :: events loop)
  end.
Proof.
  intros Hn loop. unfold Main.play_all_games. cbn [py_eq_zero py_int].
  replace (n =? 0) with false by (symmetry; now apply Z.eqb_neq).
  rewrite bind_run. cbn [log emit out final events].
  rewrite bind_run. cbn [lift_option ret out final events].
  rewrite bind_run. fold loop.
  destruct (out loop); reflexivity.
Qed.

Lemma overnads_play_all_games_run (token chat_id : option string)
    (m : gmap string json) (n : Z) (w : world) :
  account_stats w = JObj m -> m !! "tickets" = Some (JNum n) -> n <> 0 ->
  let loop := Overnads.play_tickets_from token chat_id (Z.to_nat n) 0
                                         (JNum n) n 0 w in
  Overnads.play_all_games token chat_id w =
  match out loop with
  | Val played =>
      Result (Val tt) (final loop)
             (ELog Info (MStartingSequence (JNum n)) :: events loop
              ++ [ELog Info (MSequenceFinished (Some played))])
  | Exit c =>
      Result (Exit c) (final loop)
             (ELog Info (MStartingSequence (JNum n)) :: events loop)
  | Raise e =>
      Result (Raise e) (final loop)
             (ELog Info (MStartingSequence (JNum n)) :: events loop)
  end.
Proof.
  intros Hstats Ht Hn loop. unfold Overnads.play_all_games.
  rewrite bind_run. cbn [get_account_stats out final events]. rewrite Hstats.
  rewrite bind_run, py_get_object. unfold field_or. rewrite Ht.
  cbn [out final events py_eq_zero py_int].
  replace (n =? 0) with false by (symmetry; now apply Z.eqb_neq).
  rewrite bind_run. cbn [log emit out final events].
  rewrite bind_run. cbn [lift_option ret out final events].
  rewrite bind_run. fold loop.
  destruct (out loop); reflexivity.
Qed.

Lemma overnads_play_all_games_zero (token chat_id : option string)
    (m : gmap string json) (w : world) :
  account_stats w = JObj m -> m !! "tickets" = Some (JNum 0) ->
  Overnads.play_all_games token chat_id w
  = Result (Val tt) w [ELog Info MNoTickets].
Proof.
  intros Hstats Ht. unfold Overnads.play_all_games.
  rewrite bind_run. cbn [get_account_stats out final events]. rewrite Hstats.
  rewrite bind_run, py_get_object. unfold field_or. now rewrite Ht.
Qed.

Lemma main_play_all_games_outcome (n : Z) (w : world) :
  let run := Main.play_all_games (JNum n) w in
  match out run with
  | Val _ => count_events is_banner (events run) = Z.to_nat n
  | Exit c => c = Some 1
  | Raise _ => False
  end.
Proof.
  cbv zeta. destruct (Z.eq_dec n 0) as [->|Hn]; [reflexivity|].
  rewrite (main_play_all_games_run n w Hn). cbv zeta.
  destruct (main_play_tickets_counts (Z.to_nat n) 0 (JNum n) n w)
    as (_ & _ & Ho).
  cbv zeta in Ho. destruct (out _); cbn [out events]; auto.
  cbn [count_events is_banner]. rewrite count_events_app. cbn. lia.
Qed.

Lemma overnads_play_all_games_outcome (token chat_id : option string)
    (m : gmap string json) (n : Z) (w : world) :
  account_stats w = JObj m -> m !! "tickets" = Some (JNum n) ->
  let run := Overnads.play_all_games token chat_id w in
  match out run with
  | Val _ => count_events is_banner (events run) = Z.to_nat n
  | Exit c => c = None
  | Raise _ => False
  end.
Proof.
  intros Hstats Ht. cbv zeta. destruct (Z.eq_dec n 0) as [->|Hn].
  - rewrite (overnads_play_all_games_zero token chat_id m w Hstats Ht).
    reflexivity.
  - rewrite (overnads_play_all_games_run token chat_id m n w Hstats Ht Hn).
    cbv zeta.
    destruct (overnads_play_tickets_counts token chat_id (Z.to_nat n) 0
                (JNum n) n 0 w) as (_ & _ & Ho).
    cbv zeta in Ho. destruct (out _); cbn [out events]; auto.
    cbn [count_events is_banner]. rewrite count_events_app. cbn. lia.
Qed.

(** X9: a failed ticket never stops the play loop.  With an integer ticket
    count [n], a run of the loop raises nothing; it ends the process only
    right after a request that was answered with 401 (the last answer of
    the run; with code 1 in [main.py], with a bare [exit()] in
    [overnads.py]); and when it returns it has gone through exactly [n]
    iterations ([0] for a negative [n]), each announced by its banner. *)
Theorem play_loop_runs_every_ticket (token chat_id : option string)
    (n : Z) (w : world) :
  (let run := Main.play_all_games (JNum n) w in
   match out run with
   | Val _ => count_events is_banner (events run) = Z.to_nat n
   | Exit c => c = Some 1 /\ ends_with_rejection (events run)
   | Raise _ => False
   end)
  /\ (forall m,
        account_stats w = JObj m -> m !! "tickets" = Some (JNum n) ->
        let run := Overnads.play_all_games token chat_id w in
        match out run with
        | Val _ => count_events is_banner (events run) = Z.to_nat n
        | Exit c => c = None /\ ends_with_rejection (events run)
        | Raise _ => False
        end).
Proof.
  split.
  - cbv zeta. pose proof (main_play_all_games_outcome n w) as Ho.
    pose proof (exits_by_rejection_main_play_all_games (JNum n) w) as Hexit.
    cbv zeta in Ho.
    destruct (out (Main.play_all_games (JNum n) w)) as [u|c|e];
      [exact Ho| |exact Ho].
    split; [exact Ho|]. now apply (Hexit c).
  - intros m Hstats Ht. cbv zeta.
    pose proof (overnads_play_all_games_outcome token chat_id m n w Hstats Ht)
      as Ho.
    pose proof (exits_by_rejection_overnads_play_all_games token chat_id w)
      as Hexit.
    cbv zeta in Ho.
    destruct (out (Overnads.play_all_games token chat_id w)) as [u|c|e];
      [exact Ho| |exact Ho].
    split; [exact Ho|]. now apply (Hexit c).
Qed.


(** The loop of [overnads.py] on two tickets, the second start being
    answered with a conflict: both iterations run. *)
Lemma play_loop_runs_every_ticket_witness :
  count_events is_banner
    (events (Overnads.play_all_games None None
               MoreExamples.played_then_conflict)) = 2%nat.
Proof.
  generalize (proj2 (play_loop_runs_every_ticket None None 2
                       MoreExamples.played_then_conflict)
                    (<["tickets" := JNum 2]> ∅) eq_refl eq_refl).
  vm_compute. exact (fun H => H).
Defined.

(** X10: the play loop makes at most six requests per ticket, three for the
    start and three for the end: at most [6 * n] for [n] tickets, whatever
    the network answers. *)
Theorem play_loop_request_bound (token chat_id : option string)
    (n : Z) (w : world) :
  (length (answers_of (events (Main.play_all_games (JNum n) w)))
   <= 6 * Z.to_nat n)%nat
  /\ (forall m,
        account_stats w = JObj m -> m !! "tickets" = Some (JNum n) ->
        (length (answers_of (events (Overnads.play_all_games token chat_id w)))
         <= 6 * Z.to_nat n)%nat).
Proof.
  split.
  - destruct (Z.eq_dec n 0) as [->|Hn]; [cbn; lia|].
    rewrite (main_play_all_games_run n w Hn). cbv zeta.
    destruct (main_play_tickets_counts (Z.to_nat n) 0 (JNum n) n w)
      as (_ & Hc & _).
    cbv zeta in Hc. destruct (out _); cbn [events answers_of];
      rewrite ?answers_of_app, ?length_app; cbn [answers_of length]; lia.
  - intros m Hstats Ht. destruct (Z.eq_dec n 0) as [->|Hn].
    + rewrite (overnads_play_all_games_zero token chat_id m w Hstats Ht).
      cbn. lia.
    + rewrite (overnads_play_all_games_run token chat_id m n w Hstats Ht Hn).
      cbv zeta.
      destruct (overnads_play_tickets_counts token chat_id (Z.to_nat n) 0
                  (JNum n) n 0 w) as (_ & Hc & _).
      cbv zeta in Hc. destruct (out _); cbn [events answers_of];
        rewrite ?answers_of_app, ?length_app; cbn [answers_of length]; lia.
Qed.

(** The two tickets of the example stay within twelve requests. *)
Lemma play_loop_request_bound_witness :
  (length (answers_of (events (Overnads.play_all_games None None
                                 MoreExamples.played_then_conflict)))
   <= 12)%nat.
Proof.
  generalize (proj2 (play_loop_request_bound None None 2
                       MoreExamples.played_then_conflict)
                    (<["tickets" := JNum 2]> ∅) eq_refl eq_refl).
  vm_compute. exact (fun H => H).
Defined.

(** X11: the number of games that [overnads.py] reports at the end of the loop
    is the number of games it started (the log line of the simulated game),
    and is at most the number of tickets. *)
Theorem overnads_reports_started_games (token chat_id : option string)
    (m : gmap string json) (n : Z) (w : world) :
  account_stats w = JObj m -> m !! "tickets" = Some (JNum n) -> n <> 0 ->
  out (Overnads.play_all_games token chat_id w) = Val tt ->
  exists evs,
    events (Overnads.play_all_games token chat_id w)
    = evs ++ [ELog Info (MSequenceFinished
                           (Some (Z.of_nat (count_events is_game_started evs))))]
    /\ (count_events is_game_started evs <= Z.to_nat n)%nat.
Proof.
  intros Hstats Ht Hn.
  rewrite (overnads_play_all_games_run token chat_id m n w Hstats Ht Hn).
  cbv zeta.
  destruct (overnads_play_tickets_counts token chat_id (Z.to_nat n) 0
              (JNum n) n 0 w) as (Hb & _ & Ho).
  cbv zeta in Hb, Ho. destruct (out _) as [p| |]; cbn [out events];
    try discriminate.
  intros _. destruct Ho as (_ & ->).
  eexists (ELog Info (MStartingSequence (JNum n)) :: _).
  split; [reflexivity|]. cbn [count_events is_game_started]. lia.
Qed.

(** Of the two tickets of the example, one game is started and reported. *)
Lemma overnads_reports_started_games_witness :
  exists evs,
    events (Overnads.play_all_games None None MoreExamples.played_then_conflict)
    = evs ++ [ELog Info (MSequenceFinished
                           (Some (Z.of_nat (count_events is_game_started evs))))]
    /\ (count_events is_game_started evs <= 2)%nat.
Proof.
  apply (overnads_reports_started_games None None
           (<["tickets" := JNum 2]> ∅) 2 MoreExamples.played_then_conflict
           eq_refl eq_refl); [discriminate|vm_compute; reflexivity].
Defined.

(* ===================================================================== *)
(** ** The game-id pattern *)

Lemma append_cons (a : ascii) (p s : string) :
  (String a p ++ s)%string = String a (p ++ s)%string.
Proof. reflexivity. Qed.

Lemma append_nil (s : string) : (EmptyString ++ s)%string = s.
Proof. reflexivity. Qed.

Lemma strip_prefix_app (p s after : string) :
  strip_prefix p s = Some after -> s = (p ++ after)%string.
Proof.
  revert s. induction p as [|a p IH]; intros s H.
  - cbn in H. now inversion H.
  - destruct s as [|b s]; [discriminate|]. cbn in H.
    destruct (Ascii.eqb a b) eqn:E; [|discriminate].
    apply Ascii.eqb_eq in E. subst b. rewrite append_cons. f_equal.
    now apply IH.
Qed.

Lemma strip_prefix_of_app (p s : string) :
  strip_prefix p (p ++ s)%string = Some s.
Proof.
  induction p as [|a p IH]; [reflexivity|].
  rewrite append_cons. cbn [strip_prefix]. now rewrite Ascii.eqb_refl.
Qed.

Lemma take_game_id_split (s : string) :
  exists post,
    s = (take_game_id s ++ post)%string /\
    game_id_string (take_game_id s) /\ game_id_stops post.
Proof.
  unfold game_id_string. induction s as [|c s (post & Hs & Hid & Hstop)].
  - exists EmptyString. repeat split.
  - cbn [take_game_id]. destruct (game_id_char c) eqn:E.
    + exists post. rewrite append_cons, <- Hs.
      cbn [list_ascii_of_string forallb]. rewrite E, Hid.
      repeat split. exact Hstop.
    + exists (String c s). rewrite append_nil. repeat split. exact E.
Qed.

(** X12: what the pattern extracts.  When [search_game_id] finds an id in a
    text, the id is not empty and is made of the characters [a-f], [0-9]
    and [-] only; the text has ["Game ID: "] followed by the id, and the id
    is the whole run of such characters there. *)
Theorem search_game_id_sound (s id : string) :
  search_game_id s = Some id ->
  id <> EmptyString /\ game_id_string id /\
  exists pre post,
    s = (pre ++ "Game ID: " ++ id ++ post)%string /\ game_id_stops post.
Proof.
  revert id. induction s as [|c s IH]; intros id H; [discriminate|].
  assert (Hrec : search_game_id s = Some id ->
            id <> EmptyString /\ game_id_string id /\
            exists pre post,
              String c s = (pre ++ "Game ID: " ++ id ++ post)%string /\
              game_id_stops post).
  { intros Hs. destruct (IH id Hs) as (Hne & Hid & pre & post & Heq & Hstop).
    repeat split; auto. exists (String c pre), post.
    rewrite append_cons, <- Heq. auto. }
  cbn [search_game_id] in H.
  destruct (strip_prefix "Game ID: " (String c s)) as [after|] eqn:Hp;
    [|now apply Hrec].
  destruct (take_game_id after) as [|a g] eqn:Ht; [now apply Hrec|].
  inversion H; subst id. clear H Hrec.
  destruct (take_game_id_split after) as (post & Hafter & Hid & Hstop).
  rewrite Ht in Hafter, Hid.
  split; [discriminate|]. split; [exact Hid|].
  exists EmptyString, post. split; [|exact Hstop].
  apply strip_prefix_app in Hp. rewrite Hp, append_nil.
  now rewrite Hafter at 1.
Qed.

(** The id of the conflict text of the examples. *)
Lemma search_game_id_sound_witness :
  "abc12345-0000-0000-0000-000000000000" <> EmptyString /\
  game_id_string "abc12345-0000-0000-0000-000000000000" /\
  exists pre post,
    Examples.conflict_text
    = (pre ++ "Game ID: " ++ "abc12345-0000-0000-0000-000000000000"
           ++ post)%string /\
    game_id_stops post.
Proof.
  apply (search_game_id_sound Examples.conflict_text
           "abc12345-0000-0000-0000-000000000000").
  reflexivity.
Defined.

(** X13: the pattern misses no id.  A text in which ["Game ID: "] is followed
    by a character of [a-f], [0-9] or [-], wherever that is in the text,
    always yields an id. *)
Theorem search_game_id_complete (pre rest : string) (c : ascii) :
  game_id_char c = true ->
  exists id,
    search_game_id (pre ++ "Game ID: " ++ String c rest)%string = Some id.
Proof.
  intros Hc. induction pre as [|a pre (id & IH)].
  - change (EmptyString ++ "Game ID: " ++ String c rest)%string
      with ("Game ID: " ++ String c rest)%string.
    change (search_game_id ("Game ID: " ++ String c rest)%string)
      with (match strip_prefix "Game ID: " ("Game ID: " ++ String c rest)%string
            with
            | Some after =>
                match take_game_id after with
                | EmptyString => search_game_id ("ame ID: " ++ String c rest)%string
                | g => Some g
                end
            | None => search_game_id ("ame ID: " ++ String c rest)%string
            end).
    rewrite strip_prefix_of_app. cbn [take_game_id]. rewrite Hc. eauto.
  - change (String a pre ++ "Game ID: " ++ String c rest)%string
      with (String a (pre ++ "Game ID: " ++ String c rest)%string).
    cbn [search_game_id]. rewrite IH.
    destruct (strip_prefix _ _) as [after|]; [|eauto].
    destruct (take_game_id after); eauto.
Qed.

(** An id after a first ["Game ID: "] that no id follows. *)
Lemma search_game_id_complete_witness :
  exists id,
    search_game_id ("error: Game ID: " ++ "Game ID: " ++ String "7" "F")%string
    = Some id.
Proof.
  apply (search_game_id_complete "error: Game ID: " "F" "7"). reflexivity.
Defined.

(* ===================================================================== *)
(** ** The stats: failed and malformed answers, and the summary *)

Lemma main_fetch_failed (w : world) (res : option response) :
  let stats_call := Main.send_request "GET" API_user_profile None
                      default_retries default_backoff w in
  out stats_call = Val res ->
  match res with Some r => status_code r <> 200 | None => True end ->
  Main.fetch_account_stats w
  = Result (Val None) (final stats_call)
           (ELog Info MFetchingStats :: events stats_call
            ++ [ELog Error MStatsFetchFailed]).
Proof.
  intros stats_call Hout Hres. unfold Main.fetch_account_stats.
  rewrite bind_run. cbn [log emit out final events].
  rewrite bind_run. fold stats_call. rewrite Hout.
  destruct res as [r|]; [|reflexivity].
  replace (status_code r =? 200) with false
    by (symmetry; now apply Z.eqb_neq).
  now rewrite andb_false_r.
Qed.

Lemma overnads_fetch_failed (token chat_id : option string) (w : world)
    (res : option response) :
  let stats_call := Overnads.send_request_with_retry token chat_id
                      API_user_profile "GET" None
                      default_retries default_backoff w in
  out stats_call = Val res ->
  match res with Some r => status_code r <> 200 | None => True end ->
  Overnads.fetch_account_stats token chat_id w
  = Result (Val false) (final stats_call)
           (ELog Info MFetchingStats :: events stats_call).
Proof.
  intros stats_call Hout Hres. unfold Overnads.fetch_account_stats.
  rewrite bind_run. cbn [log emit out final events].
  rewrite bind_run. fold stats_call. rewrite Hout.
  destruct res as [r|]; [|cbn; now rewrite app_nil_r].
  replace (status_code r =? 200) with false
    by (symmetry; now apply Z.eqb_neq).
  rewrite andb_false_r. cbn. now rewrite app_nil_r.
Qed.

Lemma telegram_unconfigured_run (token chat_id : option string) (n : notice)
    (w : world) :
  Overnads.configured token && Overnads.configured chat_id = false ->
  Overnads.send_telegram_message token chat_id n w = Result (Val tt) w [].
Proof.
  unfold Overnads.send_telegram_message. intros H.
  destruct token, chat_id; try reflexivity. now rewrite H.
Qed.

(** X14: a failed first fetch of the stats stops the run before the play
    loop.  When the executor returns [None] or a response whose status is
    not 200 for the first stats request, [main.py] exits with code 1 and
    [overnads.py] (here without Telegram) with a bare [exit()]; the trace
    has the events of that one request and the log lines of the failure,
    nothing else. *)
Theorem failed_first_fetch_stops_the_run (token chat_id : option string)
    (w : world) (res : option response) :
  match res with Some r => status_code r <> 200 | None => True end ->
  (let stats_call := Main.send_request "GET" API_user_profile None
                       default_retries default_backoff w in
   out stats_call = Val res ->
   Main.main w
   = Result (Exit (Some 1)) (final stats_call)
       ([ELog Plain MBotStarted; ELog Info MFetchingStats]
        ++ events stats_call
        ++ [ELog Error MStatsFetchFailed; ELog Error MInitialStatsFailed]))
  /\
  (let stats_call := Overnads.send_request_with_retry token chat_id
                       API_user_profile "GET" None
                       default_retries default_backoff w in
   Overnads.configured token && Overnads.configured chat_id = false ->
   out stats_call = Val res ->
   Overnads.main token chat_id w
   = Result (Exit None) (final stats_call)
       ([ELog Info MBotStarted; ELog Info MFetchingStats]
        ++ events stats_call ++ [ELog Error MInitialStatsFailed])).
Proof.
  intros Hres. split.
  - intros stats_call Hout. unfold Main.main.
    rewrite bind_run. cbn [log emit out final events].
    rewrite bind_run, (main_fetch_failed w res Hout Hres).
    cbn [out final events]. fold stats_call.
    cbn [app]. now rewrite <- app_assoc.
  - intros stats_call Hc Hout. unfold Overnads.main.
    rewrite bind_run. cbn [log emit out final events].
    rewrite bind_run, (telegram_unconfigured_run _ _ _ _ Hc).
    cbn [out final events].
    rewrite bind_run, (overnads_fetch_failed token chat_id w res Hout Hres).
    cbn [out final events]. fold stats_call. reflexivity.
Qed.

(** The stats request is answered by server errors only. *)
Lemma failed_first_fetch_stops_the_run_witness :
  out (Main.main Examples.always_failing) = Exit (Some 1)
  /\ out (Overnads.main None None Examples.always_failing) = Exit None.
Proof.
  destruct (failed_first_fetch_stops_the_run None None
              Examples.always_failing None I) as (Hm & Ho).
  split.
  - rewrite Hm; reflexivity.
  - rewrite Ho; reflexivity.
Defined.

(** X15: a stats answer with status 200 whose body is not JSON.  [main.py]
    catches the decoding error: the fetch returns [None] and the script
    exits with code 1.  [overnads.py] does not catch it: a
    [JSONDecodeError] escapes from the fetch, the global stats unchanged,
    and ends the script (here without Telegram). *)
Theorem stats_body_not_json (token chat_id : option string) (w : world)
    (r : response) :
  net w (net_calls w) = Responded r ->
  status_code r = 200 ->
  json_body r = None ->
  let request := ERequest "GET" API_user_profile None (Responded r) in
  Main.fetch_account_stats w
  = Result (Val None) (bump_net w)
           [ELog Info MFetchingStats; request; ELog Error MStatsParseFailed]
  /\ Main.main w
     = Result (Exit (Some 1)) (bump_net w)
         [ ELog Plain MBotStarted; ELog Info MFetchingStats; request;
           ELog Error MStatsParseFailed; ELog Error MInitialStatsFailed ]
  /\ Overnads.fetch_account_stats token chat_id w
     = Result (Raise JSONDecodeError) (bump_net w)
              [ELog Info MFetchingStats; request]
  /\ (Overnads.configured token && Overnads.configured chat_id = false ->
      Overnads.main token chat_id w
      = Result (Raise JSONDecodeError) (bump_net w)
               [ELog Info MBotStarted; ELog Info MFetchingStats; request]).
Proof.
  intros Hr Hs Hb request.
  destruct (status_200_ok r Hs) as (Hok & Hlt & Hne).
  assert (Hmain : Main.fetch_account_stats w
            = Result (Val None) (bump_net w)
                [ ELog Info MFetchingStats; request;
                  ELog Error MStatsParseFailed ]).
  { unfold Main.fetch_account_stats.
    rewrite bind_run. cbn [log emit out final events].
    rewrite bind_run, (main_send_request_at_once _ _ _ w r Hr Hlt Hne).
    cbn [out final events]. now rewrite Hok, Hb. }
  assert (Hover : Overnads.fetch_account_stats token chat_id w
            = Result (Raise JSONDecodeError) (bump_net w)
                [ELog Info MFetchingStats; request]).
  { unfold Overnads.fetch_account_stats.
    rewrite bind_run. cbn [log emit out final events].
    rewrite bind_run,
      (overnads_send_request_get_at_once _ _ _ _ w r Hr Hlt Hne).
    cbn [out final events]. now rewrite Hok, Hb. }
  split; [exact Hmain|]. split; [|split; [exact Hover|]].
  - unfold Main.main. rewrite bind_run. cbn [log emit out final events].
    rewrite bind_run, Hmain. reflexivity.
  - intros Hc. unfold Overnads.main.
    rewrite bind_run. cbn [log emit out final events].
    rewrite bind_run, (telegram_unconfigured_run _ _ _ _ Hc).
    cbn [out final events]. rewrite bind_run, Hover. reflexivity.
Qed.

(** The stats request is answered with a page of HTML. *)
Lemma stats_body_not_json_witness :
  out (Main.main MoreExamples.stats_html) = Exit (Some 1)
  /\ out (Overnads.main None None MoreExamples.stats_html)
     = Raise JSONDecodeError.
Proof.
  destruct (stats_body_not_json None None MoreExamples.stats_html
              (Response 200 "<html>maintenance</html>" None)
              eq_refl eq_refl eq_refl) as (_ & Hm & _ & Ho).
  split.
  - now rewrite Hm.
  - now rewrite Ho.
Defined.

(** X16: a stats answer with status 200 whose body is JSON but not an object
    (a list, a string, a number, [null]).  Neither script returns from the
    fetch: the first [.get] raises an [AttributeError] that nothing
    catches; [overnads.py] has by then stored the value as its global
    stats. *)
Theorem stats_body_not_an_object (token chat_id : option string) (w : world)
    (r : response) (v : json) :
  net w (net_calls w) = Responded r ->
  status_code r = 200 ->
  json_body r = Some v ->
  (forall m, v <> JObj m) ->
  let request := ERequest "GET" API_user_profile None (Responded r) in
  Main.fetch_account_stats w
  = Result (Raise AttributeError) (bump_net w)
           [ELog Info MFetchingStats; request]
  /\ Overnads.fetch_account_stats token chat_id w
     = Result (Raise AttributeError)
         (World (net w) (rnd w) (S (net_calls w)) (rnd_calls w) v)
         [ELog Info MFetchingStats; request].
Proof.
  intros Hr Hs Hb Hv request.
  destruct (status_200_ok r Hs) as (Hok & Hlt & Hne).
  assert (Hget : forall key d w', py_get v key d w'
                                  = Result (Raise AttributeError) w' []).
  { intros key d w'. destruct v; try reflexivity. now contradiction (Hv m). }
  split.
  - unfold Main.fetch_account_stats.
    rewrite bind_run. cbn [log emit out final events].
    rewrite bind_run, (main_send_request_at_once _ _ _ w r Hr Hlt Hne).
    cbn [out final events]. rewrite Hok, Hb.
    rewrite bind_run, Hget. reflexivity.
  - unfold Overnads.fetch_account_stats.
    rewrite bind_run. cbn [log emit out final events].
    rewrite bind_run,
      (overnads_send_request_get_at_once _ _ _ _ w r Hr Hlt Hne).
    cbn [out final events]. rewrite Hok, Hb.
    rewrite bind_run. cbn [lift_option ret out final events].
    rewrite bind_run. cbn [set_account_stats out final events].
    rewrite bind_run, Hget. reflexivity.
Qed.

(** The stats request is answered with the JSON list [[]]. *)
Lemma stats_body_not_an_object_witness :
  out (Main.fetch_account_stats
         (Examples.world_of [Responded (Response 200 "[]" (Some (JArr [])))]
                            (JObj ∅)))
  = Raise AttributeError.
Proof.
  destruct (stats_body_not_an_object None None
              (Examples.world_of
                 [Responded (Response 200 "[]" (Some (JArr [])))] (JObj ∅))
              (Response 200 "[]" (Some (JArr []))) (JArr [])
              eq_refl eq_refl eq_refl) as (Hm & _).
  - discriminate.
  - now rewrite Hm.
Defined.

Lemma summary_gain (mi mf : gmap string json) (key : string) (a b : Z)
    (w : world) :
  int_field mi key = Some a -> int_field mf key = Some b ->
  Summary.gain (JObj mi) (JObj mf) key w = Result (Val (b - a)) w [].
Proof.
  unfold int_field, Summary.gain. intros Ha Hb.
  rewrite bind_run, py_get_object. cbn [out final events].
  rewrite bind_run, py_get_object. cbn [out final events].
  unfold field_or, Summary.py_sub.
  destruct (mf !! key) as [vf|]; destruct (mi !! key) as [vi|];
    cbn [py_int] in *; rewrite ?Ha, ?Hb;
    inversion Ha; inversion Hb; subst; reflexivity.
Qed.

(** X17: the table of [print_summary].  For two stats that are not empty and
    whose fields [overPoints], [coins] and [tickets] are integers or
    absent, the three gains are the differences of the fields, an absent
    field counting as 0; for the same stats before and after, the gains are
    all 0.  With stats that are missing or empty on either side no table
    is printed. *)
Theorem print_summary_gains (mi mf : gmap string json)
    (p1 c1 t1 p2 c2 t2 : Z) (w : world) :
  size mi <> 0%nat -> size mf <> 0%nat ->
  int_field mi "overPoints" = Some p1 -> int_field mf "overPoints" = Some p2 ->
  int_field mi "coins" = Some c1 -> int_field mf "coins" = Some c2 ->
  int_field mi "tickets" = Some t1 -> int_field mf "tickets" = Some t2 ->
  Summary.print_summary (Some (JObj mi)) (Some (JObj mf)) w
  = Result (Val (Summary.Table (p2 - p1) (c2 - c1) (t2 - t1))) w []
  /\ Summary.print_summary (Some (JObj mi)) (Some (JObj mi)) w
     = Result (Val (Summary.Table 0 0 0)) w []
  /\ (forall stats,
        Summary.print_summary None stats w = Result (Val Summary.Missing) w []
        /\ Summary.print_summary stats None w
           = Result (Val Summary.Missing) w []
        /\ Summary.print_summary (Some (JObj ∅)) stats w
           = Result (Val Summary.Missing) w []
        /\ Summary.print_summary stats (Some (JObj ∅)) w
           = Result (Val Summary.Missing) w []).
Proof.
  intros Hi Hf Hp1 Hp2 Hc1 Hc2 Ht1 Ht2.
  assert (Htable : forall ma mb a1 a2 a3 b1 b2 b3,
            size ma <> 0%nat -> size mb <> 0%nat ->
            int_field ma "overPoints" = Some a1 ->
            int_field mb "overPoints" = Some b1 ->
            int_field ma "coins" = Some a2 -> int_field mb "coins" = Some b2 ->
            int_field ma "tickets" = Some a3 ->
            int_field mb "tickets" = Some b3 ->
            Summary.print_summary (Some (JObj ma)) (Some (JObj mb)) w
            = Result (Val (Summary.Table (b1 - a1) (b2 - a2) (b3 - a3))) w []).
  { intros ma mb a1 a2 a3 b1 b2 b3 Ha Hb H1 H1' H2 H2' H3 H3'.
    unfold Summary.print_summary. cbn [py_truthy].
    replace (size ma =? 0)%nat with false by (symmetry; now apply Nat.eqb_neq).
    replace (size mb =? 0)%nat with false by (symmetry; now apply Nat.eqb_neq).
    cbn [negb orb].
    rewrite bind_run, (summary_gain ma mb _ a1 b1 w H1 H1').
    cbn [out final events].
    rewrite bind_run, (summary_gain ma mb _ a2 b2 w H2 H2').
    cbn [out final events].
    rewrite bind_run, (summary_gain ma mb _ a3 b3 w H3 H3').
    reflexivity. }
  split; [now apply Htable|]. split.
  - rewrite (Htable mi mi p1 c1 t1 p1 c1 t1) by assumption.
    now rewrite !Z.sub_diag.
  - intros stats. split; [|split; [|split]].
    + destruct stats; reflexivity.
    + destruct stats; reflexivity.
    + destruct stats; reflexivity.
    + destruct stats as [s|]; [|reflexivity].
      unfold Summary.print_summary.
      change (py_truthy (JObj ∅)) with false.
      now destruct (negb (py_truthy s)).
Qed.

(** The stats of the examples, before and after a run without a game. *)
Lemma print_summary_gains_witness :
  Summary.print_summary (Some MoreExamples.stats_42)
                        (Some MoreExamples.stats_42) Examples.silent
  = Result (Val (Summary.Table 0 0 0)) Examples.silent [].
Proof.
  refine (proj1 (proj2 (print_summary_gains
            (<["username" := JStr "bob"]>
               (<["overPoints" := JNum 42]> (<["coins" := JNum 7]> ∅)))
            (<["username" := JStr "bob"]>
               (<["overPoints" := JNum 42]> (<["coins" := JNum 7]> ∅)))
            42 7 0 42 7 0 Examples.silent _ _ _ _ _ _ _ _)));
    try reflexivity; vm_compute; discriminate.
Defined.
